(** * twittp: trend lines, alignment distances and model assembly

    A shallow embedding of [twittp/model.py] and of the parts of
    [twittp/twitter.py] it calls, with the properties of the trend model
    stated and settled against it.

    Numbers.  Python's numbers are modelled by exact rationals ([Q]); the
    tweet counts are integers and every average is a true division of
    integers, so each concrete evaluation below is exact in Python too.
    Timestamps are integers ([Z]).

    Exceptions.  Code that can raise returns a [result]; the constructor
    [Raise] carries the exception class. *)

From stdpp Require Import base option list strings gmap sorting.
From Stdlib Require Import ZArith QArith Qminmax Lqa Lia.

Local Open Scope Q_scope.

(** ** Exceptions *)

Inductive exn : Set :=
| AttributeError
| IndexError
| KeyError
| TypeError
| ValueError
| ZeroDivisionError.

Inductive result (A : Type) : Type :=
| Ok (a : A)
| Raise (e : exn).

Arguments Ok {A} a.
Arguments Raise {A} e.

#[global] Instance result_ret : MRet result := fun _ a => Ok a.
#[global] Instance result_bind : MBind result := fun _ _ f m =>
  match m with
  | Ok a => f a
  | Raise e => Raise e
  end.
#[global] Instance result_fmap : FMap result := fun _ _ f m =>
  match m with
  | Ok a => Ok (f a)
  | Raise e => Raise e
  end.

(** [for x in xs: st = body x st], stopping at the first exception. *)
Fixpoint for_each {A S : Type} (xs : list A) (body : A -> S -> result S)
    (st : S) : result S :=
  match xs with
  | [] => Ok st
  | x :: xs' => st' ← body x st; for_each xs' body st'
  end.

(** [range(n)] *)
Definition range (n : nat) : list nat := seq 0 n.

(** [[f x for x in xs]] where [f] can raise. *)
Fixpoint comprehension {A B : Type} (f : A -> result B) (xs : list A)
    : result (list B) :=
  match xs with
  | [] => Ok []
  | x :: xs' => y ← f x; ys ← comprehension f xs'; Ok (y :: ys)
  end.

(** [xs[i]] for a non-negative index. *)
Definition getitem {A : Type} (xs : list A) (i : nat) : result A :=
  match xs !! i with
  | Some x => Ok x
  | None => Raise IndexError
  end.

(** [xs[i] = x] for a non-negative index. *)
Definition setitem {A : Type} (xs : list A) (i : nat) (x : A)
    : result (list A) :=
  if decide (i < length xs)%nat then Ok (<[i:=x]> xs) else Raise IndexError.

(** Python's comparisons on numbers. *)
Definition py_eq (x y : Q) : bool := Qeq_bool x y.
Definition py_lt (x y : Q) : bool := negb (Qle_bool y x).
Definition py_gt (x y : Q) : bool := py_lt y x.

(** [min(x, y, z)]: the first of the smallest arguments. *)
Definition py_min3 (x y z : Q) : Q := Qmin (Qmin x y) z.

(** [max(xs)]: the first of the largest elements, [ValueError] on [[]]. *)
Definition py_max (xs : list Q) : result Q :=
  match xs with
  | [] => Raise ValueError
  | x :: xs' => Ok (fold_left (fun m y => if py_lt m y then y else m) xs' x)
  end.

(** [x / y] *)
Definition py_div (x y : Q) : result Q :=
  if py_eq y 0 then Raise ZeroDivisionError else Ok (x / y).

(** ** TrendCell *)

Record TrendCell : Type := mkTrendCell {
  trending : bool;
  count : Q;
  delta : Q;
  delta_delta : Q;
  avg_followers : Q;
  avg_statuses : Q;
  retweets : Q
}.

(** [TrendCell(trending)]: every other argument takes its default, 0. *)
Definition TrendCell_new (t : bool) : TrendCell := mkTrendCell t 0 0 0 0 0 0.

Definition sq (x : Q) : Q := x * x.

Definition TrendCell_distance (self other : TrendCell) : Q :=
  sq (count self - count other) +
  sq (delta self - delta other) +
  sq (delta_delta self - delta_delta other) +
  sq (avg_followers self - avg_followers other) +
  sq (avg_statuses self - avg_statuses other) +
  sq (retweets self - retweets other).

(** ** dtw_distance *)

(** The two kinds of sequence object that reach the distance code: the
    Python list every [TrendLine] holds in [data], and the one-dimensional
    numpy array of cells [dtw_distance] is documented to take.  Only the
    array has the attribute [size]; neither has an attribute [trending]. *)
Inductive CellSeq : Type :=
| PyList (cells : list TrendCell)
| NdArray (cells : list TrendCell).

Definition seq_cells (s : CellSeq) : list TrendCell :=
  match s with PyList c | NdArray c => c end.

Definition attr_size (s : CellSeq) : result nat :=
  match s with
  | PyList _ => Raise AttributeError
  | NdArray c => Ok (length c)
  end.

Definition attr_trending (s : CellSeq) : result bool := Raise AttributeError.

Abbreviation table := (list (list Q)).

(** [np.zeros((n, m))] *)
Definition zeros (n m : nat) : table := replicate n (replicate m 0).

(** [t[i][j]] *)
Definition tget (t : table) (i j : nat) : result Q :=
  row ← getitem t i; getitem row j.

(** [t[i][j] = v] *)
Definition tset (t : table) (i j : nat) (v : Q) : result table :=
  row ← getitem t i; row' ← setitem row j v; setitem t i row'.

Definition dtw_first_column (a b : list TrendCell) (i : nat) (dtw : table)
    : result table :=
  if decide (i = 0%nat) then Ok dtw else
  let j := 0%nat in
  ai ← getitem a i; bj ← getitem b j;
  up ← tget dtw (i - 1) j;
  tset dtw i j (TrendCell_distance ai bj + up).

Definition dtw_first_row (a b : list TrendCell) (j : nat) (dtw : table)
    : result table :=
  if decide (j = 0%nat) then Ok dtw else
  let i := 0%nat in
  ai ← getitem a i; bj ← getitem b j;
  left ← tget dtw i (j - 1);
  tset dtw i j (TrendCell_distance ai bj + left).

Definition dtw_inner (a b : list TrendCell) (i j : nat) (dtw : table)
    : result table :=
  if decide (j = 0%nat) then Ok dtw else
  ai ← getitem a i; bj ← getitem b j;
  up ← tget dtw (i - 1) j;
  left ← tget dtw i (j - 1);
  diag ← tget dtw (i - 1) (j - 1);
  tset dtw i j (TrendCell_distance ai bj + py_min3 up left diag).

Definition dtw_row (a b : list TrendCell) (m i : nat) (dtw : table)
    : result table :=
  if decide (i = 0%nat) then Ok dtw else
  for_each (range m) (dtw_inner a b i) dtw.

(** The index [n - 1] of [dtw[n - 1][m - 1]]; with [n = 0] the function has
    raised before it gets there. *)
Definition last_index (n : nat) : nat := (n - 1)%nat.

Definition dtw_distance (a b : CellSeq) : result Q :=
  n ← attr_size a;
  m ← attr_size b;
  let dtw := zeros n m in
  dtw ← tset dtw 0 0 0;
  dtw ← for_each (range n) (dtw_first_column (seq_cells a) (seq_cells b)) dtw;
  dtw ← for_each (range n) (dtw_first_row (seq_cells a) (seq_cells b)) dtw;
  dtw ← for_each (range n) (dtw_row (seq_cells a) (seq_cells b) m) dtw;
  tget dtw (last_index n) (last_index m).

(** ** TrendLine *)

(** [start_ts] is [None] when [from_twitter_trend] found no run to record. *)
Record TrendLine : Type := mkTrendLine {
  name : string;
  start_ts : option Z;
  data : list TrendCell;
  window_size : Z
}.

(** The inner loop of [TrendLine.distance]: the total at one offset. *)
Definition distance_total (self other : list TrendCell) (offset : nat)
    : result Q :=
  for_each (range (length self))
    (fun i total =>
       x ← getitem self i; y ← getitem other (offset + i);
       Ok (total + TrendCell_distance x y))
    0.

(** One turn of the outer loop of [TrendLine.distance]. *)
Definition distance_offset (self other : list TrendCell) (offset : nat)
    (min_distance : option Q) : result (option Q) :=
  total ← distance_total self other offset;
  match min_distance with
  | None => Ok (Some total)
  | Some m => if py_gt m total then Ok (Some total) else Ok (Some m)
  end.

(** The body of [TrendLine.distance] below its length guard. *)
Definition distance_aligned (self other : list TrendCell)
    : result (option Q) :=
  for_each (range (length other - length self + 1))
    (distance_offset self other) None.

(** [TrendLine.distance].  The guard's recursive call [other.distance(self)]
    fails the guard in the callee, so it is the body with the two lines
    exchanged. *)
Definition TrendLine_distance (self other : TrendLine) : result (option Q) :=
  if decide (length (data other) < length (data self))%nat
  then distance_aligned (data other) (data self)
  else distance_aligned (data self) (data other).

(** [TrendLine.trending] *)
Definition TrendLine_trending (self : TrendLine) : bool :=
  existsb trending (data self).

(** ** TrendModel *)

Record TrendModel : Type := mkTrendModel { trends : list TrendLine }.

Definition floor_one (m : Q) : Q := if py_eq m 0 then 1 else m.

(** One turn of the loop of [TrendModel.normalize].  The cells of a line are
    distinct objects, so the in-place division is a map over them. *)
Definition normalize_line (trend : TrendLine) : result TrendLine :=
  max_count ← py_max (map count (data trend));
  max_delta ← py_max (map delta (data trend));
  max_delta_delta ← py_max (map delta_delta (data trend));
  max_followers ← py_max (map avg_followers (data trend));
  max_statuses ← py_max (map avg_statuses (data trend));
  let max_count := floor_one max_count in
  let max_delta := floor_one max_delta in
  let max_delta_delta := floor_one max_delta_delta in
  let max_statuses := floor_one max_statuses in
  let max_followers := floor_one max_followers in
  Ok (mkTrendLine (name trend) (start_ts trend)
        (map (fun datum =>
                mkTrendCell (trending datum)
                  (count datum / max_count)
                  (delta datum / max_delta)
                  (delta_delta datum / max_delta_delta)
                  (avg_followers datum / max_followers)
                  (avg_statuses datum / max_statuses)
                  (retweets datum))
             (data trend))
        (window_size trend)).

(** [TrendModel.normalize] *)
Definition TrendModel_normalize (self : TrendModel) : result TrendModel :=
  mkTrendModel <$> comprehension normalize_line (trends self).

(** [enumerate(xs)] *)
Definition enumerate {A : Type} (xs : list A) : list (nat * A) :=
  zip (range (length xs)) xs.

(** The inner loop of [leave_one_out]: the match of line [i]. *)
Definition loo_scan (mat : list CellSeq) (i : nat) (trend_a : CellSeq)
    : result (option nat * option Q) :=
  for_each (enumerate mat)
    (fun '(j, trend_b) '(match_, min_distance) =>
       if decide (i = j) then Ok (match_, min_distance) else
       dist ← dtw_distance trend_a trend_b;
       match match_, min_distance with
       | None, _ => Ok (Some j, Some dist)
       | Some _, Some md =>
           if py_lt dist md then Ok (Some j, Some dist)
           else Ok (match_, min_distance)
       | Some _, None => Raise TypeError
       end)
    (None, None).

Record Tally : Type := mkTally {
  true_positives : Q;
  true_negatives : Q;
  false_positives : Q;
  false_negatives : Q
}.

(** The body of the outer loop of [leave_one_out]. *)
Definition loo_classify (mat : list CellSeq) (y : list Z)
    (it : nat * CellSeq) (t : Tally) : result Tally :=
  let '(i, trend_a) := it in
  '(match_, _) ← loo_scan mat i trend_a;
  a_trend ← getitem y i;
  match_trend ← match match_ with
                | Some j => getitem y j
                | None => Raise TypeError
                end;
  if (a_trend =? 1)%Z && (match_trend =? 1)%Z then
    Ok (mkTally (true_positives t + 1) (true_negatives t)
          (false_positives t) (false_negatives t))
  else if (a_trend =? 1)%Z && (match_trend =? 0)%Z then
    Ok (mkTally (true_positives t) (true_negatives t)
          (false_positives t) (false_negatives t + 1))
  else if (a_trend =? 0)%Z && (match_trend =? 1)%Z then
    Ok (mkTally (true_positives t) (true_negatives t)
          (false_positives t + 1) (false_negatives t))
  else
    Ok (mkTally (true_positives t) (true_negatives t + 1)
          (false_positives t) (false_negatives t)).

(** [TrendModel.leave_one_out].  [trend.data] is the line's Python list. *)
Definition TrendModel_leave_one_out (self : TrendModel) : result (Q * Q) :=
  self ← TrendModel_normalize self;
  let mat := map (fun trend => PyList (data trend)) (trends self) in
  y ← comprehension
        (fun trend =>
           t ← attr_trending (PyList (data trend));
           Ok (if t : bool then 1%Z else 0%Z))
        (trends self);
  t ← for_each (enumerate mat) (loo_classify mat y) (mkTally 0 0 0 0);
  precision ← py_div (true_positives t) (true_positives t + false_positives t);
  recall ← py_div (true_positives t) (true_positives t + false_negatives t);
  Ok (precision, recall).

(** ** TwitterTrend and TrendLine.from_twitter_trend *)

Record TwitterTrend : Type := mkTwitterTrend {
  tt_name : string;
  timestamps : list Z;
  tt_window_size : Z
}.

(** The local variables of [from_twitter_trend]. *)
Record RunState : Type := mkRunState {
  longest_consecutive : nat;
  start_longest : option Z;
  start_consecutive : option Z;
  current_consecutive : nat;
  last_timestamp : option Z
}.

Definition run_init : RunState := mkRunState 0 None None 0 None.

(** The body of the loop over the timestamps. *)
Definition run_step (window_size : Z) (ts : Z) (st : RunState)
    : result RunState :=
  st' ←
    match start_consecutive st with
    | None =>
        Ok (mkRunState (longest_consecutive st) (start_longest st)
              (Some ts) 1 (last_timestamp st))
    | Some _ =>
        match last_timestamp st with
        | None => Raise TypeError
        | Some last =>
            if (ts =? last + window_size)%Z then
              Ok (mkRunState (longest_consecutive st) (start_longest st)
                    (start_consecutive st) (current_consecutive st + 1)
                    (last_timestamp st))
            else
              match start_longest st with
              | None =>
                  Ok (mkRunState (current_consecutive st)
                        (start_consecutive st) (start_consecutive st)
                        (current_consecutive st) (last_timestamp st))
              | Some _ =>
                  if (longest_consecutive st <? current_consecutive st)%nat
                  then
                    Ok (mkRunState (current_consecutive st)
                          (start_consecutive st) (start_consecutive st)
                          (current_consecutive st) (last_timestamp st))
                  else
                    Ok (mkRunState (longest_consecutive st)
                          (start_longest st) None 0 (last_timestamp st))
              end
        end
    end;
  Ok (mkRunState (longest_consecutive st') (start_longest st')
        (start_consecutive st') (current_consecutive st') (Some ts)).

Definition TrendLine_from_twitter_trend (window_size : Z)
    (twitter_trend : TwitterTrend) : result TrendLine :=
  st ← for_each (timestamps twitter_trend) (run_step window_size) run_init;
  let data := replicate (longest_consecutive st) (TrendCell_new true) in
  Ok (mkTrendLine (tt_name twitter_trend) (start_longest st) data window_size).

(** The runs the documentation speaks of: the maximal blocks of
    neighbouring timestamps that are exactly [w] apart, and the first of
    the longest of them. *)
Fixpoint runs_spec (w : Z) (ts : list Z) : list (list Z) :=
  match ts with
  | [] => []
  | t :: rest =>
      match runs_spec w rest with
      | (t' :: r) :: rs =>
          if (t' =? t + w)%Z then (t :: t' :: r) :: rs
          else [t] :: (t' :: r) :: rs
      | _ => [[t]]
      end
  end.

Definition longest_run_spec (w : Z) (ts : list Z) : list Z :=
  fold_left (fun best r => if (length best <? length r)%nat then r else best)
    (runs_spec w ts) [].

(** ** The positive lines of model_from_files *)

Definition TREND_PREEMT : nat := 90.
Definition MINIMUM_TREND_SIZE : nat := 15.

(** "Remove any short trends" *)
Definition remove_short (positive_trends : list TrendLine) : list TrendLine :=
  filter (fun trend => (MINIMUM_TREND_SIZE <= length (data trend))%nat)
    positive_trends.

(** The body of the loop that prepends the lead-in cells to one line. *)
Definition preempt (trend : TrendLine) : result TrendLine :=
  let preempt_cells :=
    replicate TREND_PREEMT (TrendCell_new false) ++ data trend in
  match start_ts trend with
  | None => Raise TypeError
  | Some s =>
      Ok (mkTrendLine (name trend)
            (Some (s - window_size trend * Z.of_nat TREND_PREEMT)%Z)
            preempt_cells (window_size trend))
  end.

(** [model_from_files] from the trends read to the padded positive lines. *)
Definition positive_trends_from (twitter_trends : list TwitterTrend)
    : result (list TrendLine) :=
  positive_trends ←
    comprehension (TrendLine_from_twitter_trend 120) twitter_trends;
  let positive_trends := remove_short positive_trends in
  comprehension preempt positive_trends.

(** ** The second pass of TrendLine.populate_from_file *)

(** The loop variables: the line's cells and the two flags. *)
Abbreviation PassState := (list TrendCell * bool * bool)%type.

Definition averaged (datum : TrendCell) : TrendCell :=
  if py_gt (count datum) 0 then
    mkTrendCell (trending datum) (count datum) (delta datum)
      (delta_delta datum)
      (avg_followers datum / count datum)
      (avg_statuses datum / count datum)
      (retweets datum / count datum)
  else datum.

Definition with_deltas (datum : TrendCell) (d dd : Q) : TrendCell :=
  mkTrendCell (trending datum) (count datum) d dd
    (avg_followers datum) (avg_statuses datum) (retweets datum).

(** The body of the loop over [index]; the cell is updated in place.  The
    two later branches are only reached with [index] above 0, the first turn
    having taken the first branch. *)
Definition second_pass_step (index : nat) (st : PassState)
    : result PassState :=
  let '(data, first, second) := st in
  datum ← getitem data index;
  let datum := averaged datum in
  if first then
    data ← setitem data index (with_deltas datum 0 0);
    Ok (data, false, true)
  else if second then
    prev ← getitem data (index - 1);
    data ← setitem data index (with_deltas datum (count datum - count prev) 0);
    Ok (data, first, false)
  else
    prev ← getitem data (index - 1);
    let d := count datum - count prev in
    data ← setitem data index (with_deltas datum d (d - delta prev));
    Ok (data, first, second).

(** The second pass over one line. *)
Definition second_pass (data : list TrendCell) : result (list TrendCell) :=
  st ← for_each (range (length data)) second_pass_step (data, true, false);
  Ok (fst (fst st)).

(** ** Reconstruction from the persisted representation *)

#[local] Set Warnings "-register-all".

(** What [json.loads] yields. *)
Inductive json : Type :=
| JNull
| JBool (b : bool)
| JNum (q : Q)
| JStr (s : string)
| JList (l : list json)
| JDict (m : gmap string json).

(** [obj.get(key)]: only a dict has the method. *)
Definition dict_get (obj : json) (key : string) : result json :=
  match obj with
  | JDict m => Ok (default JNull (m !! key))
  | _ => Raise AttributeError
  end.

(** [obj.get(key) is None] *)
Definition get_is_None (obj : json) (key : string) : result bool :=
  v ← dict_get obj key;
  Ok (match v with JNull => true | _ => false end).

(** [obj[key]] with a string key. *)
Definition subscript (obj : json) (key : string) : result json :=
  match obj with
  | JDict m =>
      match m !! key with
      | Some v => Ok v
      | None => Raise KeyError
      end
  | _ => Raise TypeError
  end.

(** The elements a [for] loop draws from a value: those of a list, the
    characters of a string, the keys of a dict. *)
Definition iterate (v : json) : result (list json) :=
  match v with
  | JList l => Ok l
  | JStr s => Ok ((fun c => JStr (String c EmptyString)) <$> String.list_ascii_of_string s)
  | JDict m => Ok ((fun kv => JStr (fst kv)) <$> map_to_list m)
  | _ => Raise TypeError
  end.

(** The objects [from_obj] builds hold whatever values the representation
    had, and [None] wherever a nested [from_obj] returned [None]. *)
Record LoadedCell : Type := mkLoadedCell {
  lc_trending : json;
  lc_count : json;
  lc_delta : json;
  lc_delta_delta : json;
  lc_avg_followers : json;
  lc_avg_statuses : json;
  lc_retweets : json
}.

Record LoadedLine : Type := mkLoadedLine {
  ll_name : json;
  ll_start_ts : json;
  ll_data : list (option LoadedCell);
  ll_window_size : json
}.

Record LoadedModel : Type := mkLoadedModel {
  lm_trends : list (option LoadedLine)
}.

Definition TrendCell_from_obj (obj : json) : result (option LoadedCell) :=
  no_trending ← get_is_None obj "trending";
  if no_trending : bool then Ok None else
  no_count ← get_is_None obj "count";
  if no_count : bool then Ok None else
  no_delta ← get_is_None obj "delta";
  if no_delta : bool then Ok None else
  no_delta_delta ← get_is_None obj "delta_delta";
  if no_delta_delta : bool then Ok None else
  t ← subscript obj "trending";
  c ← subscript obj "count";
  d ← subscript obj "delta";
  dd ← subscript obj "delta_delta";
  f ← subscript obj "avg_followers";
  s ← subscript obj "avg_statuses";
  r ← subscript obj "retweets";
  Ok (Some (mkLoadedCell t c d dd f s r)).

Definition TrendLine_from_obj (obj : json) : result (option LoadedLine) :=
  no_name ← get_is_None obj "name";
  if no_name : bool then Ok None else
  no_window_size ← get_is_None obj "window_size";
  if no_window_size : bool then Ok None else
  no_data ← get_is_None obj "data";
  if no_data : bool then Ok None else
  no_start_ts ← get_is_None obj "start_ts";
  if no_start_ts : bool then Ok None else
  name ← subscript obj "name";
  window_size ← subscript obj "window_size";
  start_ts ← subscript obj "start_ts";
  cells ← subscript obj "data";
  cells ← iterate cells;
  data ← comprehension TrendCell_from_obj cells;
  Ok (Some (mkLoadedLine name start_ts data window_size)).

Definition TrendModel_from_obj (obj : json) : result (option LoadedModel) :=
  no_trends ← get_is_None obj "trends";
  if no_trends : bool then Ok None else
  lines ← subscript obj "trends";
  lines ← iterate lines;
  trends ← comprehension TrendLine_from_obj lines;
  Ok (Some (mkLoadedModel trends)).

(** ** BagOfWords and the negative lines *)

(** A [Counter]: the words with their counts, in insertion order. *)
Abbreviation BagOfWords := (list (string * Z)).

(** [self.most_common(1)]: the first item among those of the largest count,
    in a list; the empty list for an empty counter. *)
Definition most_common_1 (self : BagOfWords) : list (string * Z) :=
  match self with
  | [] => []
  | kv :: rest =>
      [fold_left (fun best kv' => if (snd best <? snd kv')%Z then kv' else best)
         rest kv]
  end.

(** [self[word] = value] *)
Fixpoint counter_set (self : BagOfWords) (word : string) (value : Z)
    : BagOfWords :=
  match self with
  | [] => [(word, value)]
  | (w, c) :: rest =>
      if String.eqb w word then (w, value) :: rest
      else (w, c) :: counter_set rest word value
  end.

(** The objects found in the list [random_trend_names] is given: names, or
    the lines themselves.  A string equals a string of the same characters
    and never equals a [TrendLine], which defines no [__eq__]. *)
Inductive PyObj : Type :=
| PyStr (s : string)
| PyTrendLine (t : TrendLine).

Definition str_eq (s : string) (o : PyObj) : bool :=
  match o with
  | PyStr s' => String.eqb s s'
  | PyTrendLine _ => false
  end.

(** [s in xs] *)
Definition str_in (s : string) (xs : list PyObj) : bool := existsb (str_eq s) xs.

(** The [while True] loop of [random_trend_names], run for at most [fuel]
    turns; [None] when it has not left the loop by then. *)
Fixpoint draw_name (fuel : nat) (positive_trends : list PyObj)
    (negative_names : gset string) (self : BagOfWords)
    : option (result (string * BagOfWords)) :=
  match fuel with
  | O => None
  | S fuel' =>
      match most_common_1 self with
      | [] => Some (Raise IndexError)
      | (new_trend, _) :: _ =>
          let self := counter_set self new_trend 0 in
          if negb (str_in new_trend positive_trends)
             && negb (bool_decide (new_trend ∈ negative_names))
          then Some (Ok (new_trend, self))
          else draw_name fuel' positive_trends negative_names self
      end
  end.

(** The [for i in range(n)] loop around it. *)
Fixpoint draw_names (fuel : nat) (positive_trends : list PyObj) (n : nat)
    (negative_names : gset string) (self : BagOfWords)
    : option (result (gset string * BagOfWords)) :=
  match n with
  | O => Some (Ok (negative_names, self))
  | S n' =>
      match draw_name fuel positive_trends negative_names self with
      | None => None
      | Some (Raise e) => Some (Raise e)
      | Some (Ok (new_trend, self)) =>
          draw_names fuel positive_trends n'
            (negative_names ∪ {[new_trend]}) self
      end
  end.

(** [BagOfWords.random_trend_names]; the list of a set comes in an order
    of the set's own. *)
Definition BagOfWords_random_trend_names (fuel : nat) (self : BagOfWords)
    (positive_trends : list PyObj) (n : nat) : option (result (list string)) :=
  match draw_names fuel positive_trends n ∅ self with
  | None => None
  | Some (Raise e) => Some (Raise e)
  | Some (Ok (negative_names, _)) => Some (Ok (elements negative_names))
  end.

(** [random.randrange(0, k)] and [random.randint(lo, hi)], each from one
    raw draw of the generator. *)
Definition randrange0 (raw k : nat) : result nat :=
  if decide (k = 0%nat) then Raise ValueError else Ok (raw mod k)%nat.

Definition randint (raw : nat) (lo hi : Z) : result Z :=
  if (hi <? lo)%Z then Raise ValueError
  else Ok (lo + Z.of_nat raw mod (hi - lo + 1))%Z.

(** [TrendLine.random_trend] *)
Definition TrendLine_random_trend (raw1 raw2 : nat) (name : string)
    (start end_ : Z) (lengths : list nat) : result TrendLine :=
  k ← randrange0 raw1 (length lengths);
  len ← getitem lengths k;
  start_trend ← randint raw2 (start / 120) (end_ / 120 - Z.of_nat len);
  Ok (mkTrendLine name (Some (start_trend * 120)%Z)
        (replicate len (TrendCell_new false)) 120).

(** The first two statements of [construct_negative_trends]: [min] of no
    line is a [ValueError], and a [start_ts] of [None] is a [TypeError] in
    the comparison of [min] or in the sum under [max]. *)
Definition span (trends : list TrendLine) : result (Z * Z) :=
  match trends with
  | [] => Raise ValueError
  | _ =>
      bounds ←
        comprehension
          (fun trend =>
             match start_ts trend with
             | None => Raise TypeError
             | Some s =>
                 Ok (s, (window_size trend * Z.of_nat (length (data trend))
                         + s)%Z)
             end)
          trends;
      match bounds with
      | [] => Raise ValueError
      | (s, e) :: rest =>
          Ok (fold_left Z.min (fst <$> rest) s, fold_left Z.max (snd <$> rest) e)
      end
  end.

(** [TrendLine.construct_negative_trends]; [rng] is the sequence of raw
    draws of the random generator.  The lines themselves are handed to
    [random_trend_names]. *)
Definition TrendLine_construct_negative_trends (fuel : nat) (rng : nat -> nat)
    (trends : list TrendLine) (bag_of_words : BagOfWords)
    : option (result (list TrendLine)) :=
  match span trends with
  | Raise e => Some (Raise e)
  | Ok (start, end_) =>
      let lengths := (fun trend => length (data trend)) <$> trends in
      match BagOfWords_random_trend_names fuel bag_of_words
              (PyTrendLine <$> trends) (length trends) with
      | None => None
      | Some (Raise e) => Some (Raise e)
      | Some (Ok names) =>
          Some (comprehension
                  (fun '(k, name) =>
                     TrendLine_random_trend (rng (2 * k)%nat)
                       (rng (2 * k + 1)%nat) name start end_ lengths)
                  (enumerate names))
      end
  end.

(** ** The table the documentation of the warp distance describes *)

(** [cell_cost a b i j] is the distance of [a[i]] and [b[j]]. *)
Definition cell_cost (a b : list TrendCell) (i j : nat) : Q :=
  match a !! i, b !! j with
  | Some x, Some y => TrendCell_distance x y
  | _, _ => 0
  end.

(** [D[0][0] = 0]; the first row and the first column accumulate the cell
    distances along their axis; elsewhere
    [D[i][j] = cell_cost i j + min(D[i-1][j], D[i][j-1], D[i-1][j-1])]. *)
Fixpoint dtw_table_spec (a b : list TrendCell) (i : nat) : nat -> Q :=
  match i with
  | O =>
      fix first_row (j : nat) : Q :=
        match j with
        | O => 0
        | S j' => cell_cost a b 0 j + first_row j'
        end
  | S i' =>
      fix row (j : nat) : Q :=
        match j with
        | O => cell_cost a b i 0 + dtw_table_spec a b i' 0
        | S j' =>
            cell_cost a b i j +
            py_min3 (dtw_table_spec a b i' j) (row j') (dtw_table_spec a b i' j')
        end
  end.

(** ** Sample data *)

(** A cell of a line that does not trend, with [c] matching tweets. *)
Definition counted (c : Q) : TrendCell := mkTrendCell false c 0 0 0 0 0.

Definition line_of (n : string) (cells : list TrendCell) : TrendLine :=
  mkTrendLine n (Some 0%Z) cells 120.

(** Tweet counts 0, 5, 0 in three neighbouring windows. *)
Definition spike : list TrendCell := [counted 0; counted 5; counted 0].

(** One positive and one negative line of five empty cells each. *)
Definition two_line_model : TrendModel :=
  mkTrendModel [line_of "up" (replicate 5 (TrendCell_new true));
                line_of "flat" (replicate 5 (TrendCell_new false))].

(** ** Auxiliary notions for the proofs *)

(** A table of [n] rows of [m] entries each. *)
Definition dims (n m : nat) (t : table) : Prop :=
  length t = n /\ Forall (fun row => length row = m) t.

(** The cost of the diagonal from [(1,1)] to [(i,i)]. *)
Fixpoint diag_cost (a b : list TrendCell) (i : nat) : Q :=
  match i with
  | O => 0
  | S k => diag_cost a b k + cell_cost a b i i
  end.

(** The total of the first [k] cell distances at one offset. *)
Fixpoint total_upto (a b : list TrendCell) (offset k : nat) : Q :=
  match k with
  | O => 0
  | S k' => total_upto a b offset k' + cell_cost a b k' (offset + k')
  end.

(** [m] is the smallest of the totals at the offsets below [k]. *)
Definition least_total (a b : list TrendCell) (k : nat) (m : Q) : Prop :=
  (forall offset, (offset < k)%nat -> m <= total_upto a b offset (length a)) /\
  (exists offset, (offset < k)%nat /\ m == total_upto a b offset (length a)).

(** What the loop of [from_twitter_trend] keeps: a run under way has a last
    timestamp, and a recorded length comes with a recorded start. *)
Definition run_inv (st : RunState) : Prop :=
  (start_consecutive st <> None -> last_timestamp st <> None) /\
  (start_longest st = None -> longest_consecutive st = 0%nat).

(** A line as [from_twitter_trend] builds it: cells that trend and are
    otherwise empty, and a start unless there is no cell. *)
Definition derived_line (line : TrendLine) : Prop :=
  data line = replicate (length (data line)) (TrendCell_new true) /\
  (start_ts line = None -> data line = []).

(** What the second pass leaves in cell [i], given the cell [orig] from the
    first pass and the cell [prev] the second pass left before it. *)
Definition pass2_cell (orig : TrendCell) (prev : option TrendCell) (i : nat)
    (out : TrendCell) : Prop :=
  trending out = trending orig /\ count out = count orig /\
  avg_followers out = avg_followers (averaged orig) /\
  avg_statuses out = avg_statuses (averaged orig) /\
  retweets out = retweets (averaged orig) /\
  match i, prev with
  | O, _ => delta out = 0 /\ delta_delta out = 0
  | S O, Some p => delta out = count orig - count p /\ delta_delta out = 0
  | S (S _), Some p =>
      delta out = count orig - count p /\
      delta_delta out = delta out - delta p
  | _, None => False
  end.

(** The loop variables of the second pass after [k] turns over [data0]. *)
Definition pass2_inv (data0 : list TrendCell) (k : nat) (st : PassState)
    : Prop :=
  let '(d, first, second) := st in
  length d = length data0 /\
  first = bool_decide (k = 0%nat) /\
  second = bool_decide (k = 1%nat) /\
  (forall i, (k <= i)%nat -> d !! i = data0 !! i) /\
  (forall i, (i < k)%nat ->
     exists orig out, data0 !! i = Some orig /\ d !! i = Some out /\
                      pass2_cell orig (d !! (i - 1)%nat) i out).

(** The field [key] is missing from the dict [m], or is [null] there. *)
Definition absent (m : gmap string json) (key : string) : Prop :=
  m !! key = None \/ m !! key = Some JNull.

(** The fields the guards of [from_obj] look at. *)
Definition line_guarded : list string :=
  ["name"; "window_size"; "data"; "start_ts"].

Definition cell_guarded : list string :=
  ["trending"; "count"; "delta"; "delta_delta"].

(** A persisted cell with every field but [retweets]. *)
Definition cell_without_retweets : json :=
  JDict {[ "trending" := JBool false; "count" := JNum 0; "delta" := JNum 0;
           "delta_delta" := JNum 0; "avg_followers" := JNum 0;
           "avg_statuses" := JNum 0 ]}.

(** A persisted line with all its fields, holding one cell. *)
Definition line_holding (cell : json) : json :=
  JDict {[ "name" := JStr "storm"; "window_size" := JNum 120;
           "start_ts" := JNum 0; "data" := JList [cell] ]}.

(** A persisted model whose only line has no field at all. *)
Definition model_with_empty_line : json :=
  JDict {[ "trends" := JList [JDict ∅] ]}.

(** A positive line as the pipeline pads it, named after a common word. *)
Definition obama_line : TrendLine :=
  mkTrendLine "obama" (Some 0%Z)
    (replicate 90 (TrendCell_new false) ++ replicate 15 (TrendCell_new true))
    120.

Definition obama_bag : BagOfWords := [("obama", 5%Z); ("cat", 1%Z)].

(** The five features [normalize] rescales. *)
Inductive Feature : Set :=
| FCount
| FDelta
| FDeltaDelta
| FFollowers
| FStatuses.

Definition feature (f : Feature) (c : TrendCell) : Q :=
  match f with
  | FCount => count c
  | FDelta => delta c
  | FDeltaDelta => delta_delta c
  | FFollowers => avg_followers c
  | FStatuses => avg_statuses c
  end.

(** A line without a cell. *)
Definition no_cells (trend : TrendLine) : bool :=
  match data trend with
  | [] => true
  | _ :: _ => false
  end.

(** The exception [leave_one_out] ends in, by the shape of the model. *)
Definition loo_error (self : TrendModel) : exn :=
  if existsb no_cells (trends self) then ValueError
  else match trends self with
       | [] => ZeroDivisionError
       | _ :: _ => AttributeError
       end.

(** What [normalize] keeps of a line: everything but the five features. *)
Definition same_shape (trend out : TrendLine) : Prop :=
  name out = name trend /\ start_ts out = start_ts trend /\
  window_size out = window_size trend /\
  Forall2 (fun c c' => trending c' = trending c /\ retweets c' = retweets c)
    (data trend) (data out).

(** The six features of two cells agree. *)
Definition same_features (a b : TrendCell) : Prop :=
  count a == count b /\ delta a == delta b /\
  delta_delta a == delta_delta b /\ avg_followers a == avg_followers b /\
  avg_statuses a == avg_statuses b /\ retweets a == retweets b.

(** What the loop of [from_twitter_trend] has seen of the timestamps [pre]:
    the runs it follows start at one of them and are no longer than [pre]. *)
Definition run_seen (pre : list Z) (st : RunState) : Prop :=
  run_inv st /\
  (longest_consecutive st <= length pre)%nat /\
  (current_consecutive st <= length pre)%nat /\
  (forall s, start_longest st = Some s -> s ∈ pre) /\
  (forall s, start_consecutive st = Some s -> s ∈ pre).

(** ** TrendModel.matrix *)

(** The six numbers [matrix] stores for a cell. *)
Abbreviation Features6 := (Q * Q * Q * Q * Q * Q)%type.

Definition zero6 : Features6 := (0, 0, 0, 0, 0, 0).

Definition cell_tuple (datum : TrendCell) : Features6 :=
  (count datum, delta datum, delta_delta datum,
   avg_followers datum, avg_statuses datum, retweets datum).

(** [max(xs)] on lengths, [ValueError] on [[]]. *)
Definition py_max_nat (xs : list nat) : result nat :=
  match xs with
  | [] => Raise ValueError
  | x :: xs' => Ok (fold_left Nat.max xs' x)
  end.

(** [m[i, j] = v] *)
Definition grid_set {A : Type} (m : list (list A)) (i j : nat) (v : A)
    : result (list (list A)) :=
  row ← getitem m i; row' ← setitem row j v; setitem m i row'.

(** The inner loop of [matrix]: the cells of line [i] into row [i]. *)
Definition matrix_row (i : nat) (trend : TrendLine)
    (m : list (list Features6)) : result (list (list Features6)) :=
  for_each (enumerate (data trend))
    (fun '(j, datum) m => grid_set m i j (cell_tuple datum)) m.

(** The label [matrix] and the evaluation give a line. *)
Definition label (trend : TrendLine) : Z :=
  if TrendLine_trending trend then 1%Z else 0%Z.

(** [TrendModel.matrix] *)
Definition TrendModel_matrix (self : TrendModel)
    : result (list (list Features6) * list Z) :=
  width ← py_max_nat ((fun trend => length (data trend)) <$> trends self);
  let m := replicate (length (trends self)) (replicate width zero6) in
  for_each (enumerate (trends self))
    (fun '(i, trend) '(m, y) =>
       let y := y ++ [label trend] in
       m ← matrix_row i trend m; Ok (m, y))
    (m, []).

(** The row of a line in a matrix of the given width: its cells, then
    zeros. *)
Definition padded_row (width : nat) (trend : TrendLine) : list Features6 :=
  (cell_tuple <$> data trend) ++ replicate (width - length (data trend)) zero6.

(** ** TwitTPEncoder: the persisted representation of a model *)

(** [TwitTPEncoder.default] hands the encoder the [__dict__] of a model,
    line or cell; the encoder descends into it.  These are the trees
    [serialize] writes out, [None] as [null]. *)
Definition TrendCell_to_obj (c : TrendCell) : json :=
  JDict (<["trending" := JBool (trending c)]>
         (<["count" := JNum (count c)]>
         (<["delta" := JNum (delta c)]>
         (<["delta_delta" := JNum (delta_delta c)]>
         (<["avg_followers" := JNum (avg_followers c)]>
         (<["avg_statuses" := JNum (avg_statuses c)]>
         (<["retweets" := JNum (retweets c)]> ∅))))))).

Definition start_to_obj (s : option Z) : json :=
  match s with
  | None => JNull
  | Some z => JNum (inject_Z z)
  end.

Definition TrendLine_to_obj (l : TrendLine) : json :=
  JDict (<["name" := JStr (name l)]>
         (<["start_ts" := start_to_obj (start_ts l)]>
         (<["data" := JList (TrendCell_to_obj <$> data l)]>
         (<["window_size" := JNum (inject_Z (window_size l))]> ∅)))).

Definition TrendModel_to_obj (self : TrendModel) : json :=
  JDict (<["trends" := JList (TrendLine_to_obj <$> trends self)]> ∅).

(** The objects [from_obj] builds from those trees when nothing is absent. *)
Definition loaded_cell (c : TrendCell) : LoadedCell :=
  mkLoadedCell (JBool (trending c)) (JNum (count c)) (JNum (delta c))
    (JNum (delta_delta c)) (JNum (avg_followers c)) (JNum (avg_statuses c))
    (JNum (retweets c)).

Definition loaded_line (l : TrendLine) : option LoadedLine :=
  match start_ts l with
  | None => None
  | Some s =>
      Some (mkLoadedLine (JStr (name l)) (JNum (inject_Z s))
              ((fun c => Some (loaded_cell c)) <$> data l)
              (JNum (inject_Z (window_size l))))
  end.

Definition loaded_model (self : TrendModel) : LoadedModel :=
  mkLoadedModel (loaded_line <$> trends self).

(** The fields of a cell its guard does not look at. *)
Definition cell_unguarded : list string :=
  ["avg_followers"; "avg_statuses"; "retweets"].

(** ** array_trend_distance *)

(** The four scan variables of [array_trend_distance]. *)
Record Extent : Type := mkExtent {
  start_a : option nat;
  end_a : nat;
  start_b : option nat;
  end_b : nat
}.

(** The body of the scan for the first and last non-zero entries. *)
Definition extent_step (a b : list Q) (x : nat) (st : Extent) : result Extent :=
  ax ← getitem a x;
  let st :=
    if negb (py_eq ax 0) then
      mkExtent (match start_a st with None => Some x | Some s => Some s end)
        x (start_b st) (end_b st)
    else st in
  bx ← getitem b x;
  let st :=
    if negb (py_eq bx 0) then
      mkExtent (start_a st) (end_a st)
        (match start_b st with None => Some x | Some s => Some s end) x
    else st in
  Ok st.

(** [end - start + 1], a [TypeError] when [start] is [None]. *)
Definition extent_length (end_ : nat) (start : option nat) : result Z :=
  match start with
  | None => Raise TypeError
  | Some s => Ok (Z.of_nat end_ - Z.of_nat s + 1)%Z
  end.

Section ArrayTrendDistance.

(** [math.sqrt] on a number that is not negative. *)
Variable sqrt : Q -> Q.

(** [math.sqrt(x)] *)
Definition math_sqrt (x : Q) : result Q :=
  if py_lt x 0 then Raise ValueError else Ok (sqrt x).

(** The total at one offset. *)
Definition array_total (a b : list Q) (sa sb offset : nat) : result Q :=
  for_each (range (length a))
    (fun i total =>
       x ← getitem a (sa + i); y ← getitem b (sb + offset + i);
       r ← math_sqrt (x - y);
       Ok (total + r))
    0.

(** One turn of the loop over the offsets. *)
Definition array_offset (a b : list Q) (sa sb offset : nat)
    (min_distance : option Q) : result (option Q) :=
  total ← array_total a b sa sb offset;
  match min_distance with
  | None => Ok (Some total)
  | Some m => if py_gt m total then Ok (Some total) else Ok (Some m)
  end.

(** The body of [array_trend_distance] below its length guard. *)
Definition array_aligned (a b : list Q) : result (option Q) :=
  st ← for_each (range (length a)) (extent_step a b) (mkExtent None 0 None 0);
  len_a ← extent_length (end_a st) (start_a st);
  len_b ← extent_length (end_b st) (start_b st);
  match start_a st, start_b st with
  | Some sa, Some sb =>
      for_each (range (Z.to_nat (len_b - len_a + 1)))
        (array_offset a b sa sb) None
  | _, _ => Ok (Some 0)
  end.

(** [array_trend_distance]; as in [TrendLine.distance], the recursive call
    of the guard is the body with the two arrays exchanged. *)
Definition array_trend_distance (a b : list Q) : result (option Q) :=
  if decide (length b < length a)%nat then array_aligned b a
  else array_aligned a b.

End ArrayTrendDistance.

(** What the scan has found after [k] entries. *)
Definition extent_inv (a b : list Q) (k : nat) (st : Extent) : Prop :=
  (Forall (fun x => x == 0) (take k a) -> start_a st = None) /\
  (Forall (fun x => x == 0) (take k b) -> start_b st = None) /\
  (forall s, start_a st = Some s ->
     exists x, a !! s = Some x /\ ~ x == 0) /\
  (forall s, start_b st = Some s ->
     exists x, b !! s = Some x /\ ~ x == 0).

(** ** TrendLine.populate_from_file *)

(** A line of the tweet file, decoded: the words of its text
    ([tweet['text'].split()]), its time in seconds since 1970 and the three
    fields of its author. *)
Record Tweet : Type := mkTweet {
  tweet_words : list string;
  tweet_ts : Z;
  user_followers : Q;
  user_statuses : Q;
  retweeted : bool
}.

(** [xs[i]] for any integer [i]: a negative index counts from the end. *)
Definition py_index (n : nat) (i : Z) : result nat :=
  if (0 <=? i)%Z then
    if (i <? Z.of_nat n)%Z then Ok (Z.to_nat i) else Raise IndexError
  else if (- Z.of_nat n <=? i)%Z then Ok (Z.to_nat (Z.of_nat n + i))
  else Raise IndexError.

(** What a matching tweet adds to the cell of its window. *)
Definition record_tweet (tweet : Tweet) (cell : TrendCell) : TrendCell :=
  mkTrendCell (trending cell) (count cell + 1) (delta cell) (delta_delta cell)
    (avg_followers cell + user_followers tweet)
    (avg_statuses cell + user_statuses tweet)
    (if retweeted tweet then retweets cell + 1 else retweets cell).

(** The body of the loop that fills the dict [end_ts]. *)
Definition end_ts_step (trend : TrendLine) (end_ts : gmap string Z)
    : result (gmap string Z) :=
  match start_ts trend with
  | None => Raise TypeError
  | Some s =>
      Ok (<[name trend :=
              (s + window_size trend * Z.of_nat (length (data trend)))%Z]>
            end_ts)
  end.

(** The dict [end_ts], filled before the tweets are read. *)
Definition end_ts_memo (trends : list TrendLine) : result (gmap string Z) :=
  for_each trends end_ts_step ∅.

Section Populate.

(** [str.split()], on whitespace. *)
Variable str_split : string -> list string.

(** [TrendLine.match_text], given the words of a text. *)
Definition TrendLine_match_text (self : TrendLine) (text : list string) : bool :=
  existsb (fun word => bool_decide (word ∈ text)) (str_split (name self)).

(** The test [trend.start_ts <= ts < end_ts[trend.name] and
    trend.match_text(words)], left to right. *)
Definition tweet_hits (end_ts : gmap string Z) (tweet : Tweet)
    (trend : TrendLine) : result bool :=
  match start_ts trend with
  | None => Raise TypeError
  | Some s =>
      if (s <=? tweet_ts tweet)%Z then
        match end_ts !! name trend with
        | None => Raise KeyError
        | Some e =>
            Ok ((tweet_ts tweet <? e)%Z
                && TrendLine_match_text trend (tweet_words tweet))
        end
      else Ok false
  end.

(** The body of the loop over the lines for one tweet; the cell of the
    tweet's window is updated in place. *)
Definition first_pass_line (end_ts : gmap string Z) (tweet : Tweet)
    (trend : TrendLine) : result TrendLine :=
  hit ← tweet_hits end_ts tweet trend;
  if hit : bool then
    match start_ts trend with
    | None => Raise TypeError
    | Some s =>
        if (window_size trend =? 0)%Z then Raise ZeroDivisionError else
        let offset := ((tweet_ts tweet - s) / window_size trend)%Z in
        k ← py_index (length (data trend)) offset;
        cell ← getitem (data trend) k;
        Ok (mkTrendLine (name trend) (start_ts trend)
              (<[k := record_tweet tweet cell]> (data trend))
              (window_size trend))
    end
  else Ok trend.

(** The first pass: every tweet, in the order of the file, against every
    line. *)
Definition first_pass (trends : list TrendLine) (tweets : list Tweet)
    : result (list TrendLine) :=
  end_ts ← end_ts_memo trends;
  for_each tweets
    (fun tweet trends => comprehension (first_pass_line end_ts tweet) trends)
    trends.

(** [TrendLine.populate_from_file], on the decoded lines of the file. *)
Definition TrendLine_populate_from_file (trends : list TrendLine)
    (tweets : list Tweet) : result (list TrendLine) :=
  trends ← first_pass trends tweets;
  comprehension
    (fun trend =>
       data ← second_pass (data trend);
       Ok (mkTrendLine (name trend) (start_ts trend) data (window_size trend)))
    trends.

(** Whether a tweet falls into the span of a line and matches its name. *)
Definition in_line (tweet : Tweet) (l : TrendLine) : bool :=
  match start_ts l with
  | None => false
  | Some s =>
      (s <=? tweet_ts tweet)%Z
      && (tweet_ts tweet
          <? s + window_size l * Z.of_nat (length (data l)))%Z
      && TrendLine_match_text l (tweet_words tweet)
  end.

(** The window of a line a tweet falls into. *)
Definition window_of (tweet : Tweet) (l : TrendLine) : nat :=
  match start_ts l with
  | None => 0%nat
  | Some s => Z.to_nat ((tweet_ts tweet - s) / window_size l)
  end.

(** What the first pass does to a line for one tweet, when nothing goes
    wrong. *)
Definition bump (tweet : Tweet) (l : TrendLine) : TrendLine :=
  if in_line tweet l then
    mkTrendLine (name l) (start_ts l)
      (alter (record_tweet tweet) (window_of tweet l) (data l))
      (window_size l)
  else l.

End Populate.

(** Lines the first pass can work on: no two of one name, each with a start
    and a window of positive size. *)
Definition populable (trends : list TrendLine) : Prop :=
  NoDup (name <$> trends) /\
  Forall (fun l => start_ts l <> None /\ (0 < window_size l)%Z) trends.

(** Two lines that differ at most in the features of their cells. *)
Definition same_frame (l l' : TrendLine) : Prop :=
  name l' = name l /\ start_ts l' = start_ts l /\
  window_size l' = window_size l /\
  trending <$> data l' = trending <$> data l.

(** The sum of the counts of the cells of a line. *)
Definition total_count (l : TrendLine) : Q :=
  foldr Qplus 0 (count <$> data l).

(** The number of the tweets that fall into a line and match it. *)
Definition hits (split : string -> list string) (l : TrendLine)
    (tweets : list Tweet) : nat :=
  length (filter (fun t => in_line split t l = true) tweets).

(** Sample data for the population: one line of two windows from 0 on, and
    two tweets, the first of them in the second window. *)
Definition cat_line : TrendLine := line_of "cat" [counted 0; counted 0].

Definition cat_tweets : list Tweet :=
  [mkTweet ["my"; "cat"] 130 10 20 true; mkTweet ["cat"] 500 1 1 false].

(** A stand-in for [str.split] on names of one word. *)
Definition one_word (s : string) : list string := [s].

(** The words of a bag with a count above 0. *)
Definition positive_words (bag : BagOfWords) : list (string * Z) :=
  filter (fun kv => (0 < snd kv)%Z) bag.

(** What the loop of [random_trend_names] keeps: the bag has each word once,
    and the words taken so far have no count left. *)
Definition drawn_inv (negative_names : gset string) (bag : BagOfWords) : Prop :=
  NoDup (fst <$> bag) /\
  forall w c, w ∈ negative_names -> (w, c) ∈ bag -> (c <= 0)%Z.

(** ** TwitterTrend.from_json_strings *)

(** A line of the trends file, decoded: the time of its [as_of] in seconds
    since 1970, [None] when the line has no [as_of], and the names of the
    topics in its [trends]. *)
Record Snapshot : Type := mkSnapshot {
  as_of : option Z;
  topics : list string
}.

(** The dict [trends_timestamps]: the names in the order they were first
    seen, each with its list of timestamps. *)
Abbreviation TrendTimes := (list (string * list Z)).

(** The body of the loop over the topics: [last_ts] appended to the list of
    the name, a new one if the name has none yet. *)
Fixpoint record_topic (topic : string) (last_ts : Z) (d : TrendTimes)
    : TrendTimes :=
  match d with
  | [] => [(topic, [last_ts])]
  | (n, times) :: rest =>
      if String.eqb n topic then (n, times ++ [last_ts]) :: rest
      else (n, times) :: record_topic topic last_ts rest
  end.

(** The loop [while ts > last_ts], for at most [fuel] turns. *)
Fixpoint catch_up (fuel : nat) (ts : Z) (names : list string) (d : TrendTimes)
    (last_ts : Z) : TrendTimes * Z :=
  match fuel with
  | O => (d, last_ts)
  | S fuel' =>
      if (last_ts <? ts)%Z then
        catch_up fuel' ts names
          (foldl (fun d topic => record_topic topic last_ts d) d names)
          (last_ts + 120)%Z
      else (d, last_ts)
  end.

(** The body of the loop over the lines read.  The loop inside gains 120
    seconds a turn, so [ts - last_ts] turns are enough for it to end. *)
Definition snapshot_step (st : TrendTimes * Z) (snap : Snapshot)
    : TrendTimes * Z :=
  match as_of snap with
  | None => st
  | Some ts =>
      let last_ts :=
        if (snd st =? 0)%Z then (ts - ts mod 120)%Z else snd st in
      catch_up (Z.to_nat (ts - last_ts)) ts (topics snap) (fst st) last_ts
  end.

(** [TwitterTrend.from_json_strings], on the decoded lines. *)
Definition TwitterTrend_from_json_strings (snaps : list Snapshot)
    : list TwitterTrend :=
  (fun entry => mkTwitterTrend (fst entry) (snd entry) 120)
    <$> fst (foldl snapshot_step ([], 0%Z) snaps).

(** A list of timestamps as the loops leave it under [last_ts]. *)
Definition times_ok (last_ts : Z) (times : list Z) : Prop :=
  times <> [] /\
  Forall (fun t => (t mod 120 = 0)%Z /\ (t <= last_ts)%Z) times /\
  StronglySorted Z.le times.

(** What the loops keep of the dict and of [last_ts]. *)
Definition times_inv (st : TrendTimes * Z) : Prop :=
  NoDup (fst <$> fst st) /\
  Forall (fun entry => times_ok (snd st) (snd entry)) (fst st) /\
  (snd st mod 120 = 0)%Z /\ (0 <= snd st)%Z.

(** ** TrendModel.model_from_files *)

(** [model_from_files] on what its three files decode to: the lines of the
    trends file, the bag of words of the tweets, and the tweets.  [fuel]
    bounds the loop that draws a name, [rng] is the sequence of random
    draws and [split] is [str.split]. *)
Definition TrendModel_model_from_files (fuel : nat) (rng : nat -> nat)
    (split : string -> list string) (snaps : list Snapshot)
    (bag_of_words : BagOfWords) (tweets : list Tweet)
    : option (result TrendModel) :=
  let twitter_trends := TwitterTrend_from_json_strings snaps in
  match positive_trends_from twitter_trends with
  | Raise e => Some (Raise e)
  | Ok positive_trends =>
      match TrendLine_construct_negative_trends fuel rng positive_trends
              bag_of_words with
      | None => None
      | Some (Raise e) => Some (Raise e)
      | Some (Ok negative_trends) =>
          let all_trends := positive_trends ++ negative_trends in
          Some (all_trends ←
                  TrendLine_populate_from_file split all_trends tweets;
                TrendModel_normalize (mkTrendModel all_trends))
      end
  end.

(** The lines of a trends file in which "storm" is announced in seventeen
    windows in a row, then "calm" for a while, then "storm" once more. *)
Definition storm_snaps : list Snapshot :=
  ((fun k => mkSnapshot (Some (120 * Z.of_nat k + 10)%Z) ["storm"])
     <$> seq 0 17)
  ++ [mkSnapshot (Some 2410%Z) ["calm"]; mkSnapshot (Some 2530%Z) ["storm"]].

Definition storm_tweets : list Tweet :=
  [mkTweet ["storm"] 130 10 20 false; mkTweet ["rain"] 130 5 5 true].

(** * Properties *)

(** ** Loops and tables *)

Lemma bind_Ok {A B : Type} (a : A) (f : A -> result B) :
  (Ok a ≫= f) = f a.
Proof. reflexivity. Qed.

Lemma for_each_inv {A S : Type} (P : S -> Prop) (xs : list A)
    (body : A -> S -> result S) (st : S) :
  P st ->
  (forall x s, x ∈ xs -> P s -> exists s', body x s = Ok s' /\ P s') ->
  exists s', for_each xs body st = Ok s' /\ P s'.
Proof.
  revert st. induction xs as [|x xs IH]; intros st Hst Hbody.
  - exists st. split; [reflexivity | exact Hst].
  - destruct (Hbody x st) as (s1 & E1 & P1); [left | exact Hst |].
    destruct (IH s1 P1) as (s2 & E2 & P2).
    + intros y s Hy. apply Hbody. right. exact Hy.
    + exists s2. split; [| exact P2]. simpl. rewrite E1. exact E2.
Qed.

Lemma for_each_seq_inv {S : Type} (P : nat -> S -> Prop) (k n : nat)
    (body : nat -> S -> result S) (st : S) :
  P k st ->
  (forall i s, (k <= i < k + n)%nat -> P i s ->
     exists s', body i s = Ok s' /\ P (Datatypes.S i) s') ->
  exists s', for_each (seq k n) body st = Ok s' /\ P (k + n)%nat s'.
Proof.
  revert k st. induction n as [|n IH]; intros k st Hst Hbody.
  - exists st. rewrite Nat.add_0_r. split; [reflexivity | exact Hst].
  - destruct (Hbody k st) as (s1 & E1 & P1); [lia | exact Hst |].
    destruct (IH (Datatypes.S k) s1 P1) as (s2 & E2 & P2).
    + intros i s Hi. apply Hbody. lia.
    + exists s2. split.
      * simpl. rewrite E1. exact E2.
      * replace (k + Datatypes.S n)%nat with (Datatypes.S k + n)%nat by lia.
        exact P2.
Qed.

Lemma for_each_range_inv {S : Type} (P : nat -> S -> Prop) (n : nat)
    (body : nat -> S -> result S) (st : S) :
  P 0%nat st ->
  (forall i s, (i < n)%nat -> P i s ->
     exists s', body i s = Ok s' /\ P (Datatypes.S i) s') ->
  exists s', for_each (range n) body st = Ok s' /\ P n s'.
Proof.
  intros H0 Hbody.
  apply (for_each_seq_inv P 0 n body st H0).
  intros i s Hi. apply Hbody. lia.
Qed.

Lemma comprehension_Forall2 {A B : Type} (R : A -> B -> Prop)
    (f : A -> result B) (xs : list A) :
  (forall x, x ∈ xs -> exists y, f x = Ok y /\ R x y) ->
  exists ys, comprehension f xs = Ok ys /\ Forall2 R xs ys.
Proof.
  induction xs as [|x xs IH]; intros H.
  - exists []. split; [reflexivity | constructor].
  - destruct (H x) as (y & Ey & Ry); [left |].
    destruct IH as (ys & Eys & Rys).
    + intros z Hz. apply H. right. exact Hz.
    + exists (y :: ys). split; [| constructor; assumption].
      simpl. rewrite Ey. simpl. rewrite Eys. reflexivity.
Qed.

Lemma getitem_lt {A : Type} (xs : list A) (i : nat) :
  (i < length xs)%nat -> exists x, getitem xs i = Ok x /\ xs !! i = Some x.
Proof.
  intros H. destruct (lookup_lt_is_Some_2 xs i H) as [x Hx].
  exists x. unfold getitem. rewrite Hx. split; reflexivity.
Qed.

Lemma tget_lt (n m : nat) (t : table) (i j : nat) :
  dims n m t -> (i < n)%nat -> (j < m)%nat -> exists v, tget t i j = Ok v.
Proof.
  intros [Hn Hm] Hi Hj. unfold tget.
  destruct (getitem_lt t i) as (row & E & L); [lia |].
  rewrite E. simpl.
  assert (length row = m) as Hrow.
  { rewrite Forall_lookup in Hm. exact (Hm i row L). }
  destruct (getitem_lt row j) as (v & Ev & _); [lia |].
  exists v. exact Ev.
Qed.

Lemma tset_lt (n m : nat) (t : table) (i j : nat) (v : Q) :
  dims n m t -> (i < n)%nat -> (j < m)%nat ->
  exists t', tset t i j v = Ok t' /\ dims n m t' /\ tget t' i j = Ok v /\
    forall i' j', i' <> i \/ j' <> j -> tget t' i' j' = tget t i' j'.
Proof.
  intros [Hn Hm] Hi Hj. unfold tset.
  destruct (getitem_lt t i) as (row & E & L); [lia |].
  rewrite E. simpl.
  assert (length row = m) as Hrow.
  { rewrite Forall_lookup in Hm. exact (Hm i row L). }
  unfold setitem.
  destruct (decide (j < length row)%nat) as [_|]; [| lia]. simpl.
  destruct (decide (i < length t)%nat) as [_|]; [| lia].
  exists (<[i:=<[j:=v]> row]> t). split; [reflexivity |]. split; [| split].
  - split.
    + rewrite length_insert. exact Hn.
    + apply Forall_insert; [exact Hm |]. cbv beta.
      rewrite length_insert. exact Hrow.
  - unfold tget, getitem.
    rewrite list_lookup_insert_eq by lia. simpl.
    rewrite list_lookup_insert_eq by lia. reflexivity.
  - intros i' j' Hne. unfold tget, getitem.
    destruct (decide (i' = i)) as [->|Hi'].
    + rewrite list_lookup_insert_eq by lia. rewrite L. simpl.
      destruct Hne as [Hne|Hne]; [contradiction |].
      rewrite list_lookup_insert_ne by congruence. reflexivity.
    + rewrite list_lookup_insert_ne by congruence. reflexivity.
Qed.

Lemma dims_zeros (n m : nat) : dims n m (zeros n m).
Proof.
  split.
  - apply length_replicate.
  - apply Forall_replicate. apply length_replicate.
Qed.

Lemma sq_nonneg (x : Q) : 0 <= sq x.
Proof. unfold sq. nra. Qed.

Lemma TrendCell_distance_nonneg (x y : TrendCell) : 0 <= TrendCell_distance x y.
Proof.
  unfold TrendCell_distance.
  pose proof (sq_nonneg (count x - count y)).
  pose proof (sq_nonneg (delta x - delta y)).
  pose proof (sq_nonneg (delta_delta x - delta_delta y)).
  pose proof (sq_nonneg (avg_followers x - avg_followers y)).
  pose proof (sq_nonneg (avg_statuses x - avg_statuses y)).
  pose proof (sq_nonneg (retweets x - retweets y)).
  lra.
Qed.

Lemma TrendCell_distance_sym (x y : TrendCell) :
  TrendCell_distance x y == TrendCell_distance y x.
Proof. unfold TrendCell_distance, sq. ring. Qed.

Lemma cell_cost_nonneg (a b : list TrendCell) (i j : nat) : 0 <= cell_cost a b i j.
Proof.
  unfold cell_cost. destruct (a !! i), (b !! j);
    try apply TrendCell_distance_nonneg; lra.
Qed.

Lemma cell_cost_sym (a b : list TrendCell) (i j : nat) :
  cell_cost a b i j == cell_cost b a j i.
Proof.
  unfold cell_cost. destruct (a !! i), (b !! j);
    try apply TrendCell_distance_sym; reflexivity.
Qed.

Lemma py_min3_le_diag (x y z : Q) : py_min3 x y z <= z.
Proof. unfold py_min3. apply Q.le_min_r. Qed.

Lemma cell_cost_lookup (a b : list TrendCell) (i j : nat) (x y : TrendCell) :
  a !! i = Some x -> b !! j = Some y ->
  TrendCell_distance x y = cell_cost a b i j.
Proof. intros Hx Hy. unfold cell_cost. rewrite Hx, Hy. reflexivity. Qed.

Lemma dtw_distance_array (a b : list TrendCell) :
  dtw_distance (NdArray a) (NdArray b) =
  (dtw ← tset (zeros (length a) (length b)) 0 0 0;
   dtw ← for_each (range (length a)) (dtw_first_column a b) dtw;
   dtw ← for_each (range (length a)) (dtw_first_row a b) dtw;
   dtw ← for_each (range (length a)) (dtw_row a b (length b)) dtw;
   tget dtw (last_index (length a)) (last_index (length b))).
Proof. reflexivity. Qed.

(** ** The warp distance of two arrays of one length, entry by entry *)

Lemma dtw_table_spec_column (a b : list TrendCell) (i : nat) :
  dtw_table_spec a b (S i) 0 = cell_cost a b (S i) 0 + dtw_table_spec a b i 0.
Proof. reflexivity. Qed.

Lemma dtw_table_spec_row (a b : list TrendCell) (j : nat) :
  dtw_table_spec a b 0 (S j) = cell_cost a b 0 (S j) + dtw_table_spec a b 0 j.
Proof. reflexivity. Qed.

Lemma dtw_table_spec_inner (a b : list TrendCell) (i j : nat) :
  dtw_table_spec a b (S i) (S j)
  = cell_cost a b (S i) (S j) +
    py_min3 (dtw_table_spec a b i (S j)) (dtw_table_spec a b (S i) j)
      (dtw_table_spec a b i j).
Proof. reflexivity. Qed.

Section EqualLengthTable.

Variables a b : list TrendCell.
Let n := length a.
Hypothesis same_length : length b = n.

(** The entries of the region [R] hold what the described table holds. *)
Let filled (R : nat -> nat -> Prop) (t : table) : Prop :=
  dims n n t /\
  forall i j, (i < n)%nat -> (j < n)%nat -> R i j ->
    tget t i j = Ok (dtw_table_spec a b i j).

Lemma filled_set (R R' : nat -> nat -> Prop) (t : table) (i j : nat) (v : Q) :
  filled R t -> (i < n)%nat -> (j < n)%nat -> v = dtw_table_spec a b i j ->
  (forall i' j', R' i' j' -> R i' j' \/ (i' = i /\ j' = j)) ->
  exists t', tset t i j v = Ok t' /\ filled R' t'.
Proof.
  intros [Hd Hfill] Hi Hj -> Hsub.
  destruct (tset_lt n n t i j (dtw_table_spec a b i j) Hd Hi Hj)
    as (t' & E & Hd' & Hnew & Hother).
  exists t'. split; [exact E |]. split; [exact Hd' |].
  intros i' j' Hi' Hj' HR'.
  destruct (decide (i' = i)) as [->|Hne].
  - destruct (decide (j' = j)) as [->|Hne]; [exact Hnew |].
    rewrite Hother by (right; exact Hne). apply Hfill; [lia | lia |].
    destruct (Hsub _ _ HR') as [H|[_ H]]; [exact H | contradiction].
  - rewrite Hother by (left; exact Hne). apply Hfill; [lia | lia |].
    destruct (Hsub _ _ HR') as [H|[H _]]; [exact H | contradiction].
Qed.

Lemma filled_weaken (R R' : nat -> nat -> Prop) (t : table) :
  filled R t ->
  (forall i j, (i < n)%nat -> (j < n)%nat -> R' i j -> R i j) ->
  filled R' t.
Proof.
  intros [Hd Hfill] Hsub. split; [exact Hd |].
  intros i j Hi Hj HR'. apply Hfill; auto.
Qed.

Let column_region (k i j : nat) : Prop := j = 0%nat /\ (i = 0 \/ i < k)%nat.
Let row_region (k i j : nat) : Prop := j = 0%nat \/ (i = 0 /\ j < k)%nat.
Let rows_region (k i j : nat) : Prop := (j = 0 \/ i = 0 \/ i < k)%nat.
Let inner_region (i k i' j : nat) : Prop :=
  (j = 0 \/ i' = 0 \/ i' < i \/ (i' = i /\ j < k))%nat.

Lemma dtw_first_column_fills (i : nat) (t : table) :
  (i < n)%nat -> filled (column_region i) t ->
  exists t', dtw_first_column a b i t = Ok t' /\ filled (column_region (S i)) t'.
Proof.
  intros Hi Hf. unfold dtw_first_column.
  destruct (decide (i = 0%nat)) as [->|Hne].
  { exists t. split; [reflexivity |]. apply (filled_weaken _ _ _ Hf).
    unfold column_region. intros; lia. }
  destruct (getitem_lt a i) as (ai & -> & Lai); [exact Hi |].
  destruct (getitem_lt b 0) as (b0 & -> & Lb0); [lia |].
  rewrite !bind_Ok.
  rewrite (proj2 Hf (i - 1)%nat 0%nat) by (unfold column_region; lia).
  rewrite bind_Ok. apply (filled_set (column_region i)); [exact Hf | lia | lia | |].
  - rewrite (cell_cost_lookup a b i 0 ai b0 Lai Lb0).
    destruct i as [|i']; [lia |]. rewrite dtw_table_spec_column.
    replace (S i' - 1)%nat with i' by lia. reflexivity.
  - unfold column_region. intros; lia.
Qed.

Lemma dtw_first_row_fills (j : nat) (t : table) :
  (j < n)%nat -> filled (row_region j) t ->
  exists t', dtw_first_row a b j t = Ok t' /\ filled (row_region (S j)) t'.
Proof.
  intros Hj Hf. unfold dtw_first_row.
  destruct (decide (j = 0%nat)) as [->|Hne].
  { exists t. split; [reflexivity |]. apply (filled_weaken _ _ _ Hf).
    unfold row_region. intros; lia. }
  destruct (getitem_lt a 0) as (a0 & -> & La0); [unfold n in Hj; lia |].
  destruct (getitem_lt b j) as (bj & -> & Lbj); [lia |].
  rewrite !bind_Ok.
  rewrite (proj2 Hf 0%nat (j - 1)%nat) by (unfold row_region; lia).
  rewrite bind_Ok. apply (filled_set (row_region j)); [exact Hf | lia | lia | |].
  - rewrite (cell_cost_lookup a b 0 j a0 bj La0 Lbj).
    destruct j as [|j']; [lia |]. rewrite dtw_table_spec_row.
    replace (S j' - 1)%nat with j' by lia. reflexivity.
  - unfold row_region. intros; lia.
Qed.

Lemma dtw_inner_fills (i j : nat) (t : table) :
  (1 <= i < n)%nat -> (j < n)%nat -> filled (inner_region i j) t ->
  exists t', dtw_inner a b i j t = Ok t' /\ filled (inner_region i (S j)) t'.
Proof.
  intros Hi Hj Hf. unfold dtw_inner.
  destruct (decide (j = 0%nat)) as [->|Hne].
  { exists t. split; [reflexivity |]. apply (filled_weaken _ _ _ Hf).
    unfold inner_region. intros; lia. }
  destruct (getitem_lt a i) as (ai & -> & Lai); [unfold n in Hi; lia |].
  destruct (getitem_lt b j) as (bj & -> & Lbj); [lia |].
  rewrite !bind_Ok.
  rewrite (proj2 Hf (i - 1)%nat j) by (unfold inner_region; lia).
  rewrite bind_Ok.
  rewrite (proj2 Hf i (j - 1)%nat) by (unfold inner_region; lia).
  rewrite bind_Ok.
  rewrite (proj2 Hf (i - 1)%nat (j - 1)%nat) by (unfold inner_region; lia).
  rewrite bind_Ok. apply (filled_set (inner_region i j)); [exact Hf | lia | lia | |].
  - rewrite (cell_cost_lookup a b i j ai bj Lai Lbj).
    destruct i as [|i']; [lia |]. destruct j as [|j']; [lia |].
    rewrite dtw_table_spec_inner.
    replace (S i' - 1)%nat with i' by lia.
    replace (S j' - 1)%nat with j' by lia. reflexivity.
  - unfold inner_region. intros; lia.
Qed.

Lemma dtw_row_fills (i : nat) (t : table) :
  (i < n)%nat -> filled (rows_region i) t ->
  exists t', dtw_row a b (length b) i t = Ok t' /\ filled (rows_region (S i)) t'.
Proof.
  intros Hi Hf. unfold dtw_row.
  destruct (decide (i = 0%nat)) as [->|Hne].
  { exists t. split; [reflexivity |]. apply (filled_weaken _ _ _ Hf).
    unfold rows_region. intros; lia. }
  rewrite same_length.
  destruct (for_each_range_inv (fun j => filled (inner_region i j)) n
              (dtw_inner a b i) t) as (t' & E & Hf').
  - apply (filled_weaken _ _ _ Hf). unfold inner_region, rows_region. intros; lia.
  - intros j s Hj Hs. apply dtw_inner_fills; [lia | exact Hj | exact Hs].
  - exists t'. split; [exact E |]. split; [exact (proj1 Hf') |].
    intros i' j' Hi' Hj' HR. apply (proj2 Hf'); [lia | lia |].
    unfold inner_region, rows_region in *. lia.
Qed.

(** For two arrays of one length [dtw_distance] returns the last entry of
    the table its documentation describes. *)
Lemma dtw_distance_equal_length_table :
  (0 < n)%nat ->
  dtw_distance (NdArray a) (NdArray b)
  = Ok (dtw_table_spec a b (n - 1) (n - 1)).
Proof.
  intros Hpos. rewrite dtw_distance_array, same_length. fold n.
  destruct (tset_lt n n (zeros n n) 0 0 0 (dims_zeros n n))
    as (t1 & -> & Hd1 & Hc1 & _); [lia | lia |].
  rewrite bind_Ok.
  destruct (for_each_range_inv (fun k => filled (column_region k)) n
              (dtw_first_column a b) t1) as (t2 & -> & Hf2).
  { split; [exact Hd1 |]. intros i j Hi Hj [-> Hi0].
    replace i with 0%nat by lia. exact Hc1. }
  { intros i s Hi Hs. apply dtw_first_column_fills; assumption. }
  rewrite bind_Ok.
  destruct (for_each_range_inv (fun k => filled (row_region k)) n
              (dtw_first_row a b) t2) as (t3 & -> & Hf3).
  { apply (filled_weaken _ _ _ Hf2). unfold row_region, column_region.
    intros; lia. }
  { intros j s Hj Hs. apply dtw_first_row_fills; assumption. }
  rewrite bind_Ok.
  destruct (for_each_range_inv (fun k => filled (rows_region k)) n
              (dtw_row a b n) t3) as (t4 & -> & Hf4).
  { apply (filled_weaken _ _ _ Hf3). unfold rows_region, row_region.
    intros; lia. }
  { intros i s Hi Hs. rewrite <- same_length.
    apply dtw_row_fills; assumption. }
  rewrite bind_Ok. apply (proj2 Hf4); unfold last_index, rows_region; lia.
Qed.

End EqualLengthTable.

Lemma dtw_table_spec_diag (a b : list TrendCell) (k : nat) :
  dtw_table_spec a b k k <= diag_cost a b k.
Proof.
  induction k as [|k IH].
  - simpl. lra.
  - rewrite dtw_table_spec_inner.
    change (diag_cost a b (S k)) with (diag_cost a b k + cell_cost a b (S k) (S k)).
    pose proof (py_min3_le_diag (dtw_table_spec a b k (S k))
                  (dtw_table_spec a b (S k) k) (dtw_table_spec a b k k)).
    lra.
Qed.

Lemma dtw_distance_diag (a b : list TrendCell) :
  length b = length a -> (0 < length a)%nat ->
  exists v, dtw_distance (NdArray a) (NdArray b) = Ok v /\
            v <= diag_cost a b (length a - 1).
Proof.
  intros Hlen Hpos. eexists. split.
  - apply dtw_distance_equal_length_table; assumption.
  - apply dtw_table_spec_diag.
Qed.

Lemma py_min3_swap (x y z x' y' z' : Q) :
  x == x' -> y == y' -> z == z' -> py_min3 x y z == py_min3 y' x' z'.
Proof.
  intros Hx Hy Hz. unfold py_min3.
  rewrite Hx, Hy, Hz, (Q.min_comm x' y'). reflexivity.
Qed.

Lemma dtw_table_spec_sym (a b : list TrendCell) (i j : nat) :
  dtw_table_spec a b i j == dtw_table_spec b a j i.
Proof.
  revert j. induction i as [|i IHi]; induction j as [|j IHj].
  - reflexivity.
  - rewrite dtw_table_spec_row, dtw_table_spec_column, IHj.
    rewrite (cell_cost_sym a b 0 (S j)). reflexivity.
  - rewrite dtw_table_spec_row, dtw_table_spec_column, (IHi 0%nat).
    rewrite (cell_cost_sym a b (S i) 0). reflexivity.
  - rewrite !dtw_table_spec_inner, (cell_cost_sym a b (S i) (S j)).
    rewrite (py_min3_swap _ _ _ _ _ _ (IHi (S j)) IHj (IHi j)). reflexivity.
Qed.

(** On two arrays of one length the warp distance has a value, the same
    whichever array comes first. *)
Lemma dtw_distance_sym_equal_length (a b : list TrendCell) :
  length a = length b -> (0 < length a)%nat ->
  exists v w, dtw_distance (NdArray a) (NdArray b) = Ok v /\
              dtw_distance (NdArray b) (NdArray a) = Ok w /\ v == w.
Proof.
  intros Hlen Hpos. eexists. eexists. split; [| split].
  - apply dtw_distance_equal_length_table; [symmetry; exact Hlen | exact Hpos].
  - apply dtw_distance_equal_length_table; [exact Hlen | lia].
  - rewrite Hlen. apply dtw_table_spec_sym.
Qed.

(** ** The warp distance of a longer array against a shorter one *)

Lemma for_each_app {A S : Type} (xs ys : list A) (body : A -> S -> result S)
    (st : S) :
  for_each (xs ++ ys) body st = (st' ← for_each xs body st; for_each ys body st').
Proof.
  revert st. induction xs as [|x xs IH]; intros st; simpl; [reflexivity |].
  destruct (body x st) as [s1|e]; simpl; [apply IH | reflexivity].
Qed.

Lemma getitem_ge {A : Type} (xs : list A) (i : nat) :
  (length xs <= i)%nat -> getitem xs i = Raise IndexError.
Proof.
  intros H. unfold getitem. rewrite (lookup_ge_None_2 xs i H). reflexivity.
Qed.

Lemma dtw_first_column_dims (a b : list TrendCell) (i : nat) (t : table) :
  (0 < length b)%nat -> (i < length a)%nat ->
  dims (length a) (length b) t ->
  exists t', dtw_first_column a b i t = Ok t' /\ dims (length a) (length b) t'.
Proof.
  intros Hb Hi Hd. unfold dtw_first_column.
  destruct (decide (i = 0%nat)) as [->|Hne].
  { exists t. split; [reflexivity | exact Hd]. }
  destruct (getitem_lt a i) as (ai & -> & _); [exact Hi |].
  destruct (getitem_lt b 0) as (b0 & -> & _); [exact Hb |].
  rewrite !bind_Ok.
  destruct (tget_lt _ _ t (i - 1) 0 Hd) as (up & ->); [lia | lia |].
  rewrite bind_Ok.
  destruct (tset_lt _ _ t i 0 (TrendCell_distance ai b0 + up) Hd)
    as (t' & -> & Hd' & _); [lia | lia |].
  exists t'. split; [reflexivity | exact Hd'].
Qed.

Lemma dtw_first_row_dims (a b : list TrendCell) (j : nat) (t : table) :
  (0 < length a)%nat -> (j < length b)%nat ->
  dims (length a) (length b) t ->
  exists t', dtw_first_row a b j t = Ok t' /\ dims (length a) (length b) t'.
Proof.
  intros Ha Hj Hd. unfold dtw_first_row.
  destruct (decide (j = 0%nat)) as [->|Hne].
  { exists t. split; [reflexivity | exact Hd]. }
  destruct (getitem_lt a 0) as (a0 & -> & _); [exact Ha |].
  destruct (getitem_lt b j) as (bj & -> & _); [exact Hj |].
  rewrite !bind_Ok.
  destruct (tget_lt _ _ t 0 (j - 1) Hd) as (left & ->); [lia | lia |].
  rewrite bind_Ok.
  destruct (tset_lt _ _ t 0 j (TrendCell_distance a0 bj + left) Hd)
    as (t' & -> & Hd' & _); [lia | lia |].
  exists t'. split; [reflexivity | exact Hd'].
Qed.

Lemma dtw_first_row_past_end (a b : list TrendCell) (t : table) :
  (0 < length a)%nat -> (0 < length b)%nat ->
  dtw_first_row a b (length b) t = Raise IndexError.
Proof.
  intros Ha Hb. unfold dtw_first_row.
  destruct (decide (length b = 0%nat)) as [|_]; [lia |].
  destruct (getitem_lt a 0) as (a0 & -> & _); [lia |].
  rewrite bind_Ok, (getitem_ge b (length b)) by lia. reflexivity.
Qed.

(** With the longer array first the loop over the first row runs past the
    end of the shorter one. *)
Lemma dtw_distance_longer_first (a b : list TrendCell) :
  (0 < length b < length a)%nat ->
  dtw_distance (NdArray a) (NdArray b) = Raise IndexError.
Proof.
  intros [Hb Hab]. rewrite dtw_distance_array.
  destruct (tset_lt _ _ (zeros (length a) (length b)) 0 0 0
              (dims_zeros (length a) (length b)))
    as (t1 & -> & Hd1 & _); [lia | lia |].
  rewrite bind_Ok.
  destruct (for_each_range_inv (fun _ => dims (length a) (length b))
              (length a) (dtw_first_column a b) t1) as (t2 & -> & Hd2).
  { exact Hd1. }
  { intros i s Hi Hs. apply dtw_first_column_dims; [lia | exact Hi | exact Hs]. }
  rewrite bind_Ok. unfold range.
  replace (length a) with (length b + S (length a - length b - 1))%nat at 1
    by lia.
  rewrite seq_app, for_each_app.
  destruct (for_each_range_inv (fun _ => dims (length a) (length b))
              (length b) (dtw_first_row a b) t2) as (t3 & E3 & Hd3).
  { exact Hd2. }
  { intros j s Hj Hs. apply dtw_first_row_dims; [lia | exact Hj | exact Hs]. }
  unfold range in E3. rewrite E3, bind_Ok. simpl.
  rewrite dtw_first_row_past_end by lia. reflexivity.
Qed.

(** ** The sliding-offset distance *)

Lemma distance_total_ok (a b : list TrendCell) (offset : nat) :
  (offset + length a <= length b)%nat ->
  exists t, distance_total a b offset = Ok t /\
            t == total_upto a b offset (length a).
Proof.
  intros Hfit. unfold distance_total.
  apply (for_each_range_inv (fun k total => total == total_upto a b offset k)).
  - simpl. reflexivity.
  - intros i total Hi Htotal.
    destruct (getitem_lt a i) as (x & -> & Lx); [exact Hi |].
    destruct (getitem_lt b (offset + i)) as (y & -> & Ly); [lia |].
    rewrite !bind_Ok. eexists. split; [reflexivity |].
    simpl. rewrite (cell_cost_lookup a b i (offset + i) x y Lx Ly).
    rewrite Htotal. reflexivity.
Qed.

Lemma distance_aligned_ok (a b : list TrendCell) :
  (length a <= length b)%nat ->
  exists m, distance_aligned a b = Ok (Some m) /\
            least_total a b (length b - length a + 1) m.
Proof.
  intros Hle. unfold distance_aligned.
  destruct (for_each_range_inv
              (fun k min_distance =>
                 match min_distance with
                 | None => k = 0%nat
                 | Some m => least_total a b k m
                 end)
              (length b - length a + 1) (distance_offset a b) None)
    as ([m|] & E & Hm).
  - reflexivity.
  - intros k min_distance Hk Hmin. unfold distance_offset.
    destruct (distance_total_ok a b k) as (t & -> & Ht); [lia |].
    rewrite bind_Ok.
    destruct min_distance as [m|].
    + destruct Hmin as (Hall & off & Hoff & Heq).
      unfold py_gt, py_lt. destruct (Qle_bool m t) eqn:Hcmp; simpl.
      * apply Qle_bool_iff in Hcmp.
        exists (Some m). split; [reflexivity |]. split.
        -- intros o Ho. destruct (decide (o = k)) as [->|Hne].
           ++ rewrite <- Ht. exact Hcmp.
           ++ apply Hall. lia.
        -- exists off. split; [lia | exact Heq].
      * assert (t < m) as Hlt.
        { apply Qnot_le_lt. intros Hc. apply Qle_bool_iff in Hc. congruence. }
        exists (Some t). split; [reflexivity |]. split.
        -- intros o Ho. destruct (decide (o = k)) as [->|Hne].
           ++ rewrite Ht. apply Qle_refl.
           ++ specialize (Hall o ltac:(lia)). lra.
        -- exists k. split; [lia | exact Ht].
    + subst k. exists (Some t). split; [reflexivity |]. split.
      * intros o Ho. replace o with 0%nat by lia. rewrite Ht. apply Qle_refl.
      * exists 0%nat. split; [lia | exact Ht].
  - exists m. split; assumption.
  - lia.
Qed.

Lemma total_upto_sym (a b : list TrendCell) (k : nat) :
  total_upto a b 0 k == total_upto b a 0 k.
Proof.
  induction k as [|k IH]; simpl; [reflexivity |].
  rewrite IH, (cell_cost_sym a b k k). reflexivity.
Qed.

Lemma diag_cost_le_total (a b : list TrendCell) (k : nat) :
  diag_cost a b k <= total_upto a b 0 (S k).
Proof.
  induction k as [|k IH].
  - simpl. pose proof (cell_cost_nonneg a b 0 0). lra.
  - change (diag_cost a b (S k)) with (diag_cost a b k + cell_cost a b (S k) (S k)).
    change (total_upto a b 0 (S (S k)))
      with (total_upto a b 0 (S k) + cell_cost a b (S k) (0 + S k)).
    simpl (0 + S k)%nat. lra.
Qed.

(** The sliding-offset distance of two lines always has a value, and the
    value does not depend on which of the two lines is asked. *)
Lemma TrendLine_distance_sym (x y : TrendLine) :
  exists v w, TrendLine_distance x y = Ok (Some v) /\
              TrendLine_distance y x = Ok (Some w) /\ v == w.
Proof.
  unfold TrendLine_distance.
  destruct (decide (length (data y) < length (data x))%nat) as [Hyx|Hyx];
    destruct (decide (length (data x) < length (data y))%nat) as [Hxy|Hxy];
    try lia.
  - destruct (distance_aligned_ok (data y) (data x)) as (m & E & _); [lia |].
    exists m, m. split; [exact E |]. split; [exact E | reflexivity].
  - destruct (distance_aligned_ok (data x) (data y)) as (m & E & _); [lia |].
    exists m, m. split; [exact E |]. split; [exact E | reflexivity].
  - assert (length (data x) = length (data y)) as Hlen by lia.
    destruct (distance_aligned_ok (data x) (data y))
      as (v & Ev & _ & o & Ho & Hv); [lia |].
    destruct (distance_aligned_ok (data y) (data x))
      as (w & Ew & _ & o' & Ho' & Hw); [lia |].
    exists v, w. split; [exact Ev |]. split; [exact Ew |].
    replace o with 0%nat in Hv by lia. replace o' with 0%nat in Hw by lia.
    rewrite Hv, Hw, Hlen. apply total_upto_sym.
Qed.

(** ** Normalization *)

Lemma py_lt_spec (x y : Q) : py_lt x y = true <-> x < y.
Proof.
  unfold py_lt. destruct (Qle_bool y x) eqn:E; simpl.
  - apply Qle_bool_iff in E. split; [discriminate | lra].
  - split; [intros _ | reflexivity].
    apply Qnot_le_lt. intros H. apply Qle_bool_iff in H. congruence.
Qed.

Lemma fold_max_spec (xs : list Q) (acc : Q) :
  let m := fold_left (fun m y => if py_lt m y then y else m) xs acc in
  (m = acc \/ m ∈ xs) /\ acc <= m /\ forall x, x ∈ xs -> x <= m.
Proof.
  revert acc. induction xs as [|y ys IH]; intros acc; simpl.
  - split; [left; reflexivity |]. split; [lra |].
    intros x Hx. apply elem_of_nil in Hx. contradiction.
  - destruct (IH (if py_lt acc y then y else acc)) as (Hin & Hle & Hall).
    destruct (py_lt acc y) eqn:E.
    + apply py_lt_spec in E. split; [| split].
      * right. destruct Hin as [->|Hin]; [left | right; exact Hin].
      * lra.
      * intros x Hx. apply elem_of_cons in Hx as [->|Hx]; [exact Hle | auto].
    + assert (y <= acc) as Hy.
      { apply Qnot_lt_le. intros H. apply py_lt_spec in H. congruence. }
      split; [| split].
      * destruct Hin as [->|Hin]; [left; reflexivity | right; right; exact Hin].
      * exact Hle.
      * intros x Hx. apply elem_of_cons in Hx as [->|Hx]; [lra | auto].
Qed.

Lemma py_max_spec (xs : list Q) (m : Q) :
  py_max xs = Ok m -> m ∈ xs /\ forall x, x ∈ xs -> x <= m.
Proof.
  destruct xs as [|x xs]; simpl; [discriminate |]. intros [= <-].
  destruct (fold_max_spec xs x) as (Hin & Hle & Hall). split.
  - destruct Hin as [->|Hin]; [left | right; exact Hin].
  - intros y Hy. apply elem_of_cons in Hy as [->|Hy]; [exact Hle | auto].
Qed.

Lemma py_max_nonempty (xs : list Q) : xs <> [] -> exists m, py_max xs = Ok m.
Proof. destruct xs; [congruence |]. intros _. eexists. reflexivity. Qed.

Lemma floor_one_scaled_unit (x m : Q) :
  0 <= x -> x <= m -> 0 <= x / floor_one m /\ x / floor_one m <= 1.
Proof.
  intros H0 Hm. unfold floor_one, py_eq.
  destruct (Qeq_bool m 0) eqn:E.
  - apply Qeq_bool_iff in E. split.
    + apply Qle_shift_div_l; lra.
    + apply Qle_shift_div_r; lra.
  - assert (0 < m) as Hpos.
    { apply Qeq_bool_neq in E. apply Qle_lteq in Hm. apply Qle_lteq in H0.
      destruct H0 as [H0|H0], Hm as [Hm|Hm]; lra. }
    split.
    + apply Qle_shift_div_l; lra.
    + apply Qle_shift_div_r; lra.
Qed.

Lemma floor_one_scaled_max (m : Q) : ~ m == 0 -> m / floor_one m == 1.
Proof.
  intros H. unfold floor_one, py_eq.
  destruct (Qeq_bool m 0) eqn:E.
  - apply Qeq_bool_iff in E. contradiction.
  - field. exact H.
Qed.

Lemma normalize_line_feature (trend out : TrendLine) (f : Feature) :
  normalize_line trend = Ok out ->
  exists m,
    py_max (map (feature f) (data trend)) = Ok m /\
    map (feature f) (data out)
      = map (fun x => x / floor_one m) (map (feature f) (data trend)).
Proof.
  unfold normalize_line.
  destruct (py_max (map count (data trend))) as [mc|] eqn:Ec; [| discriminate].
  destruct (py_max (map delta (data trend))) as [md|] eqn:Ed; [| discriminate].
  destruct (py_max (map delta_delta (data trend))) as [mdd|] eqn:Edd;
    [| discriminate].
  destruct (py_max (map avg_followers (data trend))) as [mf|] eqn:Ef;
    [| discriminate].
  destruct (py_max (map avg_statuses (data trend))) as [ms|] eqn:Es;
    [| discriminate].
  rewrite !bind_Ok. intros [= <-].
  destruct f; [exists mc | exists md | exists mdd | exists mf | exists ms];
    (split; [assumption |]); cbn [data feature]; rewrite !map_map; reflexivity.
Qed.

Lemma normalize_line_ok (trend : TrendLine) :
  data trend <> [] -> exists out, normalize_line trend = Ok out.
Proof.
  intros Hne. unfold normalize_line.
  assert (forall g : TrendCell -> Q, exists m, py_max (map g (data trend)) = Ok m)
    as Hmax.
  { intros g. apply py_max_nonempty. destruct (data trend); [congruence | discriminate]. }
  destruct (Hmax count) as [? ->]. destruct (Hmax delta) as [? ->].
  destruct (Hmax delta_delta) as [? ->]. destruct (Hmax avg_followers) as [? ->].
  destruct (Hmax avg_statuses) as [? ->].
  rewrite !bind_Ok. eexists. reflexivity.
Qed.

(** What does hold of [normalize]: a feature that is negative in no cell of
    a line lies in [0, 1] in every cell afterwards, and is 1 in some cell
    unless its largest value in the line is 0. *)
Lemma normalize_line_unit_interval (trend : TrendLine) (f : Feature) :
  data trend <> [] ->
  (forall c, c ∈ data trend -> 0 <= feature f c) ->
  exists out m,
    normalize_line trend = Ok out /\
    py_max (map (feature f) (data trend)) = Ok m /\
    (forall c, c ∈ data out -> 0 <= feature f c /\ feature f c <= 1) /\
    (~ m == 0 -> exists c, c ∈ data out /\ feature f c == 1).
Proof.
  intros Hne Hnonneg.
  destruct (normalize_line_ok trend Hne) as [out Eout].
  destruct (normalize_line_feature trend out f Eout) as (m & Em & Hmap).
  destruct (py_max_spec _ _ Em) as [Hin Hall].
  exists out, m. split; [exact Eout |]. split; [exact Em |]. split.
  - intros c Hc.
    assert (feature f c ∈ map (feature f) (data out)) as Hfc.
    { apply list_elem_of_fmap. exists c. split; [reflexivity | exact Hc]. }
    rewrite Hmap in Hfc. apply list_elem_of_fmap in Hfc as (x & -> & Hx).
    apply floor_one_scaled_unit.
    + apply list_elem_of_fmap in Hx as (c0 & -> & Hc0). apply Hnonneg. exact Hc0.
    + apply Hall. exact Hx.
  - intros Hm.
    assert (m / floor_one m ∈ map (feature f) (data out)) as Hfc.
    { rewrite Hmap. apply list_elem_of_fmap. exists m. split; [reflexivity | exact Hin]. }
    apply list_elem_of_fmap in Hfc as (c & Ec & Hc).
    exists c. split; [exact Hc |]. rewrite <- Ec. apply floor_one_scaled_max. exact Hm.
Qed.

(** C1.  The claim is that after [normalize] every normalized feature of
    every cell lies in [0, 1].  The second pass of the population turns the
    counts 0, 5, 0 into the deltas 0, 5, -5 and the second differences
    0, 0, -10; [normalize] divides by the largest value of each feature (by 1
    when that is 0) and so leaves the last cell with the delta -1 and the
    second difference -10, both below 0. *)
Theorem normalize_leaves_negative_deltas :
  exists populated normalized cell,
    second_pass spike = Ok populated /\
    TrendModel_normalize (mkTrendModel [line_of "spike" populated])
      = Ok (mkTrendModel [normalized]) /\
    data normalized !! 2%nat = Some cell /\
    delta cell == -1 /\ delta_delta cell == -10 /\
    ~ (0 <= delta cell) /\ ~ (0 <= delta_delta cell).
Proof.
  eexists. eexists. eexists.
  split; [vm_compute; reflexivity |].
  split; [vm_compute; reflexivity |].
  split; [reflexivity |].
  repeat split; vm_compute; congruence.
Qed.

(** ** Leave-one-out evaluation *)

(** The labels as [matrix] reads them, through [TrendLine.trending]. *)
Lemma trending_of_two_lines :
  TrendLine_trending <$> trends two_line_model = [true; false].
Proof. reflexivity. Qed.

(** [leave_one_out] returns for no model at all: the division by zero is
    reached on the empty model, and the labels are not on any other. *)
Lemma leave_one_out_never_returns (self : TrendModel) :
  exists e, TrendModel_leave_one_out self = Raise e.
Proof.
  unfold TrendModel_leave_one_out.
  destruct (TrendModel_normalize self) as [[lines]|e]; [| exists e; reflexivity].
  rewrite bind_Ok. destruct lines as [|line lines].
  - exists ZeroDivisionError. reflexivity.
  - exists AttributeError. reflexivity.
Qed.

(** C2.  The claim is that [leave_one_out] returns the precision and the
    recall of the nearest-neighbour matches.  On the model of one positive
    and one negative line the call raises [AttributeError]: the labels are
    read as [trend.data.trending], and [trend.data] is a list. *)
Theorem leave_one_out_raises_on_two_lines :
  TrendModel_leave_one_out two_line_model = Raise AttributeError.
Proof. vm_compute. reflexivity. Qed.

(** ** The warp distance *)

(** C3.  The claim is that [dtw_distance] returns the last entry of the
    table whose first row and first column both accumulate the cell
    distances.  For an array of one cell against an array of two the loop
    over the first row runs over [range(n)], not [range(m)]: the entry
    [dtw[0][1]] is never written and 0 is returned, where the table of the
    claim holds 1. *)
Theorem dtw_distance_first_row_cut_short :
  dtw_distance (NdArray [counted 0]) (NdArray [counted 0; counted 1]) = Ok 0 /\
  dtw_table_spec [counted 0] [counted 0; counted 1] 0 1 == 1 /\
  ~ (0 == 1).
Proof.
  split; [vm_compute; reflexivity |].
  split; vm_compute; congruence.
Qed.

(** C4.  The claim is that both distances are symmetric.  The warp distance
    of an array of one cell and an array of two is 0 one way round, and
    an [IndexError] the other way round, when the loop over the first row
    reads [b[1]] of the one-cell array. *)
Theorem dtw_distance_depends_on_order :
  dtw_distance (NdArray [counted 0]) (NdArray [counted 0; counted 1]) = Ok 0 /\
  dtw_distance (NdArray [counted 0; counted 1]) (NdArray [counted 0])
    = Raise IndexError.
Proof. split; vm_compute; reflexivity. Qed.

(** C5, as stated: the warp distance is at most the sliding-offset distance.
    Two empty windows against two empty windows followed by one of five
    tweets: the sliding-offset distance is 0, the warp distance is 25. *)
Lemma dtw_distance_above_sliding :
  exists v w,
    dtw_distance (NdArray [counted 0; counted 0])
                 (NdArray [counted 0; counted 0; counted 5]) = Ok v /\
    TrendLine_distance (line_of "short" [counted 0; counted 0])
                       (line_of "long" [counted 0; counted 0; counted 5])
      = Ok (Some w) /\
    ~ (v <= w).
Proof.
  exists 25, 0.
  split; [vm_compute; reflexivity |].
  split; [vm_compute; reflexivity |].
  vm_compute. intros H. apply H. reflexivity.
Qed.

(** C5, amended: for two lines of the same, non-zero number of cells,
    [dtw_distance] on numpy arrays of their cells and [TrendLine.distance]
    on the lines both have a value, and the warp distance is at most the
    sliding-offset distance. *)
Theorem dtw_distance_le_sliding_equal_length (x y : TrendLine) :
  (0 < length (data x))%nat ->
  length (data x) = length (data y) ->
  exists v w,
    dtw_distance (NdArray (data x)) (NdArray (data y)) = Ok v /\
    TrendLine_distance x y = Ok (Some w) /\
    v <= w.
Proof.
  intros Hpos Hlen.
  destruct (dtw_distance_diag (data x) (data y)) as (v & Ev & Hv);
    [symmetry; exact Hlen | exact Hpos |].
  unfold TrendLine_distance.
  destruct (decide (length (data y) < length (data x))%nat) as [|_]; [lia |].
  destruct (distance_aligned_ok (data x) (data y))
    as (w' & Ew' & _ & o & Ho & Hw'); [lia |].
  exists v, w'. split; [exact Ev |]. split; [exact Ew' |].
  replace o with 0%nat in Hw' by lia. rewrite Hw'.
  pose proof (diag_cost_le_total (data x) (data y) (length (data x) - 1)) as Hd.
  replace (S (length (data x) - 1)) with (length (data x)) in Hd by lia.
  lra.
Qed.

Lemma dtw_distance_le_sliding_equal_length_witness :
  exists v w,
    dtw_distance (NdArray [counted 0; counted 3])
                 (NdArray [counted 1; counted 1]) = Ok v /\
    TrendLine_distance (line_of "x" [counted 0; counted 3])
                       (line_of "y" [counted 1; counted 1]) = Ok (Some w) /\
    v <= w.
Proof.
  apply (dtw_distance_le_sliding_equal_length
           (line_of "x" [counted 0; counted 3])
           (line_of "y" [counted 1; counted 1])).
  - simpl. lia.
  - reflexivity.
Defined.

(** ** Positive lines *)

(** C6.  The claim is that [from_twitter_trend] returns a line of as many
    cells as the longest run of timestamps, starting where that run starts.
    A run is only recorded when a later timestamp breaks it: for a trend
    announced in three neighbouring windows and never again the line has no
    cell and no start, where the longest run has three timestamps and starts
    at 0. *)
Theorem from_twitter_trend_misses_unbroken_run :
  TrendLine_from_twitter_trend 120
    (mkTwitterTrend "storm" [0; 120; 240]%Z 120)
    = Ok (mkTrendLine "storm" None [] 120) /\
  longest_run_spec 120 [0; 120; 240]%Z = [0; 120; 240]%Z.
Proof. split; vm_compute; reflexivity. Qed.

Lemma run_step_keeps (window_size ts : Z) (st : RunState) :
  run_inv st -> exists st', run_step window_size ts st = Ok st' /\ run_inv st'.
Proof.
  intros [Hlast Hlong]. unfold run_step.
  destruct (start_consecutive st) as [sc|] eqn:Esc.
  - destruct (last_timestamp st) as [last|] eqn:Elast;
      [| exfalso; apply Hlast; congruence].
    destruct (ts =? last + window_size)%Z.
    + eexists. split; [reflexivity |]. split; simpl; [congruence | exact Hlong].
    + destruct (start_longest st) as [sl|] eqn:Esl.
      * destruct (longest_consecutive st <? current_consecutive st)%nat;
          (eexists; split; [reflexivity |]); split; simpl; congruence.
      * eexists. split; [reflexivity |]. split; simpl; congruence.
  - eexists. split; [reflexivity |]. split; simpl; [congruence | exact Hlong].
Qed.

Lemma from_twitter_trend_ok (window_size : Z) (twitter_trend : TwitterTrend) :
  exists line,
    TrendLine_from_twitter_trend window_size twitter_trend = Ok line /\
    derived_line line.
Proof.
  unfold TrendLine_from_twitter_trend.
  destruct (for_each_inv run_inv (timestamps twitter_trend)
              (run_step window_size) run_init) as (st & -> & _ & Hlong).
  - split; simpl; [congruence | reflexivity].
  - intros ts s _ Hs. apply run_step_keeps. exact Hs.
  - rewrite bind_Ok. eexists. split; [reflexivity |]. split; simpl.
    + rewrite length_replicate. reflexivity.
    + intros Hnone. rewrite (Hlong Hnone). reflexivity.
Qed.

Lemma comprehension_Forall {A B : Type} (P : B -> Prop) (f : A -> result B)
    (xs : list A) :
  (forall x, x ∈ xs -> exists y, f x = Ok y /\ P y) ->
  exists ys, comprehension f xs = Ok ys /\ Forall P ys.
Proof.
  intros H.
  destruct (comprehension_Forall2 (fun _ y => P y) f xs H) as (ys & E & F).
  exists ys. split; [exact E |].
  clear E H. induction F; constructor; assumption.
Qed.

(** The first half of [model_from_files]: every line derived from the
    trends read reaches the padding only with 15 cells or more, and each
    line that does comes out with 90 empty cells that do not trend before
    its own cells and with its start moved back by 90 windows. *)
Lemma positive_trends_from_padded (twitter_trends : list TwitterTrend) :
  exists derived padded,
    comprehension (TrendLine_from_twitter_trend 120) twitter_trends
      = Ok derived /\
    positive_trends_from twitter_trends = Ok padded /\
    Forall2
      (fun trend out =>
         name out = name trend /\
         window_size out = window_size trend /\
         data out
           = replicate 90 (mkTrendCell false 0 0 0 0 0 0) ++ data trend /\
         exists s, start_ts trend = Some s /\
                   start_ts out = Some (s - window_size trend * 90)%Z)
      (filter (fun trend => (15 <= length (data trend))%nat) derived)
      padded.
Proof.
  destruct (comprehension_Forall derived_line
              (TrendLine_from_twitter_trend 120) twitter_trends)
    as (derived & Ed & Hd).
  { intros tt _. apply from_twitter_trend_ok. }
  exists derived. unfold positive_trends_from. rewrite Ed, bind_Ok.
  unfold remove_short, MINIMUM_TREND_SIZE.
  match goal with
  | |- exists padded, _ /\ comprehension preempt ?l = _ /\ Forall2 ?R _ _ =>
      destruct (comprehension_Forall2 R preempt l) as (padded & Ep & Hp)
  end.
  - intros trend Hin. apply list_elem_of_filter in Hin as [Hlen Hin].
    rewrite Forall_forall in Hd. destruct (Hd trend Hin) as [_ Hstart].
    unfold preempt. destruct (start_ts trend) as [s|] eqn:Es.
    + eexists. split; [reflexivity |]. simpl.
      repeat split. exists s. split; reflexivity.
    + rewrite (Hstart eq_refl) in Hlen. simpl in Hlen. lia.
  - exists padded. split; [reflexivity |]. split; [exact Ep | exact Hp].
Qed.

(** ** The second pass of the population *)

Lemma averaged_count (c : TrendCell) : count (averaged c) = count c.
Proof. unfold averaged. destruct (py_gt (count c) 0); reflexivity. Qed.

Lemma averaged_trending (c : TrendCell) : trending (averaged c) = trending c.
Proof. unfold averaged. destruct (py_gt (count c) 0); reflexivity. Qed.

Lemma py_gt_0_true (x : Q) : 0 < x -> py_gt x 0 = true.
Proof.
  intros H. unfold py_gt, py_lt. destruct (Qle_bool x 0) eqn:E; [| reflexivity].
  apply Qle_bool_iff in E. lra.
Qed.

Lemma py_gt_0_false (x : Q) : x <= 0 -> py_gt x 0 = false.
Proof.
  intros H. unfold py_gt, py_lt. apply Qle_bool_iff in H. rewrite H. reflexivity.
Qed.

Lemma averaged_pos (c : TrendCell) :
  0 < count c ->
  avg_followers (averaged c) = avg_followers c / count c /\
  avg_statuses (averaged c) = avg_statuses c / count c /\
  retweets (averaged c) = retweets c / count c.
Proof.
  intros H. unfold averaged. rewrite (py_gt_0_true _ H). repeat split.
Qed.

Lemma averaged_nonpos (c : TrendCell) : count c <= 0 -> averaged c = c.
Proof. intros H. unfold averaged. rewrite (py_gt_0_false _ H). reflexivity. Qed.

Lemma second_pass_step_keeps (data0 : list TrendCell) (k : nat) (st : PassState) :
  (k < length data0)%nat -> pass2_inv data0 k st ->
  exists st', second_pass_step k st = Ok st' /\ pass2_inv data0 (S k) st'.
Proof.
  destruct st as [[d first] second].
  intros Hk (Hlen & -> & -> & Hrest & Hdone).
  unfold second_pass_step.
  destruct (getitem_lt d k) as (datum & -> & Ld); [lia |].
  rewrite bind_Ok.
  assert (data0 !! k = Some datum) as L0 by (rewrite <- Hrest by lia; exact Ld).
  assert (forall c i, (i <> k)%nat -> <[k:=c]> d !! i = d !! i) as Hne.
  { intros c i Hi. apply list_lookup_insert_ne. congruence. }
  assert (forall c, <[k:=c]> d !! k = Some c) as Heq.
  { intros c. apply list_lookup_insert_eq. lia. }
  assert (forall c,
            pass2_cell datum (d !! (k - 1)%nat) k c ->
            forall f s, pass2_inv data0 (S k) (<[k:=c]> d, f, s) <->
                        f = bool_decide (S k = 0%nat) /\
                        s = bool_decide (S k = 1%nat)) as Hfinish.
  { intros c Hc f s. split.
    - intros (_ & Hf & Hs & _). split; assumption.
    - intros [-> ->]. split; [rewrite length_insert; exact Hlen |].
      split; [reflexivity |]. split; [reflexivity |]. split.
      + intros i Hi. rewrite Hne by lia. apply Hrest. lia.
      + intros i Hi. destruct (decide (i = k)) as [->|Hik].
        * exists datum, c. split; [exact L0 |]. split; [apply Heq |].
          destruct k as [|k']; [exact Hc |].
          rewrite Hne by lia. exact Hc.
        * destruct (Hdone i) as (orig & out & Ho & Hout & Hcell); [lia |].
          exists orig, out. split; [exact Ho |].
          rewrite !Hne by lia. split; assumption. }
  unfold setitem.
  destruct (decide (k < length d)%nat) as [_|]; [| lia].
  destruct (decide (k = 0%nat)) as [->|Hk0].
  { rewrite bool_decide_eq_true_2 by reflexivity. rewrite bind_Ok.
    eexists. split; [reflexivity |]. apply Hfinish; [| split; reflexivity].
    unfold pass2_cell, with_deltas. simpl.
    rewrite averaged_trending, averaged_count. repeat split. }
  rewrite (bool_decide_eq_false_2 (k = 0%nat)) by exact Hk0.
  destruct (Hdone (k - 1)%nat) as (porig & prev & _ & Lp & _); [lia |].
  unfold getitem. rewrite Lp.
  destruct (decide (k = 1%nat)) as [->|Hk1].
  { rewrite bool_decide_eq_true_2 by reflexivity. rewrite !bind_Ok.
    eexists. split; [reflexivity |]. apply Hfinish; [| split; reflexivity].
    unfold pass2_cell, with_deltas. simpl in Lp |- *. rewrite Lp. simpl.
    rewrite averaged_trending, averaged_count. repeat split. }
  rewrite (bool_decide_eq_false_2 (k = 1%nat)) by exact Hk1.
  rewrite !bind_Ok.
  eexists. split; [reflexivity |]. apply Hfinish.
  - unfold pass2_cell, with_deltas. rewrite Lp.
    destruct k as [|[|k']]; [lia | lia |]. simpl.
    rewrite averaged_trending, averaged_count. repeat split.
  - split; symmetry; apply bool_decide_eq_false_2; lia.
Qed.

(** The second pass over the cells of one line: labels and counts stay,
    the totals of a cell are divided by its count when that is above 0, and
    the deltas and second differences are those of the counts. *)
Lemma second_pass_per_cell (data : list TrendCell) :
  exists out,
    second_pass data = Ok out /\ length out = length data /\
    forall i orig, data !! i = Some orig ->
      exists cell, out !! i = Some cell /\
        trending cell = trending orig /\ count cell = count orig /\
        (0 < count orig ->
           avg_followers cell = avg_followers orig / count orig /\
           avg_statuses cell = avg_statuses orig / count orig /\
           retweets cell = retweets orig / count orig) /\
        (count orig <= 0 ->
           avg_followers cell = avg_followers orig /\
           avg_statuses cell = avg_statuses orig /\
           retweets cell = retweets orig) /\
        (i = 0%nat -> delta cell = 0 /\ delta_delta cell = 0) /\
        (forall prev, i = 1%nat -> data !! 0%nat = Some prev ->
           delta cell = count orig - count prev /\ delta_delta cell = 0) /\
        (forall prev prev_out, (2 <= i)%nat ->
           data !! (i - 1)%nat = Some prev ->
           out !! (i - 1)%nat = Some prev_out ->
           delta cell = count orig - count prev /\
           delta_delta cell = delta cell - delta prev_out).
Proof.
  unfold second_pass.
  destruct (for_each_range_inv (pass2_inv data) (length data)
              second_pass_step (data, true, false))
    as ([[out f] s] & -> & Hlen & _ & _ & _ & Hdone).
  { split; [reflexivity |]. split; [reflexivity |]. split; [reflexivity |].
    split; [reflexivity | intros; lia]. }
  { intros i st Hi Hst. apply second_pass_step_keeps; assumption. }
  rewrite bind_Ok. exists out. split; [reflexivity |]. split; [exact Hlen |].
  intros i orig Hi.
  destruct (Hdone i) as (orig' & cell & Ho & Hc & Ht & Hn & Hf & Hs & Hr & Hd).
  { apply lookup_lt_Some in Hi. exact Hi. }
  assert (orig' = orig) as -> by congruence.
  exists cell. split; [exact Hc |]. split; [exact Ht |]. split; [exact Hn |].
  split; [| split; [| split; [| split]]].
  - intros Hpos. destruct (averaged_pos orig Hpos) as (E1 & E2 & E3).
    rewrite Hf, Hs, Hr. repeat split; assumption.
  - intros Hnp. rewrite Hf, Hs, Hr, (averaged_nonpos orig Hnp). repeat split.
  - intros ->. exact Hd.
  - intros prev -> Hprev.
    destruct (Hdone 0%nat) as (p0 & pout & Hp0 & Hpout & _ & Hpn & _).
    { apply lookup_lt_Some in Hi. lia. }
    simpl in Hd. rewrite Hpout in Hd. destruct Hd as [Hd1 Hd2].
    split; [| exact Hd2]. rewrite Hd1, Hpn. congruence.
  - intros prev prev_out Hi2 Hprev Hpout.
    destruct (Hdone (i - 1)%nat) as (p0 & pout & Hp0 & Hpo & _ & Hpn & _).
    { pose proof (lookup_lt_Some _ _ _ Hi). lia. }
    assert (pout = prev_out) as -> by congruence.
    assert (p0 = prev) as -> by congruence.
    rewrite Hpout in Hd. destruct i as [|[|i']]; [lia | lia |].
    destruct Hd as [Hd1 Hd2]. split; [| exact Hd2]. rewrite Hd1, Hpn. reflexivity.
Qed.

(** ** Reconstruction *)

Lemma get_is_None_absent (m : gmap string json) (key : string) :
  absent m key -> get_is_None (JDict m) key = Ok true.
Proof.
  intros [H|H]; unfold get_is_None, dict_get; rewrite H; reflexivity.
Qed.

Lemma get_is_None_dict (m : gmap string json) (key : string) :
  exists b, get_is_None (JDict m) key = Ok b.
Proof. unfold get_is_None, dict_get. eexists. reflexivity. Qed.

Lemma get_is_None_present (m : gmap string json) (key : string) (v : json) :
  m !! key = Some v -> v <> JNull ->
  get_is_None (JDict m) key = Ok false /\ subscript (JDict m) key = Ok v.
Proof.
  intros H Hv. unfold get_is_None, dict_get, subscript. rewrite H. simpl.
  split; [| reflexivity]. destruct v; congruence.
Qed.

(** Runs a guard of [from_obj]: either it answers [None] at once, or the
    proof goes on below it. *)
Ltac pass_guard m key :=
  let b := fresh "b" in
  let E := fresh "E" in
  destruct (get_is_None_dict m key) as [b E]; rewrite E, bind_Ok;
  destruct b; [reflexivity |].

Ltac stop_at_guard H :=
  rewrite (get_is_None_absent _ _ H), bind_Ok; reflexivity.

(** C9.  The claim is that a missing field at any level makes [from_obj]
    answer [None] for the object that lacks it.  [TrendModel.from_obj] and
    [TrendLine.from_obj] look for every field they read; [TrendCell.from_obj]
    looks for four of the seven it reads.  A cell persisted without
    [retweets] makes it raise [KeyError], and the exception passes through
    the line and the model that hold the cell. *)
Theorem from_obj_raises_on_cell_without_retweets :
  TrendCell_from_obj cell_without_retweets = Raise KeyError /\
  TrendLine_from_obj (line_holding cell_without_retweets) = Raise KeyError /\
  TrendModel_from_obj
    (JDict {[ "trends" := JList [line_holding cell_without_retweets] ]})
    = Raise KeyError.
Proof. repeat split; vm_compute; reflexivity. Qed.

(** X27.  [from_obj] answers [None] for a model, line or cell that itself
    lacks a field its guard looks at, or has [null] there; and the answers
    for the lines of a model, or for the cells of a line, [None] among them,
    are kept as the entries of the reconstructed model or line. *)
Theorem from_obj_absent_at_own_level :
  (forall m, absent m "trends" -> TrendModel_from_obj (JDict m) = Ok None) /\
  (forall m key, key ∈ line_guarded -> absent m key ->
     TrendLine_from_obj (JDict m) = Ok None) /\
  (forall m key, key ∈ cell_guarded -> absent m key ->
     TrendCell_from_obj (JDict m) = Ok None) /\
  (forall m lines outs,
     m !! "trends" = Some (JList lines) ->
     comprehension TrendLine_from_obj lines = Ok outs ->
     TrendModel_from_obj (JDict m) = Ok (Some (mkLoadedModel outs))) /\
  (forall m n w s cells outs,
     m !! "name" = Some n -> n <> JNull ->
     m !! "window_size" = Some w -> w <> JNull ->
     m !! "start_ts" = Some s -> s <> JNull ->
     m !! "data" = Some (JList cells) ->
     comprehension TrendCell_from_obj cells = Ok outs ->
     TrendLine_from_obj (JDict m) = Ok (Some (mkLoadedLine n s outs w))).
Proof.
  split; [| split; [| split; [| split]]].
  - intros m H. unfold TrendModel_from_obj. stop_at_guard H.
  - intros m key Hkey H. unfold TrendLine_from_obj, line_guarded in *.
    repeat (apply elem_of_cons in Hkey as [->|Hkey]; [try stop_at_guard H |]).
    + pass_guard m "name". stop_at_guard H.
    + pass_guard m "name". pass_guard m "window_size". stop_at_guard H.
    + pass_guard m "name". pass_guard m "window_size". pass_guard m "data".
      stop_at_guard H.
    + apply elem_of_nil in Hkey. contradiction.
  - intros m key Hkey H. unfold TrendCell_from_obj, cell_guarded in *.
    repeat (apply elem_of_cons in Hkey as [->|Hkey]; [try stop_at_guard H |]).
    + pass_guard m "trending". stop_at_guard H.
    + pass_guard m "trending". pass_guard m "count". stop_at_guard H.
    + pass_guard m "trending". pass_guard m "count". pass_guard m "delta".
      stop_at_guard H.
    + apply elem_of_nil in Hkey. contradiction.
  - intros m lines outs Hm Houts. unfold TrendModel_from_obj.
    destruct (get_is_None_present m "trends" _ Hm) as [-> ->]; [congruence |].
    rewrite !bind_Ok. simpl (iterate _). rewrite bind_Ok, Houts. reflexivity.
  - intros m n w s cells outs Hn Hn' Hw Hw' Hs Hs' Hd Houts.
    unfold TrendLine_from_obj.
    destruct (get_is_None_present m "name" _ Hn Hn') as [-> ->].
    destruct (get_is_None_present m "window_size" _ Hw Hw') as [-> ->].
    destruct (get_is_None_present m "start_ts" _ Hs Hs') as [-> ->].
    destruct (get_is_None_present m "data" _ Hd) as [-> ->]; [congruence |].
    rewrite !bind_Ok. simpl (iterate _). rewrite bind_Ok, Houts. reflexivity.
Qed.

Lemma from_obj_absent_at_own_level_witness :
  TrendModel_from_obj (JDict ∅) = Ok None /\
  TrendLine_from_obj (JDict ∅) = Ok None /\
  TrendCell_from_obj (JDict ∅) = Ok None /\
  TrendModel_from_obj model_with_empty_line = Ok (Some (mkLoadedModel [None])).
Proof.
  destruct from_obj_absent_at_own_level as (Hm & Hl & Hc & Hkeep & _).
  split; [apply Hm; left; reflexivity |].
  split; [apply (Hl ∅ "name"); [vm_compute; left | left; reflexivity] |].
  split; [apply (Hc ∅ "count"); [vm_compute; right; left | left; reflexivity] |].
  apply (Hkeep _ [JDict ∅] [None]); reflexivity.
Defined.

(** ** Negative lines *)

Lemma draw_name_fresh (fuel : nat) (positive_trends : list PyObj)
    (negative_names : gset string) (self self' : BagOfWords) (new_trend : string) :
  draw_name fuel positive_trends negative_names self
    = Some (Ok (new_trend, self')) ->
  (new_trend ∉ negative_names) /\ str_in new_trend positive_trends = false.
Proof.
  revert self. induction fuel as [|fuel IH]; intros self; simpl; [discriminate |].
  destruct (most_common_1 self) as [|[w c] rest]; [discriminate |].
  destruct (str_in w positive_trends) eqn:Hin; simpl.
  - apply IH.
  - destruct (bool_decide (w ∈ negative_names)) eqn:Hneg; simpl.
    + apply IH.
    + intros [= <- _]. split; [| exact Hin].
      apply bool_decide_eq_false in Hneg. exact Hneg.
Qed.

Lemma draw_names_fresh (fuel : nat) (positive_trends : list PyObj) (n : nat)
    (negative_names names : gset string) (self self' : BagOfWords) :
  draw_names fuel positive_trends n negative_names self
    = Some (Ok (names, self')) ->
  size names = (n + size negative_names)%nat /\
  forall w, w ∈ names ->
    w ∈ negative_names \/ str_in w positive_trends = false.
Proof.
  revert negative_names self.
  induction n as [|n IH]; intros negative_names self; simpl.
  - intros [= <- _]. split; [reflexivity |]. intros w Hw. left. exact Hw.
  - destruct (draw_name fuel positive_trends negative_names self)
      as [[[new_trend bag]|e]|] eqn:Hdraw; try discriminate.
    intros Hrest. apply draw_name_fresh in Hdraw as [Hfresh Hpos].
    apply IH in Hrest as [Hsize Hmem]. split.
    + rewrite Hsize, size_union, size_singleton; [lia |].
      apply disjoint_singleton_r. exact Hfresh.
    + intros w Hw. destruct (Hmem w Hw) as [Hold|Hnew]; [| right; exact Hnew].
      apply elem_of_union in Hold as [Hold|Hold]; [left; exact Hold |].
      apply elem_of_singleton in Hold as ->. right. exact Hpos.
Qed.

(** The names [random_trend_names] returns are [n] different words, none of
    them equal to an object of the list it is given. *)
Lemma random_trend_names_fresh (fuel : nat) (self : BagOfWords)
    (positive_trends : list PyObj) (n : nat) (names : list string) :
  BagOfWords_random_trend_names fuel self positive_trends n = Some (Ok names) ->
  NoDup names /\ length names = n /\
  Forall (fun w => str_in w positive_trends = false) names.
Proof.
  unfold BagOfWords_random_trend_names.
  destruct (draw_names fuel positive_trends n ∅ self)
    as [[[negative_names bag]|e]|] eqn:Hdraw; try discriminate.
  intros [= <-]. apply draw_names_fresh in Hdraw as [Hsize Hmem].
  split; [apply NoDup_elements |]. split.
  - change (size negative_names = n). rewrite Hsize, size_empty. lia.
  - apply Forall_forall. intros w Hw. apply elem_of_elements in Hw.
    destruct (Hmem w Hw) as [Hempty|Hpos]; [| exact Hpos].
    apply elem_of_empty in Hempty. contradiction.
Qed.

(** Given the names of the positive lines, the words returned avoid them. *)
Lemma random_trend_names_avoid_given_names (fuel : nat) (self : BagOfWords)
    (given : list string) (n : nat) (names : list string) :
  BagOfWords_random_trend_names fuel self (PyStr <$> given) n
    = Some (Ok names) ->
  forall w, w ∈ names -> w ∉ given.
Proof.
  intros H w Hw Hgiven.
  apply random_trend_names_fresh in H as (_ & _ & Hall).
  rewrite Forall_forall in Hall. specialize (Hall w Hw).
  assert (str_in w (PyStr <$> given) = true) as Htrue; [| congruence].
  unfold str_in. apply existsb_exists. exists (PyStr w). split.
  - apply list_elem_of_In, list_elem_of_fmap. exists w. split; [reflexivity | exact Hgiven].
  - simpl. apply String.eqb_refl.
Qed.

(** Given the lines themselves, no word is held back. *)
Lemma str_in_lines (w : string) (trends : list TrendLine) :
  str_in w (PyTrendLine <$> trends) = false.
Proof.
  unfold str_in. induction trends as [|t ts IH]; simpl; [reflexivity | exact IH].
Qed.

(** C10.  The claim is that no negative line carries the name of a positive
    line.  [construct_negative_trends] hands the positive lines, not their
    names, to [random_trend_names], where a word is compared with each line
    and found different: with the positive line "obama" and "obama" the most
    common word of the tweets, the negative line is named "obama", whatever
    the random draws. *)
Theorem negative_line_takes_positive_name (fuel : nat) (rng : nat -> nat) :
  exists line,
    TrendLine_construct_negative_trends (S fuel) rng [obama_line] obama_bag
      = Some (Ok [line]) /\
    name line = name obama_line.
Proof.
  eexists. split.
  - unfold TrendLine_construct_negative_trends.
    change (span [obama_line]) with (Ok (0%Z, 12600%Z)). cbv iota beta.
    change (BagOfWords_random_trend_names (S fuel) obama_bag
              (PyTrendLine <$> [obama_line]) (length [obama_line]))
      with (Some (Ok ["obama"])).
    cbv iota beta. reflexivity.
  - reflexivity.
Qed.

(** * Further properties of the code *)

(** ** Loops, once more *)

Lemma for_each_prefix_inv {A S : Type} (P : list A -> S -> Prop)
    (pre xs : list A) (body : A -> S -> result S) (st : S) :
  P pre st ->
  (forall done x s, P done s -> exists s', body x s = Ok s' /\ P (done ++ [x]) s') ->
  exists s', for_each xs body st = Ok s' /\ P (pre ++ xs) s'.
Proof.
  revert pre st. induction xs as [|x xs IH]; intros pre st Hst Hbody.
  - exists st. rewrite app_nil_r. split; [reflexivity | exact Hst].
  - destruct (Hbody pre x st Hst) as (s1 & E1 & P1).
    destruct (IH (pre ++ [x]) s1 P1 Hbody) as (s2 & E2 & P2).
    exists s2. split.
    + simpl. rewrite E1. exact E2.
    + rewrite <- app_assoc in P2. exact P2.
Qed.

Lemma comprehension_lookup {A B : Type} (f : A -> result B) (xs : list A)
    (ys : list B) (i : nat) (x : A) :
  comprehension f xs = Ok ys -> xs !! i = Some x ->
  exists y, ys !! i = Some y /\ f x = Ok y.
Proof.
  revert ys i. induction xs as [|x0 xs IH]; intros ys i; simpl.
  - intros _ H. discriminate.
  - destruct (f x0) as [y0|e] eqn:E0; [| discriminate]. simpl.
    destruct (comprehension f xs) as [ys0|e] eqn:Es; [| discriminate]. simpl.
    intros [= <-]. destruct i as [|i]; simpl.
    + intros [= <-]. exists y0. split; [reflexivity | exact E0].
    + intros Hx. exact (IH ys0 i eq_refl Hx).
Qed.

(** ** Normalization and evaluation on every model *)

Lemma normalize_line_no_cells (trend : TrendLine) :
  no_cells trend = true -> normalize_line trend = Raise ValueError.
Proof.
  unfold no_cells, normalize_line. destruct (data trend); [| discriminate].
  reflexivity.
Qed.

Lemma normalize_line_same_shape (trend : TrendLine) :
  no_cells trend = false ->
  exists out, normalize_line trend = Ok out /\ same_shape trend out.
Proof.
  intros Hne.
  destruct (normalize_line_ok trend) as [out E].
  { unfold no_cells in Hne. destruct (data trend); [discriminate | congruence]. }
  exists out. split; [exact E |].
  unfold normalize_line in E.
  destruct (py_max (map count (data trend))); [| discriminate].
  destruct (py_max (map delta (data trend))); [| discriminate].
  destruct (py_max (map delta_delta (data trend))); [| discriminate].
  destruct (py_max (map avg_followers (data trend))); [| discriminate].
  destruct (py_max (map avg_statuses (data trend))); [| discriminate].
  rewrite !bind_Ok in E. injection E as <-.
  split; [reflexivity |]. split; [reflexivity |]. split; [reflexivity |].
  simpl. induction (data trend) as [|c cs IH]; simpl; constructor.
  - split; reflexivity.
  - exact IH.
Qed.

Lemma normalize_lines_cases (lines : list TrendLine) :
  if existsb no_cells lines
  then comprehension normalize_line lines = Raise ValueError
  else exists outs, comprehension normalize_line lines = Ok outs /\
                    Forall2 same_shape lines outs.
Proof.
  induction lines as [|line lines IH]; simpl.
  - exists []. split; [reflexivity | constructor].
  - destruct (no_cells line) eqn:Hline; simpl.
    + rewrite (normalize_line_no_cells line Hline). reflexivity.
    + destruct (normalize_line_same_shape line Hline) as (out & -> & Hout).
      rewrite bind_Ok. destruct (existsb no_cells lines).
      * rewrite IH. reflexivity.
      * destruct IH as (outs & -> & Houts). exists (out :: outs).
        split; [reflexivity | constructor; assumption].
Qed.

(** X1.  [normalize] raises [ValueError] when some line of the model has no
    cell; on every other model it returns a model of as many lines, each
    with its name, start, window size, number of cells, labels and retweet
    rates unchanged. *)
Theorem normalize_keeps_shape_or_raises (self : TrendModel) :
  if existsb no_cells (trends self)
  then TrendModel_normalize self = Raise ValueError
  else exists out, TrendModel_normalize self = Ok out /\
                   Forall2 same_shape (trends self) (trends out).
Proof.
  unfold TrendModel_normalize.
  pose proof (normalize_lines_cases (trends self)) as H.
  destruct (existsb no_cells (trends self)).
  - rewrite H. reflexivity.
  - destruct H as (outs & -> & Houts). exists (mkTrendModel outs).
    split; [reflexivity | exact Houts].
Qed.

(** X2.  [leave_one_out] returns on no model: it ends in [ValueError] when a
    line has no cell, in [ZeroDivisionError] on the model without lines, and
    in [AttributeError] on every other model. *)
Theorem leave_one_out_always_raises (self : TrendModel) :
  TrendModel_leave_one_out self = Raise (loo_error self).
Proof.
  unfold TrendModel_leave_one_out, loo_error, TrendModel_normalize.
  pose proof (normalize_lines_cases (trends self)) as H.
  destruct (existsb no_cells (trends self)).
  - rewrite H. reflexivity.
  - destruct H as (outs & -> & Houts).
    destruct Houts as [|line out lines outs' _ _]; reflexivity.
Qed.

(** X3.  After [normalize], a feature that was negative in no cell of a line
    lies in [0, 1] in every cell of that line, and is 1 in one of its cells
    unless the largest value it had in the line was 0. *)
Theorem normalize_unit_interval (self out : TrendModel) (i : nat)
    (trend : TrendLine) (f : Feature) :
  TrendModel_normalize self = Ok out ->
  trends self !! i = Some trend ->
  (forall c, c ∈ data trend -> 0 <= feature f c) ->
  exists trend' m,
    trends out !! i = Some trend' /\
    py_max (map (feature f) (data trend)) = Ok m /\
    (forall c, c ∈ data trend' -> 0 <= feature f c /\ feature f c <= 1) /\
    (~ m == 0 -> exists c, c ∈ data trend' /\ feature f c == 1).
Proof.
  unfold TrendModel_normalize. intros Hnorm Hi Hnonneg.
  destruct (comprehension normalize_line (trends self)) as [outs|e] eqn:E;
    [| discriminate].
  injection Hnorm as <-.
  destruct (comprehension_lookup _ _ _ _ _ E Hi) as (trend' & Hi' & Eline).
  assert (data trend <> []) as Hne.
  { intros Hnil. rewrite normalize_line_no_cells in Eline; [discriminate |].
    unfold no_cells. rewrite Hnil. reflexivity. }
  destruct (normalize_line_unit_interval trend f Hne Hnonneg)
    as (out' & m & Eout & Em & Hunit & Hmax).
  assert (out' = trend') as -> by congruence.
  exists trend', m. split; [exact Hi' |]. split; [exact Em |].
  split; assumption.
Qed.

Lemma normalize_unit_interval_witness :
  exists out trend' m,
    TrendModel_normalize (mkTrendModel [line_of "rise" [counted 0; counted 4; counted 2]])
      = Ok out /\
    trends out !! 0%nat = Some trend' /\
    py_max (map (feature FCount) [counted 0; counted 4; counted 2]) = Ok m /\
    (forall c, c ∈ data trend' ->
       0 <= feature FCount c /\ feature FCount c <= 1) /\
    (~ m == 0 -> exists c, c ∈ data trend' /\ feature FCount c == 1).
Proof.
  eexists. 
  assert (TrendModel_normalize
            (mkTrendModel [line_of "rise" [counted 0; counted 4; counted 2]])
          = Ok _) as Hnorm by (vm_compute; reflexivity).
  destruct (normalize_unit_interval _ _ 0%nat
              (line_of "rise" [counted 0; counted 4; counted 2]) FCount Hnorm)
    as (trend' & m & H).
  - reflexivity.
  - intros c Hc. simpl in Hc.
    repeat (apply elem_of_cons in Hc as [->|Hc]; [vm_compute; congruence |]).
    apply elem_of_nil in Hc. contradiction.
  - exists trend', m. split; [exact Hnorm | exact H].
Defined.

(** ** The two distances, further *)

(** X4.  On two arrays of one length, not empty, [dtw_distance] returns the
    last entry of the table of its documentation: zero in the corner, the
    first row and column accumulating the cell distances, and elsewhere the
    cell distance plus the least of the three entries before. *)
Theorem dtw_distance_is_table_on_equal_length (a b : list TrendCell) :
  length a = length b -> (0 < length a)%nat ->
  dtw_distance (NdArray a) (NdArray b)
  = Ok (dtw_table_spec a b (length a - 1) (length b - 1)).
Proof.
  intros Hlen Hpos. rewrite <- Hlen.
  apply dtw_distance_equal_length_table; [symmetry; exact Hlen | exact Hpos].
Qed.

Lemma dtw_distance_is_table_on_equal_length_witness :
  dtw_distance (NdArray [counted 0; counted 3]) (NdArray [counted 1; counted 1])
  = Ok (dtw_table_spec [counted 0; counted 3] [counted 1; counted 1] 1 1).
Proof.
  apply (dtw_distance_is_table_on_equal_length
           [counted 0; counted 3] [counted 1; counted 1]).
  - reflexivity.
  - simpl. lia.
Defined.

(** X5.  On two arrays of one length, not empty, [dtw_distance] has the same
    value whichever array comes first. *)
Theorem dtw_distance_symmetric_on_equal_length (a b : list TrendCell) :
  length a = length b -> (0 < length a)%nat ->
  exists v w, dtw_distance (NdArray a) (NdArray b) = Ok v /\
              dtw_distance (NdArray b) (NdArray a) = Ok w /\ v == w.
Proof. apply dtw_distance_sym_equal_length. Qed.

Lemma dtw_distance_symmetric_on_equal_length_witness :
  exists v w,
    dtw_distance (NdArray [counted 0; counted 3])
                 (NdArray [counted 1; counted 1]) = Ok v /\
    dtw_distance (NdArray [counted 1; counted 1])
                 (NdArray [counted 0; counted 3]) = Ok w /\ v == w.
Proof.
  apply (dtw_distance_symmetric_on_equal_length
           [counted 0; counted 3] [counted 1; counted 1]).
  - reflexivity.
  - simpl. lia.
Defined.

(** X6.  Given a non-empty array after a longer one, [dtw_distance] raises
    [IndexError]. *)
Theorem dtw_distance_raises_on_longer_first (a b : list TrendCell) :
  (0 < length b)%nat -> (length b < length a)%nat ->
  dtw_distance (NdArray a) (NdArray b) = Raise IndexError.
Proof. intros Hb Hab. apply dtw_distance_longer_first. split; assumption. Qed.

Lemma dtw_distance_raises_on_longer_first_witness :
  dtw_distance (NdArray [counted 1; counted 2; counted 3]) (NdArray [counted 1])
  = Raise IndexError.
Proof.
  apply (dtw_distance_raises_on_longer_first
           [counted 1; counted 2; counted 3] [counted 1]); simpl; lia.
Defined.

(** X7.  [TrendLine.distance] has a value for every two lines, the same
    whichever of the two is asked. *)
Theorem sliding_distance_symmetric (x y : TrendLine) :
  exists v w, TrendLine_distance x y = Ok (Some v) /\
              TrendLine_distance y x = Ok (Some w) /\ v == w.
Proof. apply TrendLine_distance_sym. Qed.

(** X8.  For a line no longer than the other, [TrendLine.distance] is the
    least, over the offsets at which the line fits into the other, of the
    sum of the distances of its cells to the cells they face. *)
Theorem sliding_distance_is_least_total (self other : TrendLine) :
  (length (data self) <= length (data other))%nat ->
  exists m,
    TrendLine_distance self other = Ok (Some m) /\
    (forall offset,
       (offset <= length (data other) - length (data self))%nat ->
       m <= total_upto (data self) (data other) offset (length (data self))) /\
    (exists offset,
       (offset <= length (data other) - length (data self))%nat /\
       m == total_upto (data self) (data other) offset (length (data self))).
Proof.
  intros Hle. unfold TrendLine_distance.
  destruct (decide (length (data other) < length (data self))%nat); [lia |].
  destruct (distance_aligned_ok (data self) (data other) Hle)
    as (m & E & Hall & o & Ho & Hm).
  exists m. split; [exact E |]. split.
  - intros offset Hoff. apply Hall. lia.
  - exists o. split; [lia | exact Hm].
Qed.

Lemma sliding_distance_is_least_total_witness :
  exists m,
    TrendLine_distance (line_of "short" [counted 2])
                       (line_of "long" [counted 0; counted 3]) = Ok (Some m) /\
    (forall offset, (offset <= 2 - 1)%nat ->
       m <= total_upto [counted 2] [counted 0; counted 3] offset 1) /\
    (exists offset, (offset <= 2 - 1)%nat /\
       m == total_upto [counted 2] [counted 0; counted 3] offset 1).
Proof.
  apply (sliding_distance_is_least_total
           (line_of "short" [counted 2]) (line_of "long" [counted 0; counted 3])).
  simpl. lia.
Defined.

Lemma sq_zero (x : Q) : sq x == 0 -> x == 0.
Proof.
  unfold sq. intros H. destruct (Qmult_integral x x H); assumption.
Qed.

(** X9.  [TrendCell.distance] is symmetric and never negative, and it is 0
    exactly when the two cells agree on all six features. *)
Theorem cell_distance_zero_iff_same_features (a b : TrendCell) :
  TrendCell_distance a b == TrendCell_distance b a /\
  0 <= TrendCell_distance a b /\
  (TrendCell_distance a b == 0 <-> same_features a b).
Proof.
  split; [apply TrendCell_distance_sym |].
  split; [apply TrendCell_distance_nonneg |].
  unfold TrendCell_distance, same_features. split.
  - intros H.
    pose proof (sq_nonneg (count a - count b)).
    pose proof (sq_nonneg (delta a - delta b)).
    pose proof (sq_nonneg (delta_delta a - delta_delta b)).
    pose proof (sq_nonneg (avg_followers a - avg_followers b)).
    pose proof (sq_nonneg (avg_statuses a - avg_statuses b)).
    pose proof (sq_nonneg (retweets a - retweets b)).
    assert (forall x y, 0 <= sq (x - y) -> sq (x - y) <= 0 -> x == y) as Hz.
    { intros x y Hlo Hhi. assert (x - y == 0) by (apply sq_zero; lra). lra. }
    repeat split; apply Hz; lra.
  - intros (H1 & H2 & H3 & H4 & H5 & H6). unfold sq.
    rewrite H1, H2, H3, H4, H5, H6. ring.
Qed.

Lemma cell_cost_self (a : list TrendCell) (i : nat) : cell_cost a a i i == 0.
Proof.
  unfold cell_cost. destruct (a !! i) as [x|]; [| reflexivity].
  unfold TrendCell_distance, sq. ring.
Qed.

Lemma total_upto_self (a : list TrendCell) (k : nat) : total_upto a a 0 k == 0.
Proof.
  induction k as [|k IH]; simpl; [reflexivity |].
  rewrite IH, cell_cost_self. reflexivity.
Qed.

Lemma diag_cost_self (a : list TrendCell) (k : nat) : diag_cost a a k == 0.
Proof.
  induction k as [|k IH]; [reflexivity |].
  change (diag_cost a a (S k)) with (diag_cost a a k + cell_cost a a (S k) (S k)).
  rewrite IH, cell_cost_self. reflexivity.
Qed.

Lemma py_min3_nonneg (x y z : Q) : 0 <= x -> 0 <= y -> 0 <= z -> 0 <= py_min3 x y z.
Proof.
  intros Hx Hy Hz. unfold py_min3.
  apply Q.min_glb; [apply Q.min_glb |]; assumption.
Qed.

Lemma dtw_table_spec_nonneg (a b : list TrendCell) (i j : nat) :
  0 <= dtw_table_spec a b i j.
Proof.
  revert j. induction i as [|i IHi]; induction j as [|j IHj].
  - simpl. lra.
  - rewrite dtw_table_spec_row. pose proof (cell_cost_nonneg a b 0 (S j)). lra.
  - rewrite dtw_table_spec_column. pose proof (cell_cost_nonneg a b (S i) 0).
    pose proof (IHi 0%nat). lra.
  - rewrite dtw_table_spec_inner. pose proof (cell_cost_nonneg a b (S i) (S j)).
    pose proof (py_min3_nonneg _ _ _ (IHi (S j)) IHj (IHi j)). lra.
Qed.

(** X10.  A line with at least one cell is at distance 0 from itself under
    [TrendLine.distance], and [dtw_distance] is 0 on a numpy array of its
    cells against itself. *)
Theorem distances_vanish_on_identical_data (x : TrendLine) :
  (0 < length (data x))%nat ->
  exists v w,
    TrendLine_distance x x = Ok (Some v) /\ v == 0 /\
    dtw_distance (NdArray (data x)) (NdArray (data x)) = Ok w /\ w == 0.
Proof.
  intros Hpos.
  destruct (distance_aligned_ok (data x) (data x)) as (v & Ev & _ & o & Ho & Hv);
    [lia |].
  exists v, (dtw_table_spec (data x) (data x) (length (data x) - 1)
               (length (data x) - 1)).
  split; [| split; [| split]].
  - unfold TrendLine_distance.
    destruct (decide (length (data x) < length (data x))%nat); [lia | exact Ev].
  - replace o with 0%nat in Hv by lia. rewrite Hv. apply total_upto_self.
  - apply dtw_distance_equal_length_table; [reflexivity | exact Hpos].
  - apply Qle_antisym; [| apply dtw_table_spec_nonneg].
    rewrite <- (diag_cost_self (data x) (length (data x) - 1)).
    apply dtw_table_spec_diag.
Qed.

Lemma distances_vanish_on_identical_data_witness :
  exists v w,
    TrendLine_distance (line_of "x" [counted 2; counted 7])
                       (line_of "x" [counted 2; counted 7]) = Ok (Some v) /\
    v == 0 /\
    dtw_distance (NdArray [counted 2; counted 7]) (NdArray [counted 2; counted 7])
      = Ok w /\ w == 0.
Proof.
  apply (distances_vanish_on_identical_data (line_of "x" [counted 2; counted 7])).
  simpl. lia.
Defined.

(** ** Positive lines, further *)

Lemma run_step_seen (window_size ts : Z) (pre : list Z) (st : RunState) :
  run_seen pre st ->
  exists st', run_step window_size ts st = Ok st' /\ run_seen (pre ++ [ts]) st'.
Proof.
  intros ([Hlast Hlong] & Hl & Hc & Hsl & Hsc). unfold run_step, run_seen, run_inv.
  assert (forall s, s ∈ pre -> s ∈ pre ++ [ts]) as Hin by set_solver.
  assert (ts ∈ pre ++ [ts]) as Hts by set_solver.
  assert (length (pre ++ [ts]) = S (length pre)) as Hlen.
  { rewrite length_app. simpl. lia. }
  destruct (start_consecutive st) as [sc|] eqn:Esc.
  - destruct (last_timestamp st) as [last|] eqn:Elast;
      [| exfalso; apply Hlast; congruence].
    destruct (ts =? last + window_size)%Z;
      [| destruct (start_longest st) as [sl|] eqn:Esl;
         [destruct (longest_consecutive st <? current_consecutive st)%nat |]];
      (eexists; split; [reflexivity |]); simpl; rewrite Hlen;
      repeat split; try congruence; try lia; auto;
      try (intros s [= <-]; auto).
  - eexists. split; [reflexivity |]. simpl. rewrite Hlen.
    repeat split; try congruence; try lia; auto;
      try (intros s [= <-]; auto).
Qed.

(** X11.  [from_twitter_trend] returns a line for every trend: under the
    trend's name and the window size given, with cells that all trend and
    are otherwise empty, no more of them than the trend has timestamps, and
    starting at one of the trend's timestamps; only a line without cells has
    no start. *)
Theorem from_twitter_trend_returns_line (w : Z)
    (twitter_trend : TwitterTrend) :
  exists line,
    TrendLine_from_twitter_trend w twitter_trend = Ok line /\
    name line = tt_name twitter_trend /\
    window_size line = w /\
    Forall (fun c => c = TrendCell_new true) (data line) /\
    (length (data line) <= length (timestamps twitter_trend))%nat /\
    match start_ts line with
    | Some s => s ∈ timestamps twitter_trend
    | None => data line = []
    end.
Proof.
  unfold TrendLine_from_twitter_trend.
  destruct (for_each_prefix_inv run_seen [] (timestamps twitter_trend)
              (run_step w) run_init)
    as (st & -> & [_ Hlong] & Hl & _ & Hsl & _).
  - repeat split; simpl; try congruence; try lia; intros s H; discriminate.
  - intros pre ts s Hs. apply run_step_seen. exact Hs.
  - rewrite bind_Ok. eexists. split; [reflexivity |]. simpl.
    split; [reflexivity |]. split; [reflexivity |].
    split; [apply Forall_replicate; reflexivity |].
    split; [rewrite length_replicate; exact Hl |].
    destruct (start_longest st) as [s|] eqn:Es.
    + apply Hsl. reflexivity.
    + rewrite (Hlong eq_refl). reflexivity.
Qed.

(** ** Negative names, further *)

(** X12.  When [random_trend_names] returns, it returns exactly [n] names,
    no two of them the same. *)
Theorem random_trend_names_returns_n_distinct (fuel : nat) (self : BagOfWords)
    (positive_trends : list PyObj) (n : nat) (names : list string) :
  BagOfWords_random_trend_names fuel self positive_trends n = Some (Ok names) ->
  NoDup names /\ length names = n.
Proof.
  intros H. apply random_trend_names_fresh in H as (Hnd & Hlen & _).
  split; assumption.
Qed.

Lemma random_trend_names_returns_n_distinct_witness :
  NoDup ["cat"; "dog"] /\ length ["cat"; "dog"] = 2%nat.
Proof.
  apply (random_trend_names_returns_n_distinct 2
           [("obama", 5%Z); ("cat", 1%Z); ("dog", 1%Z)] [PyStr "obama"] 2).
  vm_compute. reflexivity.
Defined.

(** X13.  Given the names of the positive trends as strings,
    [random_trend_names] returns none of them. *)
Theorem random_trend_names_skips_given_names (fuel : nat) (self : BagOfWords)
    (given : list string) (n : nat) (names : list string) :
  BagOfWords_random_trend_names fuel self (PyStr <$> given) n
    = Some (Ok names) ->
  Forall (fun w => w ∉ given) names.
Proof.
  intros H. apply Forall_forall. intros w Hw.
  exact (random_trend_names_avoid_given_names _ _ _ _ _ H w Hw).
Qed.

Lemma random_trend_names_skips_given_names_witness :
  Forall (fun w => w ∉ ["obama"]) ["cat"; "dog"].
Proof.
  apply (random_trend_names_skips_given_names 2
           [("obama", 5%Z); ("cat", 1%Z); ("dog", 1%Z)] ["obama"] 2).
  vm_compute. reflexivity.
Defined.

(** ** The matrix of a model *)

Lemma for_each_zip_seq_inv {A S : Type} (P : nat -> S -> Prop) (k : nat)
    (xs : list A) (body : nat * A -> S -> result S) (st : S) :
  P k st ->
  (forall i x s, xs !! i = Some x -> P (k + i)%nat s ->
     exists s', body ((k + i)%nat, x) s = Ok s' /\ P (Datatypes.S (k + i)) s') ->
  exists s', for_each (zip (seq k (length xs)) xs) body st = Ok s' /\
             P (k + length xs)%nat s'.
Proof.
  revert k st. induction xs as [|x xs IH]; intros k st Hst Hbody.
  - exists st. simpl. rewrite Nat.add_0_r. split; [reflexivity | exact Hst].
  - destruct (Hbody 0%nat x st) as (s1 & E1 & P1);
      [reflexivity | rewrite Nat.add_0_r; exact Hst |].
    rewrite Nat.add_0_r in E1, P1.
    destruct (IH (Datatypes.S k) s1 P1) as (s2 & E2 & P2).
    + intros i y s Hy Hs. specialize (Hbody (Datatypes.S i) y s Hy).
      replace (k + Datatypes.S i)%nat with (Datatypes.S k + i)%nat in Hbody by lia.
      apply Hbody. exact Hs.
    + exists s2. split.
      * simpl. rewrite E1. exact E2.
      * simpl length. replace (k + Datatypes.S (length xs))%nat
          with (Datatypes.S k + length xs)%nat by lia. exact P2.
Qed.

Lemma for_each_enumerate_inv {A S : Type} (P : nat -> S -> Prop)
    (xs : list A) (body : nat * A -> S -> result S) (st : S) :
  P 0%nat st ->
  (forall i x s, xs !! i = Some x -> P i s ->
     exists s', body (i, x) s = Ok s' /\ P (Datatypes.S i) s') ->
  exists s', for_each (enumerate xs) body st = Ok s' /\ P (length xs) s'.
Proof.
  intros H0 Hbody. unfold enumerate, range.
  apply (for_each_zip_seq_inv P 0 xs body st H0).
  intros i x s Hx Hs. apply Hbody; assumption.
Qed.

Lemma py_max_nat_max_list (xs : list nat) :
  xs <> [] -> py_max_nat xs = Ok (max_list xs).
Proof.
  destruct xs as [|x xs]; [congruence |]. intros _. simpl. f_equal.
  revert x. induction xs as [|y ys IH]; intros x; simpl.
  - lia.
  - rewrite IH. lia.
Qed.

Lemma max_list_ge (xs : list nat) (x : nat) : x ∈ xs -> (x <= max_list xs)%nat.
Proof.
  induction xs as [|y ys IH]; intros H.
  - apply elem_of_nil in H. contradiction.
  - apply elem_of_cons in H as [->|H]; simpl; [lia |].
    specialize (IH H). lia.
Qed.

Lemma grid_set_middle {A : Type} (before after : list (list A))
    (left right : list A) (old v : A) :
  grid_set (before ++ (left ++ old :: right) :: after)
    (length before) (length left) v
  = Ok (before ++ (left ++ v :: right) :: after).
Proof.
  unfold grid_set, getitem, setitem.
  rewrite list_lookup_middle by reflexivity. rewrite bind_Ok.
  destruct (decide (length left < length (left ++ old :: right))%nat) as [_|H].
  2: { exfalso. apply H. rewrite length_app. simpl. lia. }
  rewrite bind_Ok.
  destruct (decide (length before
                    < length (before ++ (left ++ old :: right) :: after))%nat)
    as [_|H].
  2: { exfalso. apply H. rewrite length_app. simpl. lia. }
  rewrite !insert_app_r_alt by lia. rewrite !Nat.sub_diag. reflexivity.
Qed.

Lemma matrix_row_fills (before after : list (list Features6)) (width : nat)
    (trend : TrendLine) :
  (length (data trend) <= width)%nat ->
  matrix_row (length before) trend
    (before ++ replicate width zero6 :: after)
  = Ok (before ++ padded_row width trend :: after).
Proof.
  intros Hw. unfold matrix_row, padded_row.
  destruct (for_each_enumerate_inv
              (fun k m =>
                 m = before ++
                     ((cell_tuple <$> take k (data trend)) ++
                      replicate (width - k) zero6) :: after)
              (data trend)
              (fun '(j, datum) m =>
                 grid_set m (length before) j (cell_tuple datum))
              (before ++ replicate width zero6 :: after))
    as (m & E & Hm).
  - rewrite Nat.sub_0_r. reflexivity.
  - intros k datum m Hk ->. eexists. split.
    + pose proof (lookup_lt_Some _ _ _ Hk) as Hlt.
      replace (width - k)%nat with (Datatypes.S (width - Datatypes.S k)) by lia.
      simpl replicate.
      replace k with (length (cell_tuple <$> take k (data trend))) at 3.
      * apply grid_set_middle.
      * rewrite length_fmap, length_take. lia.
    + rewrite (take_S_r _ _ _ Hk), fmap_app, <- app_assoc. reflexivity.
  - rewrite E, Hm, firstn_all. reflexivity.
Qed.

Lemma matrix_of_lines (lines : list TrendLine) :
  lines <> [] ->
  TrendModel_matrix (mkTrendModel lines)
  = Ok (padded_row (max_list ((fun trend => length (data trend)) <$> lines))
          <$> lines,
        label <$> lines).
Proof.
  intros Hne. unfold TrendModel_matrix. simpl trends.
  set (width := max_list ((fun trend => length (data trend)) <$> lines)).
  rewrite py_max_nat_max_list by (destruct lines; [congruence | discriminate]).
  rewrite bind_Ok. fold width. cbv zeta.
  destruct (for_each_enumerate_inv
              (fun k (st : list (list Features6) * list Z) =>
                 fst st = (padded_row width <$> take k lines) ++
                          replicate (length lines - k) (replicate width zero6) /\
                 snd st = label <$> take k lines)
              lines
              (fun '(i, trend) '(m, y) =>
                 m ← matrix_row i trend m; Ok (m, y ++ [label trend]))
              (replicate (length lines) (replicate width zero6), []))
    as ([m y] & E & Hm & Hy).
  - rewrite Nat.sub_0_r. split; reflexivity.
  - intros k trend [m y] Hk [Hm Hy]. simpl in Hm, Hy. subst m y.
    pose proof (lookup_lt_Some _ _ _ Hk) as Hlt.
    replace (length lines - k)%nat
      with (Datatypes.S (length lines - Datatypes.S k)) by lia.
    simpl replicate.
    assert (length (data trend) <= width)%nat as Hb.
    { apply max_list_ge. apply list_elem_of_fmap. exists trend.
      split; [reflexivity |]. exact (list_elem_of_lookup_2 _ _ _ Hk). }
    pose proof (matrix_row_fills (padded_row width <$> take k lines)
                  (replicate (length lines - Datatypes.S k)
                     (replicate width zero6)) width trend Hb) as Hrow.
    rewrite length_fmap, length_take in Hrow.
    replace (k `min` length lines)%nat with k in Hrow by lia.
    rewrite Hrow, bind_Ok. eexists. split; [reflexivity |]. simpl.
    rewrite (take_S_r _ _ _ Hk), !fmap_app, <- app_assoc. split; reflexivity.
  - rewrite E. simpl in Hm, Hy. rewrite Hm, Hy, firstn_all, Nat.sub_diag.
    simpl. rewrite app_nil_r. reflexivity.
Qed.

(** X14.  [matrix] raises [ValueError] on the model without lines.  On every
    other model it returns one row per line, every row as wide as the longest
    line: the six features of the line's cells in order, then zeros; and
    beside the rows the labels of the lines, 1 for a line with a trending
    cell and 0 for the others. *)
Theorem matrix_rows_padded_and_labelled (self : TrendModel) :
  TrendModel_matrix self =
  match trends self with
  | [] => Raise ValueError
  | _ :: _ =>
      Ok (padded_row (max_list ((fun trend => length (data trend))
                                  <$> trends self))
            <$> trends self,
          label <$> trends self)
  end.
Proof.
  destruct self as [[|line lines]]; [reflexivity |].
  apply matrix_of_lines. discriminate.
Qed.

(** ** Writing a model out and reading it back *)

Lemma TrendCell_from_obj_to_obj (c : TrendCell) :
  TrendCell_from_obj (TrendCell_to_obj c) = Ok (Some (loaded_cell c)).
Proof. reflexivity. Qed.

Lemma comprehension_fmap_Ok {A B C : Type} (f : B -> result C) (g : A -> B)
    (h : A -> C) (xs : list A) :
  (forall x, f (g x) = Ok (h x)) ->
  comprehension f (g <$> xs) = Ok (h <$> xs).
Proof.
  intros H. induction xs as [|x xs IH]; [reflexivity |].
  rewrite !fmap_cons. cbn [comprehension].
  rewrite H, bind_Ok, IH. reflexivity.
Qed.

Lemma TrendLine_from_obj_to_obj (l : TrendLine) :
  TrendLine_from_obj (TrendLine_to_obj l) = Ok (loaded_line l).
Proof.
  unfold loaded_line, TrendLine_from_obj, TrendLine_to_obj.
  destruct (start_ts l) as [s|]; [| reflexivity].
  change (get_is_None _ "name") with (Ok false : result bool).
  change (get_is_None _ "window_size") with (Ok false : result bool).
  change (get_is_None _ "data") with (Ok false : result bool).
  change (get_is_None _ "start_ts") with (Ok false : result bool).
  change (subscript _ "name") with (Ok (JStr (name l))).
  change (subscript _ "window_size") with (Ok (JNum (inject_Z (window_size l)))).
  change (subscript _ "start_ts") with (Ok (JNum (inject_Z s))).
  change (subscript _ "data") with (Ok (JList (TrendCell_to_obj <$> data l))).
  rewrite !bind_Ok. simpl (iterate _). rewrite bind_Ok.
  rewrite (comprehension_fmap_Ok TrendCell_from_obj TrendCell_to_obj
             (fun c => Some (loaded_cell c)) (data l) TrendCell_from_obj_to_obj).
  reflexivity.
Qed.

(** X15.  Reading back what [serialize] writes gives a model for every
    model: each line that has a start comes back with its name, start,
    window size and cells as written, and each line without a start comes
    back as [None] in the list of lines. *)
Theorem from_obj_of_serialized_model (self : TrendModel) :
  TrendModel_from_obj (TrendModel_to_obj self) = Ok (Some (loaded_model self)).
Proof.
  unfold TrendModel_from_obj, TrendModel_to_obj, loaded_model.
  change (get_is_None _ "trends") with (Ok false : result bool).
  change (subscript _ "trends")
    with (Ok (JList (TrendLine_to_obj <$> trends self))).
  rewrite !bind_Ok. simpl (iterate _). rewrite bind_Ok.
  rewrite (comprehension_fmap_Ok TrendLine_from_obj TrendLine_to_obj
             loaded_line (trends self) TrendLine_from_obj_to_obj).
  reflexivity.
Qed.

Lemma get_is_None_not_absent (m : gmap string json) (key : string) :
  ~ absent m key ->
  exists v, get_is_None (JDict m) key = Ok false /\ subscript (JDict m) key = Ok v.
Proof.
  intros H. unfold absent in H. destruct (m !! key) as [v|] eqn:E.
  - exists v. apply get_is_None_present; [exact E |].
    intros ->. apply H. right. reflexivity.
  - exfalso. apply H. left. reflexivity.
Qed.

(** X16.  A cell that has the four fields of its guard and lacks one of
    [avg_followers], [avg_statuses] and [retweets] makes
    [TrendCell.from_obj] raise [KeyError]. *)
Theorem cell_from_obj_raises_on_unguarded_field (m : gmap string json)
    (key : string) :
  Forall (fun k => ~ absent m k) cell_guarded ->
  key ∈ cell_unguarded -> m !! key = None ->
  TrendCell_from_obj (JDict m) = Raise KeyError.
Proof.
  intros Hg Hkey Hnone. unfold cell_guarded in Hg.
  repeat (apply Forall_cons in Hg as [?H Hg]).
  destruct (get_is_None_not_absent m "trending") as (t & Et & St); [assumption |].
  destruct (get_is_None_not_absent m "count") as (c & Ec & Sc); [assumption |].
  destruct (get_is_None_not_absent m "delta") as (d & Ed & Sd); [assumption |].
  destruct (get_is_None_not_absent m "delta_delta") as (dd & Edd & Sdd);
    [assumption |].
  unfold TrendCell_from_obj.
  rewrite Et, bind_Ok, Ec, bind_Ok, Ed, bind_Ok, Edd, bind_Ok.
  rewrite St, bind_Ok, Sc, bind_Ok, Sd, bind_Ok, Sdd, bind_Ok.
  unfold subscript, cell_unguarded in *.
  repeat (apply elem_of_cons in Hkey as [->|Hkey]);
    try (apply elem_of_nil in Hkey; contradiction);
    destruct (m !! "avg_followers"); try reflexivity; try discriminate;
    destruct (m !! "avg_statuses"); try reflexivity; try discriminate;
    destruct (m !! "retweets"); try reflexivity; discriminate.
Qed.

Lemma cell_from_obj_raises_on_unguarded_field_witness :
  TrendCell_from_obj
    (JDict (<["trending" := JBool true]> (<["count" := JNum 0]>
           (<["delta" := JNum 0]> (<["delta_delta" := JNum 0]> ∅)))))
  = Raise KeyError.
Proof.
  apply (cell_from_obj_raises_on_unguarded_field _ "retweets").
  - unfold cell_guarded.
    repeat (apply Forall_cons; split;
            [intros [H|H]; vm_compute in H; discriminate |]).
    apply Forall_nil. exact I.
  - vm_compute. right. right. left.
  - reflexivity.
Defined.

(** ** The distance of two arrays of numbers *)

Lemma py_eq_0_spec (x : Q) : py_eq x 0 = true <-> x == 0.
Proof. unfold py_eq. apply Qeq_bool_iff. Qed.

Lemma Forall_take_S_zero (xs : list Q) (k : nat) (x : Q) :
  xs !! k = Some x -> Forall (fun y => y == 0) (take (S k) xs) ->
  Forall (fun y => y == 0) (take k xs) /\ x == 0.
Proof.
  intros Hk H. rewrite (take_S_r _ _ _ Hk) in H.
  apply Forall_app in H as [H1 H2]. split; [exact H1 |].
  apply Forall_cons in H2 as [H2 _]. exact H2.
Qed.

Lemma extent_step_keeps (a b : list Q) (k : nat) (st : Extent) :
  (k < length a)%nat -> (length a <= length b)%nat ->
  extent_inv a b k st ->
  exists st', extent_step a b k st = Ok st' /\ extent_inv a b (S k) st'.
Proof.
  intros Hk Hab (Ha & Hb & Hsa & Hsb). unfold extent_step.
  destruct (getitem_lt a k) as (ax & -> & Lax); [exact Hk |].
  destruct (getitem_lt b k) as (bx & -> & Lbx); [lia |].
  rewrite !bind_Ok. eexists. split; [reflexivity |].
  destruct (py_eq ax 0) eqn:Eax; destruct (py_eq bx 0) eqn:Ebx; simpl;
    unfold extent_inv; simpl.
  - repeat split; auto.
    + intros H. apply Ha. eapply Forall_take_S_zero; eassumption.
    + intros H. apply Hb. eapply Forall_take_S_zero; eassumption.
  - repeat split; auto.
    + intros H. apply Ha. eapply Forall_take_S_zero; eassumption.
    + intros H. destruct (Forall_take_S_zero b k bx Lbx H) as [_ Hz].
      apply py_eq_0_spec in Hz. congruence.
    + intros s Hs. destruct (start_b st) as [s0|] eqn:Es.
      * apply Hsb. congruence.
      * injection Hs as <-. exists bx. split; [exact Lbx |].
        intros Hz. apply py_eq_0_spec in Hz. congruence.
  - repeat split; auto.
    + intros H. destruct (Forall_take_S_zero a k ax Lax H) as [_ Hz].
      apply py_eq_0_spec in Hz. congruence.
    + intros H. apply Hb. eapply Forall_take_S_zero; eassumption.
    + intros s Hs. destruct (start_a st) as [s0|] eqn:Es.
      * apply Hsa. congruence.
      * injection Hs as <-. exists ax. split; [exact Lax |].
        intros Hz. apply py_eq_0_spec in Hz. congruence.
  - repeat split; auto.
    + intros H. destruct (Forall_take_S_zero a k ax Lax H) as [_ Hz].
      apply py_eq_0_spec in Hz. congruence.
    + intros H. destruct (Forall_take_S_zero b k bx Lbx H) as [_ Hz].
      apply py_eq_0_spec in Hz. congruence.
    + intros s Hs. destruct (start_a st) as [s0|] eqn:Es.
      * apply Hsa. congruence.
      * injection Hs as <-. exists ax. split; [exact Lax |].
        intros Hz. apply py_eq_0_spec in Hz. congruence.
    + intros s Hs. destruct (start_b st) as [s0|] eqn:Es.
      * apply Hsb. congruence.
      * injection Hs as <-. exists bx. split; [exact Lbx |].
        intros Hz. apply py_eq_0_spec in Hz. congruence.
Qed.

Lemma extent_scan (a b : list Q) :
  (length a <= length b)%nat ->
  exists st,
    for_each (range (length a)) (extent_step a b) (mkExtent None 0 None 0)
      = Ok st /\
    extent_inv a b (length a) st.
Proof.
  intros Hab. apply for_each_range_inv.
  - repeat split; simpl; intros; try reflexivity; discriminate.
  - intros k st Hk Hst. apply extent_step_keeps; assumption.
Qed.

Lemma array_aligned_no_signal (sqrt : Q -> Q) (a b : list Q) :
  (length a <= length b)%nat ->
  Forall (fun x => x == 0) a \/ Forall (fun x => x == 0) (take (length a) b) ->
  array_aligned sqrt a b = Raise TypeError.
Proof.
  intros Hab Hzero. unfold array_aligned.
  destruct (extent_scan a b Hab) as (st & -> & Ha & Hb & _).
  rewrite bind_Ok. rewrite firstn_all in Ha.
  destruct (start_a st) as [sa|] eqn:Esa; [| reflexivity].
  simpl. destruct Hzero as [Hz|Hz]; [specialize (Ha Hz); discriminate |].
  rewrite (Hb Hz). reflexivity.
Qed.

(** X17.  [array_trend_distance] raises [TypeError], and does not return 0,
    when the shorter array has no entry other than 0, or the longer array
    has none among its first entries, as many as the shorter array has;
    whichever of the two comes first. *)
Theorem array_trend_distance_raises_without_signal (sqrt : Q -> Q)
    (a b : list Q) :
  (length a <= length b)%nat ->
  Forall (fun x => x == 0) a \/ Forall (fun x => x == 0) (take (length a) b) ->
  array_trend_distance sqrt a b = Raise TypeError /\
  array_trend_distance sqrt b a = Raise TypeError.
Proof.
  intros Hab Hzero. unfold array_trend_distance.
  destruct (decide (length b < length a)%nat) as [|_]; [lia |].
  split; [apply array_aligned_no_signal; assumption |].
  destruct (decide (length a < length b)%nat) as [_|Hge].
  - apply array_aligned_no_signal; assumption.
  - assert (length a = length b) as Hlen by lia.
    apply array_aligned_no_signal; [lia |].
    rewrite <- Hlen, firstn_all. rewrite Hlen, firstn_all in Hzero.
    destruct Hzero; [right | left]; assumption.
Qed.

Lemma array_trend_distance_raises_without_signal_witness :
  array_trend_distance (fun x => x) [0; 0] [1; 4; 0] = Raise TypeError /\
  array_trend_distance (fun x => x) [1; 4; 0] [0; 0] = Raise TypeError.
Proof.
  apply (array_trend_distance_raises_without_signal (fun x => x) [0; 0] [1; 4; 0]).
  - simpl. lia.
  - left. repeat constructor.
Defined.

Lemma for_each_seq_raises {S : Type} (body : nat -> S -> result S) (k n j : nat)
    (st : S) :
  (k <= j < k + n)%nat ->
  (forall s, exists e, body j s = Raise e) ->
  exists e, for_each (seq k n) body st = Raise e.
Proof.
  revert k st. induction n as [|n IH]; intros k st Hj Hraise; [lia |].
  simpl. destruct (decide (j = k)) as [->|Hne].
  - destruct (Hraise st) as [e ->]. exists e. reflexivity.
  - destruct (body k st) as [s1|e]; [| exists e; reflexivity].
    rewrite bind_Ok. apply IH; [lia | exact Hraise].
Qed.

Lemma array_total_raises (sqrt : Q -> Q) (a b : list Q) (sa sb offset : nat) :
  (0 < sa < length a)%nat ->
  exists e, array_total sqrt a b sa sb offset = Raise e.
Proof.
  intros Hsa. unfold array_total, range.
  apply (for_each_seq_raises _ 0 (length a) (length a - sa)); [lia |].
  intros s. exists IndexError. rewrite (getitem_ge a) by lia. reflexivity.
Qed.

(** X18.  When [array_trend_distance] returns a number, the first entry of
    the shorter array (of the first array, when they are as long) is not 0:
    with that entry 0 the call raises or returns [None]. *)
Theorem array_trend_distance_needs_leading_signal (sqrt : Q -> Q)
    (a b : list Q) (v : Q) :
  (length a <= length b)%nat ->
  array_trend_distance sqrt a b = Ok (Some v) ->
  exists x, a !! 0%nat = Some x /\ ~ x == 0.
Proof.
  intros Hab. unfold array_trend_distance.
  destruct (decide (length b < length a)%nat) as [|_]; [lia |].
  unfold array_aligned.
  destruct (extent_scan a b Hab) as (st & -> & Ha & Hb & Hsa & Hsb).
  rewrite bind_Ok.
  destruct (start_a st) as [sa|] eqn:Esa; [| discriminate]. simpl.
  destruct (start_b st) as [sb|] eqn:Esb; [| discriminate]. simpl.
  destruct sa as [|sa]; [intros _; apply Hsa; reflexivity |].
  destruct (Hsa (S sa) eq_refl) as (x & Lx & _).
  pose proof (lookup_lt_Some _ _ _ Lx) as Hlt.
  destruct (Z.to_nat (Z.of_nat (end_b st) - Z.of_nat sb + 1
                      - (Z.of_nat (end_a st) - Z.of_nat (S sa) + 1) + 1))
    as [|turns]; [discriminate |].
  destruct (array_total_raises sqrt a b (S sa) sb 0) as [e He]; [lia |].
  change (range (S turns)) with (0%nat :: seq 1 turns).
  cbn [for_each]. unfold array_offset. rewrite He. discriminate.
Qed.

Lemma array_trend_distance_needs_leading_signal_witness :
  exists x, [4; 0] !! 0%nat = Some x /\ ~ x == 0.
Proof.
  apply (array_trend_distance_needs_leading_signal (fun x => x) [4; 0] [3; 0] 1).
  - simpl. lia.
  - vm_compute. reflexivity.
Defined.

(** ** The population of the lines *)

Lemma comprehension_ext_Ok {A B : Type} (f : A -> result B) (h : A -> B)
    (xs : list A) :
  (forall x, x ∈ xs -> f x = Ok (h x)) -> comprehension f xs = Ok (h <$> xs).
Proof.
  induction xs as [|x xs IH]; intros H; [reflexivity |].
  rewrite fmap_cons. cbn [comprehension].
  rewrite (H x) by left. rewrite bind_Ok, IH; [reflexivity |].
  intros y Hy. apply H. right. exact Hy.
Qed.

Lemma for_each_foldl {A S : Type} (I : S -> Prop) (g : S -> A -> S)
    (body : A -> S -> result S) (xs : list A) (st : S) :
  I st ->
  (forall x s, I s -> body x s = Ok (g s x) /\ I (g s x)) ->
  for_each xs body st = Ok (foldl g st xs) /\ I (foldl g st xs).
Proof.
  revert st. induction xs as [|x xs IH]; intros st Hst Hbody.
  - split; [reflexivity | exact Hst].
  - destruct (Hbody x st Hst) as [E Hg]. simpl. rewrite E, bind_Ok.
    apply IH; assumption.
Qed.

Lemma foldl_permutation_swap {A S : Type} (g : S -> A -> S) (xs ys : list A) :
  (forall s x y, g (g s x) y = g (g s y) x) ->
  xs ≡ₚ ys -> forall st, foldl g st xs = foldl g st ys.
Proof.
  intros Hswap Hperm. induction Hperm as [|x xs ys _ IH|x y xs|xs ys zs _ IH1 _ IH2];
    intros st; simpl.
  - reflexivity.
  - apply IH.
  - rewrite Hswap. reflexivity.
  - rewrite IH1. apply IH2.
Qed.

Lemma Qplus_swap (x y z : Q) : x + y + z = x + z + y.
Proof.
  destruct x as [xn xd], y as [yn yd], z as [zn zd]. unfold Qplus. simpl.
  f_equal; [rewrite !Pos2Z.inj_mul; ring | lia].
Qed.

Lemma record_tweet_swap (t1 t2 : Tweet) (c : TrendCell) :
  record_tweet t1 (record_tweet t2 c) = record_tweet t2 (record_tweet t1 c).
Proof.
  unfold record_tweet. simpl. f_equal.
  - apply Qplus_swap.
  - apply Qplus_swap.
  - destruct (retweeted t1), (retweeted t2); reflexivity.
Qed.

Lemma end_ts_memo_from (trends : list TrendLine) (m0 : gmap string Z) :
  Forall (fun l => start_ts l <> None /\ (0 < window_size l)%Z) trends ->
  exists memo,
    for_each trends end_ts_step m0 = Ok memo /\
    (forall n, n ∉ name <$> trends -> memo !! n = m0 !! n) /\
    (NoDup (name <$> trends) ->
     forall l s, l ∈ trends -> start_ts l = Some s ->
       memo !! name l
       = Some (s + window_size l * Z.of_nat (length (data l)))%Z).
Proof.
  revert m0. induction trends as [|x rest IH]; intros m0 Hall.
  - exists m0. split; [reflexivity |]. split; [reflexivity |].
    intros _ l s Hl. apply elem_of_nil in Hl. contradiction.
  - apply Forall_cons in Hall as [[Hx _] Hrest].
    destruct (start_ts x) as [sx|] eqn:Ex; [| congruence].
    destruct (IH (<[name x := (sx + window_size x
                                 * Z.of_nat (length (data x)))%Z]> m0) Hrest)
      as (memo & E & Hout & Hin).
    exists memo. split; [| split].
    + assert (end_ts_step x m0
              = Ok (<[name x := (sx + window_size x
                                   * Z.of_nat (length (data x)))%Z]> m0)) as Ex0.
      { unfold end_ts_step. rewrite Ex. reflexivity. }
      cbn [for_each]. rewrite Ex0, bind_Ok. exact E.
    + intros n Hn. rewrite fmap_cons in Hn. apply not_elem_of_cons in Hn as [Hne Hn].
      rewrite (Hout n Hn). apply lookup_insert_ne. congruence.
    + rewrite fmap_cons. intros Hnd l s Hl Hs.
      apply NoDup_cons in Hnd as [Hfresh Hnd].
      apply elem_of_cons in Hl as [->|Hl].
      * rewrite (Hout (name x) Hfresh), lookup_insert_eq. congruence.
      * apply Hin; assumption.
Qed.

Lemma insert_is_alter {A : Type} (f : A -> A) (l : list A) (k : nat) (x : A) :
  l !! k = Some x -> <[k := f x]> l = alter f k l.
Proof.
  intros Hk. apply list_eq. intros i.
  destruct (decide (i = k)) as [->|Hne].
  - rewrite list_lookup_insert_eq by (eapply lookup_lt_Some; exact Hk).
    rewrite list_lookup_alter_eq, Hk. reflexivity.
  - rewrite list_lookup_insert_ne, list_lookup_alter_ne by congruence.
    reflexivity.
Qed.

Lemma in_line_window (split : string -> list string) (tweet : Tweet)
    (l : TrendLine) :
  (0 < window_size l)%Z -> in_line split tweet l = true ->
  exists s, start_ts l = Some s /\
    (0 <= (tweet_ts tweet - s) / window_size l < Z.of_nat (length (data l)))%Z /\
    (window_of tweet l < length (data l))%nat.
Proof.
  intros Hw. unfold in_line, window_of.
  destruct (start_ts l) as [s|]; [| discriminate].
  intros H. apply andb_true_iff in H as [H _].
  apply andb_true_iff in H as [H1 H2].
  apply Z.leb_le in H1. apply Z.ltb_lt in H2.
  exists s. split; [reflexivity |].
  assert (0 <= (tweet_ts tweet - s) / window_size l
          < Z.of_nat (length (data l)))%Z as Hb.
  { split.
    - apply Z.div_pos; lia.
    - apply Z.div_lt_upper_bound; lia. }
  split; [exact Hb | lia].
Qed.

Lemma first_pass_line_bump (split : string -> list string)
    (memo : gmap string Z) (tweet : Tweet) (l : TrendLine) (s : Z) :
  start_ts l = Some s -> (0 < window_size l)%Z ->
  memo !! name l = Some (s + window_size l * Z.of_nat (length (data l)))%Z ->
  first_pass_line split memo tweet l = Ok (bump split tweet l).
Proof.
  intros Hs Hw Hmemo. unfold first_pass_line, tweet_hits, bump.
  destruct (in_line split tweet l) eqn:Hin.
  - destruct (in_line_window split tweet l Hw Hin) as (s' & Hs' & Hb & Hk).
    assert (s' = s) as -> by congruence.
    unfold in_line in Hin. rewrite Hs in Hin.
    apply andb_true_iff in Hin as [Hin Hm].
    apply andb_true_iff in Hin as [H1 H2].
    rewrite Hs, H1, Hmemo, H2, Hm, bind_Ok. simpl.
    destruct (window_size l =? 0)%Z eqn:Ew; [apply Z.eqb_eq in Ew; lia |].
    unfold py_index.
    destruct (0 <=? (tweet_ts tweet - s) / window_size l)%Z eqn:E0;
      [| apply Z.leb_gt in E0; lia].
    destruct ((tweet_ts tweet - s) / window_size l
              <? Z.of_nat (length (data l)))%Z eqn:E1;
      [| apply Z.ltb_ge in E1; lia].
    rewrite bind_Ok. unfold window_of in *. rewrite Hs in *.
    destruct (getitem_lt (data l) _ Hk) as (cell & -> & Lc).
    rewrite bind_Ok, (insert_is_alter _ _ _ _ Lc). reflexivity.
  - unfold in_line in Hin. rewrite Hs in Hin. rewrite Hs.
    destruct (s <=? tweet_ts tweet)%Z; [| reflexivity].
    rewrite Hmemo. simpl in Hin. rewrite Hin. reflexivity.
Qed.

Lemma alter_record_labels (tweet : Tweet) (k : nat) (d : list TrendCell) :
  trending <$> alter (record_tweet tweet) k d = trending <$> d.
Proof.
  apply list_eq. intros i. rewrite !list_lookup_fmap.
  destruct (decide (i = k)) as [->|Hne].
  - rewrite list_lookup_alter_eq. destruct (d !! k); reflexivity.
  - rewrite list_lookup_alter_ne by congruence. reflexivity.
Qed.

Lemma bump_same_frame (split : string -> list string) (tweet : Tweet)
    (l : TrendLine) :
  same_frame l (bump split tweet l).
Proof.
  unfold bump, same_frame. destruct (in_line split tweet l); simpl.
  - repeat split. apply alter_record_labels.
  - repeat split.
Qed.

Lemma same_frame_length (l l' : TrendLine) :
  same_frame l l' -> length (data l') = length (data l).
Proof.
  intros (_ & _ & _ & H). apply (f_equal length) in H.
  rewrite !length_fmap in H. exact H.
Qed.

Lemma same_frame_in_line (split : string -> list string) (tweet : Tweet)
    (l l' : TrendLine) :
  same_frame l l' ->
  in_line split tweet l' = in_line split tweet l /\
  window_of tweet l' = window_of tweet l.
Proof.
  intros Hf. pose proof (same_frame_length l l' Hf) as Hlen.
  destruct Hf as (Hn & Hs & Hw & _).
  unfold in_line, window_of, TrendLine_match_text.
  rewrite Hn, Hs, Hw, Hlen. split; reflexivity.
Qed.

Lemma same_frame_trans (l1 l2 l3 : TrendLine) :
  same_frame l1 l2 -> same_frame l2 l3 -> same_frame l1 l3.
Proof.
  intros (A1 & A2 & A3 & A4) (B1 & B2 & B3 & B4).
  repeat split; congruence.
Qed.

Lemma alter_swap {A : Type} (f g : A -> A) (k1 k2 : nat) (d : list A) :
  (k1 = k2 -> forall c, f (g c) = g (f c)) ->
  alter f k1 (alter g k2 d) = alter g k2 (alter f k1 d).
Proof.
  intros H. apply list_eq. intros i.
  destruct (decide (k1 = i)) as [->|H1]; destruct (decide (k2 = i)) as [->|H2].
  - rewrite !list_lookup_alter_eq. destruct (d !! i) as [c|]; simpl;
      [rewrite (H eq_refl c) |]; reflexivity.
  - repeat (rewrite list_lookup_alter_eq
            || rewrite list_lookup_alter_ne by congruence). reflexivity.
  - repeat (rewrite list_lookup_alter_eq
            || rewrite list_lookup_alter_ne by congruence). reflexivity.
  - rewrite !list_lookup_alter_ne by congruence. reflexivity.
Qed.

Lemma bump_swap (split : string -> list string) (t1 t2 : Tweet) (l : TrendLine) :
  bump split t1 (bump split t2 l) = bump split t2 (bump split t1 l).
Proof.
  destruct (same_frame_in_line split t1 l (bump split t2 l)
              (bump_same_frame split t2 l)) as [H1 W1].
  destruct (same_frame_in_line split t2 l (bump split t1 l)
              (bump_same_frame split t1 l)) as [H2 W2].
  unfold bump at 1 3. rewrite H1, H2, W1, W2.
  unfold bump.
  destruct (in_line split t1 l), (in_line split t2 l); simpl; try reflexivity.
  f_equal. apply alter_swap. intros _ c. apply record_tweet_swap.
Qed.

Lemma same_frame_refl (l : TrendLine) : same_frame l l.
Proof. repeat split. Qed.

Lemma first_pass_foldl (split : string -> list string)
    (trends : list TrendLine) (tweets : list Tweet) :
  populable trends ->
  first_pass split trends tweets
  = Ok (foldl (fun ls t => bump split t <$> ls) trends tweets) /\
  Forall2 same_frame trends
    (foldl (fun ls t => bump split t <$> ls) trends tweets).
Proof.
  intros [Hnd Hall]. unfold first_pass, end_ts_memo.
  destruct (end_ts_memo_from trends ∅ Hall) as (memo & -> & _ & Hmemo).
  specialize (Hmemo Hnd). rewrite bind_Ok.
  apply (for_each_foldl (fun ls => Forall2 same_frame trends ls)).
  - apply Forall_Forall2_diag. apply Forall_forall. intros l _.
    apply same_frame_refl.
  - intros t ls Hls. split.
    + apply comprehension_ext_Ok. intros l' Hl'.
      apply list_elem_of_lookup in Hl' as [i Hi].
      destruct (Forall2_lookup_r _ _ _ _ _ Hls Hi) as (l & Hl & Hf).
      pose proof (list_elem_of_lookup_2 _ _ _ Hl) as Hin.
      rewrite Forall_forall in Hall. destruct (Hall l Hin) as [Hstart Hw].
      destruct (start_ts l) as [s|] eqn:Es; [| congruence].
      pose proof (same_frame_length l l' Hf) as Hlen.
      destruct Hf as (Hn & Hs & Hw' & _).
      apply (first_pass_line_bump split memo t l' s).
      * congruence.
      * lia.
      * rewrite Hn, Hw', Hlen. apply Hmemo; assumption.
    + apply Forall2_fmap_r. eapply Forall2_impl; [exact Hls |].
      intros l l' Hf. simpl. eapply same_frame_trans; [exact Hf |].
      apply bump_same_frame.
Qed.

Lemma second_pass_keeps (data : list TrendCell) :
  exists out, second_pass data = Ok out /\
    trending <$> out = trending <$> data /\ count <$> out = count <$> data.
Proof.
  unfold second_pass.
  destruct (for_each_range_inv (pass2_inv data) (length data)
              second_pass_step (data, true, false))
    as ([[out f] s] & -> & Hlen & _ & _ & _ & Hdone).
  { split; [reflexivity |]. split; [reflexivity |]. split; [reflexivity |].
    split; [reflexivity | intros; lia]. }
  { intros i st Hi Hst. apply second_pass_step_keeps; assumption. }
  rewrite bind_Ok. exists out. split; [reflexivity |].
  split; apply list_eq; intros i; rewrite !list_lookup_fmap;
    (destruct (decide (i < length data)%nat) as [Hi|Hi];
     [destruct (Hdone i Hi) as (orig & cell & -> & -> & Ht & Hc & _); simpl;
      congruence
     | rewrite !lookup_ge_None_2 by lia; reflexivity]).
Qed.

Lemma foldl_fmap_lookup {A B : Type} (f : B -> A -> A) (ls : list A)
    (ts : list B) (i : nat) :
  foldl (fun ls t => f t <$> ls) ls ts !! i
  = (fun l => foldl (fun l t => f t l) l ts) <$> ls !! i.
Proof.
  revert ls. induction ts as [|t ts IH]; intros ls; simpl.
  - destruct (ls !! i); reflexivity.
  - rewrite IH, list_lookup_fmap. destruct (ls !! i); reflexivity.
Qed.

Lemma count_sum_alter (f : TrendCell -> TrendCell) (d : list TrendCell)
    (k : nat) :
  (k < length d)%nat -> (forall c, count (f c) = count c + 1) ->
  foldr Qplus 0 (count <$> alter f k d) == foldr Qplus 0 (count <$> d) + 1.
Proof.
  intros Hk Hf. revert k Hk. induction d as [|c d IH]; intros k Hk; simpl in Hk.
  - lia.
  - destruct k as [|k].
    + change (alter f 0%nat (c :: d)) with (f c :: d).
      rewrite !fmap_cons. cbn [foldr]. rewrite Hf. ring.
    + change (alter f (S k) (c :: d)) with (c :: alter f k d).
      rewrite !fmap_cons. cbn [foldr]. rewrite (IH k) by lia. ring.
Qed.

Lemma total_count_bump (split : string -> list string) (t : Tweet)
    (l : TrendLine) :
  (0 < window_size l)%Z ->
  total_count (bump split t l)
  == total_count l + (if in_line split t l then 1 else 0).
Proof.
  intros Hw. unfold bump, total_count.
  destruct (in_line split t l) eqn:Hin; [| ring].
  destruct (in_line_window split t l Hw Hin) as (_ & _ & _ & Hk). simpl.
  apply count_sum_alter; [exact Hk | reflexivity].
Qed.

Lemma total_count_foldl (split : string -> list string) (tweets : list Tweet)
    (l : TrendLine) :
  (0 < window_size l)%Z ->
  total_count (foldl (fun l t => bump split t l) l tweets)
  == total_count l + inject_Z (Z.of_nat (hits split l tweets)).
Proof.
  revert l. induction tweets as [|t ts IH]; intros l Hw.
  - unfold hits. simpl. ring.
  - pose proof (bump_same_frame split t l) as Hf.
    simpl foldl. rewrite IH by (destruct Hf as (_ & _ & -> & _); exact Hw).
    rewrite (total_count_bump split t l Hw).
    assert (hits split (bump split t l) ts = hits split l ts) as ->.
    { unfold hits. f_equal. apply list_filter_iff. intros t'.
      destruct (same_frame_in_line split t' l _ Hf) as [-> _]. reflexivity. }
    unfold hits. rewrite filter_cons.
    destruct (decide (in_line split t l = true)) as [->|Hno].
    + simpl length. rewrite Nat2Z.inj_succ, <- Z.add_1_r, inject_Z_plus.
      change (inject_Z 1) with 1. ring.
    + destruct (in_line split t l); [congruence | ring].
Qed.

(** X19.  On lines of pairwise different names, each with a start and a
    window of positive size, [populate_from_file] returns for every list of
    tweets.  It returns the lines in their order, each with its name, start,
    window size, number of cells and labels, and with counts that add up to
    what they added up to before plus the number of the tweets that fall
    into the span of the line and share a word with its name. *)
Theorem populate_counts_every_hit (split : string -> list string)
    (trends : list TrendLine) (tweets : list Tweet) :
  populable trends ->
  exists out,
    TrendLine_populate_from_file split trends tweets = Ok out /\
    Forall2
      (fun l l' =>
         same_frame l l' /\
         total_count l'
         == total_count l + inject_Z (Z.of_nat (hits split l tweets)))
      trends out.
Proof.
  intros Hpop. unfold TrendLine_populate_from_file.
  destruct (first_pass_foldl split trends tweets Hpop) as [-> Hframe].
  rewrite bind_Ok.
  set (mid := foldl (fun ls t => bump split t <$> ls) trends tweets) in *.
  destruct (comprehension_Forall2
              (fun l l' => same_frame l l' /\ total_count l' = total_count l)
              (fun trend =>
                 data ← second_pass (data trend);
                 Ok (mkTrendLine (name trend) (start_ts trend) data
                       (window_size trend)))
              mid) as (out & -> & Hout).
  { intros l _. destruct (second_pass_keeps (data l)) as (d & -> & Ht & Hc).
    rewrite bind_Ok. eexists. split; [reflexivity |]. split.
    - repeat split. exact Ht.
    - unfold total_count. simpl. rewrite Hc. reflexivity. }
  exists out. split; [reflexivity |].
  apply Forall2_same_length_lookup. split.
  - rewrite (Forall2_length _ _ _ Hframe). exact (Forall2_length _ _ _ Hout).
  - intros i l l' Hl Hl'.
    destruct (Forall2_lookup_r _ _ _ _ _ Hout Hl') as (m & Hm & Hfm & Hcm).
    split.
    + eapply same_frame_trans; [| exact Hfm].
      destruct (Forall2_lookup_r _ _ _ _ _ Hframe Hm) as (l0 & Hl0 & Hf0).
      congruence.
    + rewrite Hcm. unfold mid in Hm. rewrite foldl_fmap_lookup, Hl in Hm.
      injection Hm as <-. apply total_count_foldl.
      destruct Hpop as [_ Hall]. rewrite Forall_forall in Hall.
      apply (Hall l). exact (list_elem_of_lookup_2 _ _ _ Hl).
Qed.

Lemma populable_cat_line : populable [cat_line].
Proof.
  split.
  - apply NoDup_singleton.
  - apply Forall_singleton. split; [discriminate | reflexivity].
Qed.

Lemma populate_counts_every_hit_witness :
  exists out,
    TrendLine_populate_from_file one_word [cat_line] cat_tweets = Ok out /\
    Forall2
      (fun l l' =>
         same_frame l l' /\
         total_count l'
         == total_count l + inject_Z (Z.of_nat (hits one_word l cat_tweets)))
      [cat_line] out.
Proof.
  apply (populate_counts_every_hit one_word [cat_line] cat_tweets).
  apply populable_cat_line.
Defined.

(** X20.  On such lines the order of the tweets does not matter:
    [populate_from_file] returns the same lines for a list of tweets and
    for any rearrangement of it. *)
Theorem populate_ignores_tweet_order (split : string -> list string)
    (trends : list TrendLine) (tweets tweets' : list Tweet) :
  populable trends -> tweets ≡ₚ tweets' ->
  TrendLine_populate_from_file split trends tweets
  = TrendLine_populate_from_file split trends tweets'.
Proof.
  intros Hpop Hperm. unfold TrendLine_populate_from_file.
  destruct (first_pass_foldl split trends tweets Hpop) as [-> _].
  destruct (first_pass_foldl split trends tweets' Hpop) as [-> _].
  rewrite (foldl_permutation_swap _ tweets tweets'); [reflexivity | | exact Hperm].
  intros ls x y. rewrite <- !list_fmap_compose. apply list_fmap_ext.
  intros _ l _. simpl. apply bump_swap.
Qed.

Lemma populate_ignores_tweet_order_witness :
  TrendLine_populate_from_file one_word [cat_line] cat_tweets
  = TrendLine_populate_from_file one_word [cat_line] (reverse cat_tweets).
Proof.
  apply (populate_ignores_tweet_order one_word [cat_line] cat_tweets
           (reverse cat_tweets)).
  - apply populable_cat_line.
  - symmetry. apply reverse_Permutation.
Defined.

(** ** Negative lines, further *)

Lemma comprehension_Ok_Forall2 {A B : Type} (f : A -> result B) (xs : list A)
    (ys : list B) :
  comprehension f xs = Ok ys -> Forall2 (fun x y => f x = Ok y) xs ys.
Proof.
  revert ys. induction xs as [|x xs IH]; intros ys; simpl.
  - intros [= <-]. constructor.
  - destruct (f x) as [y|e] eqn:E; [| discriminate]. simpl.
    destruct (comprehension f xs) as [ys0|e]; [| discriminate]. simpl.
    intros [= <-]. constructor; [exact E | apply IH; reflexivity].
Qed.

Lemma existsb_replicate_false (n : nat) :
  existsb trending (replicate n (TrendCell_new false)) = false.
Proof. induction n as [|n IH]; [reflexivity | exact IH]. Qed.

(** X21.  A line [random_trend] returns has the name given and windows of
    120 seconds; its cells are empty and do not trend, as many as one of the
    lengths given; it starts on a multiple of 120 seconds, less than 120
    seconds before [start], and ends no later than [end]. *)
Theorem random_trend_fits_span (raw1 raw2 : nat) (n : string) (start end_ : Z)
    (lengths : list nat) (line : TrendLine) :
  TrendLine_random_trend raw1 raw2 n start end_ lengths = Ok line ->
  name line = n /\ window_size line = 120%Z /\
  length (data line) ∈ lengths /\
  Forall (fun c => c = TrendCell_new false) (data line) /\
  exists s, start_ts line = Some s /\
    (s mod 120 = 0)%Z /\ (start - 120 < s)%Z /\
    (s + 120 * Z.of_nat (length (data line)) <= end_)%Z.
Proof.
  unfold TrendLine_random_trend, randrange0, randint.
  destruct (decide (length lengths = 0%nat)) as [|Hne]; [discriminate |].
  rewrite bind_Ok.
  destruct (getitem_lt lengths (raw1 mod length lengths)) as (len & -> & Hlen).
  { apply Nat.mod_upper_bound. exact Hne. }
  rewrite bind_Ok.
  destruct (end_ / 120 - Z.of_nat len <? start / 120)%Z eqn:Hroom;
    [discriminate |].
  apply Z.ltb_ge in Hroom. rewrite bind_Ok. intros [= <-]. simpl.
  rewrite length_replicate.
  split; [reflexivity |]. split; [reflexivity |].
  split; [exact (list_elem_of_lookup_2 _ _ _ Hlen) |].
  split; [apply Forall_replicate; reflexivity |].
  eexists. split; [reflexivity |].
  set (span := (end_ / 120 - Z.of_nat len - start / 120 + 1)%Z).
  assert (0 <= Z.of_nat raw2 mod span < span)%Z as Hr
    by (apply Z.mod_pos_bound; unfold span; lia).
  pose proof (Z.mod_pos_bound start 120 ltac:(lia)) as Hs.
  pose proof (Z.div_mod start 120 ltac:(lia)) as Hds.
  pose proof (Z.mod_pos_bound end_ 120 ltac:(lia)) as He.
  pose proof (Z.div_mod end_ 120 ltac:(lia)) as Hde.
  split; [apply Z.mod_mul; lia |].
  unfold span in *. clear span. split; lia.
Qed.

Lemma random_trend_fits_span_witness :
  name (mkTrendLine "cat" (Some 240%Z) (replicate 2 (TrendCell_new false)) 120)
    = "cat" /\
  window_size
    (mkTrendLine "cat" (Some 240%Z) (replicate 2 (TrendCell_new false)) 120)
    = 120%Z /\
  length (data (mkTrendLine "cat" (Some 240%Z)
                  (replicate 2 (TrendCell_new false)) 120)) ∈ [2%nat; 5%nat] /\
  Forall (fun c => c = TrendCell_new false)
    (data (mkTrendLine "cat" (Some 240%Z)
             (replicate 2 (TrendCell_new false)) 120)) /\
  exists s,
    start_ts (mkTrendLine "cat" (Some 240%Z)
                (replicate 2 (TrendCell_new false)) 120) = Some s /\
    (s mod 120 = 0)%Z /\ (100 - 120 < s)%Z /\
    (s + 120 * Z.of_nat (length (data (mkTrendLine "cat" (Some 240%Z)
                                         (replicate 2 (TrendCell_new false))
                                         120))) <= 1000)%Z.
Proof.
  apply (random_trend_fits_span 0 2 "cat" 100 1000 [2%nat; 5%nat]).
  vm_compute. reflexivity.
Defined.

Lemma negative_trends_shape (fuel : nat) (rng : nat -> nat)
    (lines0 : list TrendLine) (bag_of_words : BagOfWords)
    (lines : list TrendLine) :
  TrendLine_construct_negative_trends fuel rng lines0 bag_of_words
    = Some (Ok lines) ->
  length lines = length lines0 /\
  NoDup (name <$> lines) /\
  Forall (fun l => TrendLine_trending l = false /\
                   exists t, t ∈ lines0 /\ length (data l) = length (data t))
    lines.
Proof.
  unfold TrendLine_construct_negative_trends.
  destruct (span lines0) as [[start end_]|e]; [| discriminate].
  destruct (BagOfWords_random_trend_names fuel bag_of_words
              (PyTrendLine <$> lines0) (length lines0))
    as [[names|e]|] eqn:Hnames; try discriminate.
  apply random_trend_names_fresh in Hnames as (Hnd & Hlen & _).
  intros [= Hlines]. apply comprehension_Ok_Forall2 in Hlines.
  assert (Forall2 (fun kn l =>
                     name l = snd kn /\ TrendLine_trending l = false /\
                     exists t, t ∈ lines0 /\ length (data l) = length (data t))
            (enumerate names) lines) as Hrel.
  { eapply Forall2_impl; [exact Hlines |]. intros [k n] l Hl. simpl in Hl.
    unfold TrendLine_random_trend, randrange0, randint in Hl.
    destruct (decide _) as [|_]; [discriminate |]. rewrite bind_Ok in Hl.
    destruct (getitem _ _) as [len|] eqn:Hget; [| discriminate].
    rewrite bind_Ok in Hl. destruct (_ <? _)%Z; [discriminate |].
    rewrite bind_Ok in Hl. injection Hl as <-. simpl.
    split; [reflexivity |]. split.
    - unfold TrendLine_trending. simpl. apply existsb_replicate_false.
    - rewrite length_replicate. unfold getitem in Hget.
      rewrite list_lookup_fmap in Hget.
      destruct (lines0 !! _) as [t|] eqn:Ht; [| discriminate].
      simpl in Hget. injection Hget as <-.
      exists t. split; [exact (list_elem_of_lookup_2 _ _ _ Ht) | reflexivity]. }
  assert (length (enumerate names) = length names) as Hen.
  { unfold enumerate, range. rewrite length_zip, length_seq. lia. }
  split; [| split].
  - rewrite <- (Forall2_length _ _ _ Hrel), Hen. exact Hlen.
  - assert (name <$> lines = names) as ->; [| exact Hnd].
    apply list_eq. intros i. rewrite list_lookup_fmap.
    destruct (lines !! i) as [l|] eqn:Hl; simpl.
    + destruct (Forall2_lookup_r _ _ _ _ _ Hrel Hl) as ([k n] & Hkn & -> & _).
      unfold enumerate in Hkn. apply lookup_zip_with_Some in Hkn
        as (k' & n' & [= -> ->] & _ & Hn). simpl. symmetry. exact Hn.
    + symmetry. apply lookup_ge_None. apply lookup_ge_None in Hl.
      rewrite <- Hen, (Forall2_length _ _ _ Hrel). exact Hl.
  - apply Forall_forall. intros l Hl. apply list_elem_of_lookup in Hl as [i Hi].
    destruct (Forall2_lookup_r _ _ _ _ _ Hrel Hi) as (kn & _ & _ & Ht & Hex).
    split; assumption.
Qed.

(** X22.  When [construct_negative_trends] returns, it returns as many lines
    as it was given, under names that are pairwise different, each without
    a trending cell and as long as one of the lines given. *)
Theorem negative_trends_mirror_positive (fuel : nat) (rng : nat -> nat)
    (trends : list TrendLine) (bag_of_words : BagOfWords)
    (lines : list TrendLine) :
  TrendLine_construct_negative_trends fuel rng trends bag_of_words
    = Some (Ok lines) ->
  length lines = length trends /\
  NoDup (name <$> lines) /\
  Forall (fun l => TrendLine_trending l = false /\
                   exists t, t ∈ trends /\ length (data l) = length (data t))
    lines.
Proof. apply negative_trends_shape. Qed.

Lemma negative_trends_mirror_positive_witness :
  length [mkTrendLine "obama" (Some 0%Z)
            (replicate 105 (TrendCell_new false)) 120]
  = length [obama_line] /\
  NoDup (name <$> [mkTrendLine "obama" (Some 0%Z)
                     (replicate 105 (TrendCell_new false)) 120]) /\
  Forall (fun l => TrendLine_trending l = false /\
                   exists t, t ∈ [obama_line] /\
                             length (data l) = length (data t))
    [mkTrendLine "obama" (Some 0%Z) (replicate 105 (TrendCell_new false)) 120].
Proof.
  apply (negative_trends_mirror_positive 1 (fun _ => 0%nat) [obama_line]
           obama_bag).
  vm_compute. reflexivity.
Defined.

(** ** Population, then normalization *)

Lemma bump_keeps_counts_nonneg (split : string -> list string) (t : Tweet)
    (l : TrendLine) :
  Forall (fun c => 0 <= count c) (data l) ->
  Forall (fun c => 0 <= count c) (data (bump split t l)).
Proof.
  intros H. unfold bump. destruct (in_line split t l); [| exact H]. simpl.
  apply Forall_alter; [exact H |]. intros c _ Hc. simpl. lra.
Qed.

Lemma foldl_bump_keeps_counts_nonneg (split : string -> list string)
    (tweets : list Tweet) (l : TrendLine) :
  Forall (fun c => 0 <= count c) (data l) ->
  Forall (fun c => 0 <= count c)
    (data (foldl (fun l t => bump split t l) l tweets)).
Proof.
  revert l. induction tweets as [|t ts IH]; intros l H; [exact H |].
  simpl. apply IH. apply bump_keeps_counts_nonneg. exact H.
Qed.

(** X23.  Population and normalization together keep the counts in [0, 1]:
    on lines of pairwise different names, each with a start and a window of
    positive size, and with no negative count to begin with, every cell of
    every line has a count between 0 and 1 after [populate_from_file] and
    [normalize]. *)
Theorem populated_normalized_counts_in_unit (split : string -> list string)
    (lines mid : list TrendLine) (tweets : list Tweet) (out : TrendModel) :
  populable lines ->
  Forall (fun l => Forall (fun c => 0 <= count c) (data l)) lines ->
  TrendLine_populate_from_file split lines tweets = Ok mid ->
  TrendModel_normalize (mkTrendModel mid) = Ok out ->
  Forall (fun l => Forall (fun c => 0 <= count c /\ count c <= 1) (data l))
    (trends out).
Proof.
  intros Hpop Hnonneg Hmid Hout.
  unfold TrendLine_populate_from_file in Hmid.
  destruct (first_pass_foldl split lines tweets Hpop) as [E _].
  rewrite E, bind_Ok in Hmid. clear E.
  apply comprehension_Ok_Forall2 in Hmid.
  unfold TrendModel_normalize in Hout. simpl in Hout.
  destruct (comprehension normalize_line mid) as [outs|e] eqn:Enorm;
    [| discriminate].
  injection Hout as <-. simpl.
  apply comprehension_Ok_Forall2 in Enorm.
  apply Forall_forall. intros l' Hl'.
  apply list_elem_of_lookup in Hl' as [i Hi].
  destruct (Forall2_lookup_r _ _ _ _ _ Enorm Hi) as (m & Hm & Hnorm).
  destruct (Forall2_lookup_r _ _ _ _ _ Hmid Hm) as (f & Hf & Hsecond).
  rewrite foldl_fmap_lookup in Hf.
  destruct (lines !! i) as [l|] eqn:Hl; [| discriminate].
  injection Hf as <-.
  assert (Forall (fun c => 0 <= count c) (data m)) as Hm0.
  { destruct (second_pass_keeps
                (data (foldl (fun l t => bump split t l) l tweets)))
      as (d & Ed & _ & Hc).
    rewrite Ed, bind_Ok in Hsecond. injection Hsecond as <-. simpl.
    apply Forall_forall. intros c Hin.
    assert (count c ∈ count <$> d) as Hcount
      by (apply list_elem_of_fmap_2; exact Hin).
    rewrite Hc in Hcount. apply list_elem_of_fmap in Hcount as (c' & -> & Hc').
    revert c' Hc'. apply Forall_forall. apply foldl_bump_keeps_counts_nonneg.
    rewrite Forall_forall in Hnonneg. apply Hnonneg.
    exact (list_elem_of_lookup_2 _ _ _ Hl). }
  assert (data m <> []) as Hne.
  { intros Hnil. rewrite normalize_line_no_cells in Hnorm; [discriminate |].
    unfold no_cells. rewrite Hnil. reflexivity. }
  destruct (normalize_line_unit_interval m FCount Hne) as (o & _ & Eo & _ & Hunit & _).
  { rewrite Forall_forall in Hm0. exact Hm0. }
  assert (o = l') as -> by congruence.
  apply Forall_forall. exact Hunit.
Qed.

Lemma populated_normalized_counts_in_unit_witness :
  exists mid out,
    TrendLine_populate_from_file one_word [cat_line] cat_tweets = Ok mid /\
    TrendModel_normalize (mkTrendModel mid) = Ok out /\
    Forall (fun l => Forall (fun c => 0 <= count c /\ count c <= 1) (data l))
      (trends out).
Proof.
  eexists. eexists.
  assert (TrendLine_populate_from_file one_word [cat_line] cat_tweets = Ok _)
    as Hmid by (vm_compute; reflexivity).
  split; [exact Hmid |].
  match type of Hmid with
  | _ = Ok ?mid =>
      assert (TrendModel_normalize (mkTrendModel mid) = Ok _) as Hout
        by (vm_compute; reflexivity)
  end.
  split; [exact Hout |].
  eapply (populated_normalized_counts_in_unit one_word [cat_line]);
    [apply populable_cat_line | | exact Hmid | exact Hout].
  apply Forall_singleton. repeat constructor; vm_compute; congruence.
Defined.

(** ** Drawing the negative names, to the end *)

Lemma fold_best_spec (rest : list (string * Z)) (kv : string * Z) :
  let r := fold_left
             (fun best kv' => if (snd best <? snd kv')%Z then kv' else best)
             rest kv in
  (r = kv \/ r ∈ rest) /\ (snd kv <= snd r)%Z /\
  forall x, x ∈ rest -> (snd x <= snd r)%Z.
Proof.
  revert kv. induction rest as [|y ys IH]; intros kv; simpl.
  - split; [left; reflexivity |]. split; [lia |].
    intros x Hx. apply elem_of_nil in Hx. contradiction.
  - destruct (IH (if (snd kv <? snd y)%Z then y else kv)) as (Hin & Hle & Hall).
    destruct (snd kv <? snd y)%Z eqn:E.
    + apply Z.ltb_lt in E. split; [| split].
      * right. destruct Hin as [->|Hin]; [left | right; exact Hin].
      * lia.
      * intros x Hx. apply elem_of_cons in Hx as [->|Hx]; [exact Hle | auto].
    + apply Z.ltb_ge in E. split; [| split].
      * destruct Hin as [->|Hin]; [left; reflexivity | right; right; exact Hin].
      * exact Hle.
      * intros x Hx. apply elem_of_cons in Hx as [->|Hx]; [lia | auto].
Qed.

Lemma most_common_1_positive (bag : BagOfWords) :
  positive_words bag <> [] ->
  exists w c, most_common_1 bag = [(w, c)] /\ (w, c) ∈ bag /\ (0 < c)%Z.
Proof.
  intros Hpos. destruct bag as [|kv rest]; [contradiction Hpos; reflexivity |].
  destruct (fold_best_spec rest kv) as (Hin & Hle & Hall).
  set (r := fold_left _ rest kv) in *.
  exists (fst r), (snd r). split; [| split].
  - simpl. fold r. destruct r; reflexivity.
  - destruct r as [w c]. simpl. destruct Hin as [->|Hin]; [left | right; exact Hin].
  - destruct (positive_words (kv :: rest)) as [|p ps] eqn:Ep; [contradiction |].
    assert (p ∈ positive_words (kv :: rest)) as Hp by (rewrite Ep; left).
    unfold positive_words in Hp. apply list_elem_of_filter in Hp as [Hp0 Hp].
    apply elem_of_cons in Hp as [->|Hp]; [lia |].
    specialize (Hall p Hp). lia.
Qed.

Lemma counter_set_taken (bag : BagOfWords) (w : string) (c : Z) :
  NoDup (fst <$> bag) -> (w, c) ∈ bag -> (0 < c)%Z ->
  fst <$> counter_set bag w 0 = fst <$> bag /\
  S (length (positive_words (counter_set bag w 0)))
  = length (positive_words bag) /\
  (forall w' c', w' <> w ->
     ((w', c') ∈ counter_set bag w 0 <-> (w', c') ∈ bag)) /\
  (forall c', (w, c') ∈ counter_set bag w 0 -> c' = 0%Z).
Proof.
  intros Hnd Hin Hc. induction bag as [|[w0 c0] rest IH].
  - apply elem_of_nil in Hin. contradiction.
  - rewrite fmap_cons in Hnd. apply NoDup_cons in Hnd as [Hfresh Hnd].
    simpl in Hfresh. simpl counter_set.
    destruct (String.eqb w0 w) eqn:Ew.
    + apply String.eqb_eq in Ew. subst w0.
      assert (c0 = c) as ->.
      { apply elem_of_cons in Hin as [[= ->]|Hin]; [reflexivity |].
        exfalso. apply Hfresh. apply list_elem_of_fmap. exists (w, c).
        split; [reflexivity | exact Hin]. }
      split; [reflexivity |]. split; [| split].
      * unfold positive_words. rewrite !filter_cons. simpl.
        destruct (decide (0 < 0)%Z); [lia |].
        destruct (decide (0 < c)%Z); [reflexivity | lia].
      * intros w' c' Hne. rewrite !elem_of_cons. split.
        -- intros [[= -> ->]|H]; [congruence | right; exact H].
        -- intros [[= -> ->]|H]; [congruence | right; exact H].
      * intros c' H. apply elem_of_cons in H as [[= ->]|H]; [reflexivity |].
        exfalso. apply Hfresh. apply list_elem_of_fmap. exists (w, c').
        split; [reflexivity | exact H].
    + apply String.eqb_neq in Ew.
      apply elem_of_cons in Hin as [[= -> ->]|Hin]; [congruence |].
      destruct (IH Hnd Hin) as (Hk & Hp & Hother & Hw).
      split; [| split; [| split]].
      * rewrite !fmap_cons, Hk. reflexivity.
      * unfold positive_words in *. rewrite !filter_cons. simpl.
        destruct (decide (0 < c0)%Z); simpl; rewrite <- Hp; reflexivity.
      * intros w' c' Hne. rewrite !elem_of_cons, (Hother w' c' Hne). reflexivity.
      * intros c' H. apply elem_of_cons in H as [[= -> ->]|H]; [congruence |].
        apply Hw. exact H.
Qed.

Lemma draw_names_enough (fuel : nat) (trends : list TrendLine) (n : nat)
    (negative_names : gset string) (bag : BagOfWords) :
  drawn_inv negative_names bag ->
  (n <= length (positive_words bag))%nat ->
  exists names bag',
    draw_names (S fuel) (PyTrendLine <$> trends) n negative_names bag
      = Some (Ok (names, bag')) /\
    forall w, w ∈ names ->
      w ∈ negative_names \/ exists c, (w, c) ∈ bag /\ (0 < c)%Z.
Proof.
  revert negative_names bag. induction n as [|n IH];
    intros negative_names bag [Hnd Hneg] Hn.
  - exists negative_names, bag. split; [reflexivity |]. intros w Hw. left. exact Hw.
  - destruct (most_common_1_positive bag) as (w & c & Emc & Hin & Hc).
    { intros Hnil. rewrite Hnil in Hn. simpl in Hn. lia. }
    destruct (counter_set_taken bag w c Hnd Hin Hc) as (Hk & Hp & Hother & Hw0).
    assert (w ∉ negative_names) as Hfresh.
    { intros Hw. specialize (Hneg w c Hw Hin). lia. }
    assert (draw_name (S fuel) (PyTrendLine <$> trends) negative_names bag
            = Some (Ok (w, counter_set bag w 0))) as Edraw.
    { cbn [draw_name]. rewrite Emc, str_in_lines.
      rewrite bool_decide_eq_false_2 by exact Hfresh. reflexivity. }
    destruct (IH (negative_names ∪ {[w]}) (counter_set bag w 0))
      as (names & bag' & E & Hnames).
    + split; [rewrite Hk; exact Hnd |].
      intros w1 c1 Hw1 Hin1. destruct (decide (w1 = w)) as [->|Hne].
      * rewrite (Hw0 c1 Hin1). lia.
      * apply (Hneg w1 c1); [| apply Hother; assumption].
        apply elem_of_union in Hw1 as [Hw1|Hw1]; [exact Hw1 |].
        apply elem_of_singleton in Hw1. congruence.
    + lia.
    + exists names, bag'. split.
      * cbn [draw_names]. rewrite Edraw. exact E.
      * intros w1 Hw1. destruct (Hnames w1 Hw1) as [Hold|(c1 & Hin1 & Hc1)].
        -- apply elem_of_union in Hold as [Hold|Hold]; [left; exact Hold |].
           apply elem_of_singleton in Hold as ->. right. exists c. split; assumption.
        -- right. exists c1. split; [| exact Hc1].
           destruct (decide (w1 = w)) as [->|Hne].
           ++ rewrite (Hw0 c1 Hin1) in Hc1. lia.
           ++ apply Hother; assumption.
Qed.

(** X24.  Given the lines themselves, as [construct_negative_trends] gives
    them, and a bag that counts at least [n] words above 0,
    [random_trend_names] returns: [n] different words, each a word of the
    bag with a count above 0. *)
Theorem random_trend_names_returns_with_enough_words (fuel : nat)
    (bag : BagOfWords) (lines : list TrendLine) (n : nat) :
  NoDup (fst <$> bag) ->
  (n <= length (positive_words bag))%nat ->
  exists names,
    BagOfWords_random_trend_names (S fuel) bag (PyTrendLine <$> lines) n
      = Some (Ok names) /\
    length names = n /\ NoDup names /\
    Forall (fun w => exists c, (w, c) ∈ bag /\ (0 < c)%Z) names.
Proof.
  intros Hnd Hn.
  destruct (draw_names_enough fuel lines n ∅ bag) as (names & bag' & E & Hnames).
  - split; [exact Hnd |]. intros w c Hw. apply elem_of_empty in Hw. contradiction.
  - exact Hn.
  - assert (BagOfWords_random_trend_names (S fuel) bag (PyTrendLine <$> lines) n
            = Some (Ok (elements names))) as Eres.
    { unfold BagOfWords_random_trend_names. rewrite E. reflexivity. }
    exists (elements names). split; [exact Eres |].
    destruct (random_trend_names_fresh _ _ _ _ _ Eres) as (Hdis & Hlen & _).
    split; [exact Hlen |]. split; [exact Hdis |].
    apply Forall_forall. intros w Hw. apply elem_of_elements in Hw.
    destruct (Hnames w Hw) as [Hempty|Hpos]; [| exact Hpos].
    apply elem_of_empty in Hempty. contradiction.
Qed.

Lemma random_trend_names_returns_with_enough_words_witness :
  exists names,
    BagOfWords_random_trend_names 1 obama_bag (PyTrendLine <$> [obama_line]) 2
      = Some (Ok names) /\
    length names = 2%nat /\ NoDup names /\
    Forall (fun w => exists c, (w, c) ∈ obama_bag /\ (0 < c)%Z) names.
Proof.
  apply (random_trend_names_returns_with_enough_words 0 obama_bag [obama_line] 2).
  - apply (bool_decide_unpack _). vm_compute. exact I.
  - vm_compute. lia.
Defined.

(** ** Reading the trends *)

Lemma catch_up_ends (fuel : nat) (ts : Z) (names : list string) (d : TrendTimes)
    (last_ts : Z) :
  (ts - last_ts <= Z.of_nat fuel)%Z ->
  (ts <= snd (catch_up fuel ts names d last_ts))%Z.
Proof.
  revert d last_ts. induction fuel as [|fuel IH]; intros d last_ts Hfuel; simpl.
  - lia.
  - destruct (last_ts <? ts)%Z eqn:E.
    + apply IH. lia.
    + apply Z.ltb_ge in E. simpl. exact E.
Qed.

Lemma times_ok_mono (last last' : Z) (times : list Z) :
  (last <= last')%Z -> times_ok last times -> times_ok last' times.
Proof.
  intros Hle (Hne & Hall & Hs). split; [exact Hne |]. split; [| exact Hs].
  eapply Forall_impl; [exact Hall |]. intros t [H1 H2]. split; [exact H1 | lia].
Qed.

Lemma times_ok_snoc (last : Z) (times : list Z) :
  (last mod 120 = 0)%Z -> times_ok last times -> times_ok last (times ++ [last]).
Proof.
  intros Hmod (Hne & Hall & Hs). split; [| split].
  - intros H. apply app_eq_nil in H as [_ H]. discriminate.
  - apply Forall_app. split; [exact Hall |].
    apply Forall_singleton. split; [exact Hmod | lia].
  - apply StronglySorted_app_2; [| exact Hs | repeat constructor].
    intros x1 x2 Hx1 Hx2. apply list_elem_of_singleton in Hx2 as ->.
    rewrite Forall_forall in Hall. apply (Hall x1 Hx1).
Qed.

Lemma record_topic_keys (topic : string) (last : Z) (d : TrendTimes) (n : string) :
  n ∈ fst <$> record_topic topic last d <-> n = topic \/ n ∈ fst <$> d.
Proof.
  induction d as [|[n0 times] rest IH]; simpl.
  - rewrite list_elem_of_singleton. split; [intros ->; left; reflexivity |].
    intros [->|H]; [reflexivity | apply elem_of_nil in H; contradiction].
  - destruct (String.eqb n0 topic) eqn:E; rewrite !fmap_cons, !elem_of_cons; simpl.
    + apply String.eqb_eq in E. subst n0. tauto.
    + rewrite IH. tauto.
Qed.

Lemma record_topic_keeps (topic : string) (last : Z) (d : TrendTimes) :
  (last mod 120 = 0)%Z ->
  NoDup (fst <$> d) -> Forall (fun entry => times_ok last (snd entry)) d ->
  NoDup (fst <$> record_topic topic last d) /\
  Forall (fun entry => times_ok last (snd entry)) (record_topic topic last d).
Proof.
  intros Hmod. induction d as [|[n0 times] rest IH]; intros Hnd Hall; simpl.
  - split.
    + apply NoDup_singleton.
    + apply Forall_singleton. simpl. split; [discriminate |]. split.
      * apply Forall_singleton. split; [exact Hmod | lia].
      * repeat constructor.
  - rewrite fmap_cons in Hnd. apply NoDup_cons in Hnd as [Hfresh Hnd].
    apply Forall_cons in Hall as [H0 Hall]. simpl in H0, Hfresh.
    destruct (String.eqb n0 topic) eqn:E.
    + split.
      * rewrite fmap_cons. apply NoDup_cons. split; assumption.
      * apply Forall_cons. split; [| exact Hall]. simpl.
        apply times_ok_snoc; assumption.
    + apply String.eqb_neq in E. destruct (IH Hnd Hall) as [Hnd' Hall'].
      split.
      * rewrite fmap_cons. apply NoDup_cons. split; [| exact Hnd']. simpl.
        rewrite record_topic_keys. intros [->|H]; [congruence | contradiction].
      * apply Forall_cons. split; assumption.
Qed.

Lemma record_topics_keep (names : list string) (last : Z) (d : TrendTimes) :
  (last mod 120 = 0)%Z ->
  NoDup (fst <$> d) -> Forall (fun entry => times_ok last (snd entry)) d ->
  NoDup (fst <$> foldl (fun d topic => record_topic topic last d) d names) /\
  Forall (fun entry => times_ok last (snd entry))
    (foldl (fun d topic => record_topic topic last d) d names).
Proof.
  intros Hmod. revert d. induction names as [|n ns IH]; intros d Hnd Hall; simpl.
  - split; assumption.
  - destruct (record_topic_keeps n last d Hmod Hnd Hall) as [Hnd' Hall'].
    apply IH; assumption.
Qed.

Lemma catch_up_keeps (fuel : nat) (ts : Z) (names : list string)
    (d : TrendTimes) (last : Z) :
  times_inv (d, last) -> times_inv (catch_up fuel ts names d last).
Proof.
  revert d last. induction fuel as [|fuel IH]; intros d last Hinv; simpl;
    [exact Hinv |].
  destruct (last <? ts)%Z; [| exact Hinv].
  destruct Hinv as (Hnd & Hall & Hmod & Hpos). cbn [fst snd] in *.
  destruct (record_topics_keep names last d Hmod Hnd Hall) as [Hnd' Hall'].
  apply IH. split; [exact Hnd' |]. split; [| split]; cbn [fst snd].
  - eapply Forall_impl; [exact Hall' |]. intros entry.
    apply times_ok_mono. lia.
  - rewrite <- Zplus_mod_idemp_l, Hmod. reflexivity.
  - lia.
Qed.

Lemma snapshot_step_keeps (st : TrendTimes * Z) (snap : Snapshot) :
  (forall ts, as_of snap = Some ts -> (0 <= ts)%Z) ->
  times_inv st -> times_inv (snapshot_step st snap).
Proof.
  intros Hts Hinv. unfold snapshot_step.
  destruct (as_of snap) as [ts|]; [| exact Hinv].
  specialize (Hts ts eq_refl). apply catch_up_keeps.
  destruct st as [d last]. destruct Hinv as (Hnd & Hall & Hmod & Hpos).
  cbn [fst snd] in *. destruct (last =? 0)%Z eqn:E.
  - apply Z.eqb_eq in E. subst last.
    pose proof (Z.mod_pos_bound ts 120 ltac:(lia)) as Hb.
    pose proof (Z.mod_le ts 120 Hts ltac:(lia)) as Hle.
    split; [exact Hnd |]. split; [| split]; cbn [fst snd].
    + eapply Forall_impl; [exact Hall |]. intros entry.
      apply times_ok_mono. lia.
    + rewrite Zminus_mod_idemp_r, Z.sub_diag. reflexivity.
    + lia.
  - split; [exact Hnd |]. split; [exact Hall |]. split; assumption.
Qed.

(** X25.  From lines whose times are not negative, [from_json_strings]
    returns trends of pairwise different names, each with at least one
    timestamp, every timestamp a multiple of 120 seconds, the timestamps of
    a trend in ascending order, and each trend with windows of 120
    seconds. *)
Theorem from_json_strings_timestamps (snaps : list Snapshot) :
  Forall (fun snap => forall ts, as_of snap = Some ts -> (0 <= ts)%Z) snaps ->
  NoDup (tt_name <$> TwitterTrend_from_json_strings snaps) /\
  Forall (fun trend =>
            timestamps trend <> [] /\
            Forall (fun t => (t mod 120 = 0)%Z) (timestamps trend) /\
            StronglySorted Z.le (timestamps trend) /\
            tt_window_size trend = 120%Z)
    (TwitterTrend_from_json_strings snaps).
Proof.
  intros Hsnaps. unfold TwitterTrend_from_json_strings.
  assert (times_inv (foldl snapshot_step ([], 0%Z) snaps)) as Hinv.
  { assert (times_inv ([], 0%Z)) as H0.
    { split; [apply NoDup_nil; exact I |]. split; [constructor |].
      split; [reflexivity | simpl; lia]. }
    revert H0. generalize (([], 0%Z) : TrendTimes * Z).
    induction Hsnaps as [|snap snaps Hsnap _ IH]; intros st Hst; [exact Hst |].
    simpl. apply IH. apply snapshot_step_keeps; assumption. }
  destruct (foldl snapshot_step ([], 0%Z) snaps) as [d last].
  destruct Hinv as (Hnd & Hall & _ & _). simpl in *. split.
  - rewrite <- list_fmap_compose. exact Hnd.
  - apply Forall_fmap. eapply Forall_impl; [exact Hall |].
    intros [n times] (Hne & Ht & Hs). simpl in *.
    split; [exact Hne |]. split; [| split; [exact Hs | reflexivity]].
    eapply Forall_impl; [exact Ht |]. intros t [H _]. exact H.
Qed.

Lemma from_json_strings_timestamps_witness :
  NoDup (tt_name <$> TwitterTrend_from_json_strings
                       [mkSnapshot (Some 130%Z) ["cat"; "dog"];
                        mkSnapshot None ["owl"];
                        mkSnapshot (Some 400%Z) ["cat"]]) /\
  Forall (fun trend =>
            timestamps trend <> [] /\
            Forall (fun t => (t mod 120 = 0)%Z) (timestamps trend) /\
            StronglySorted Z.le (timestamps trend) /\
            tt_window_size trend = 120%Z)
    (TwitterTrend_from_json_strings
       [mkSnapshot (Some 130%Z) ["cat"; "dog"];
        mkSnapshot None ["owl"];
        mkSnapshot (Some 400%Z) ["cat"]]).
Proof.
  apply (from_json_strings_timestamps
           [mkSnapshot (Some 130%Z) ["cat"; "dog"];
            mkSnapshot None ["owl"];
            mkSnapshot (Some 400%Z) ["cat"]]).
  repeat (apply Forall_cons; split; [intros ts [= <-]; lia |]).
  apply Forall_nil. exact I.
Defined.

(** ** The whole assembly *)

Lemma snapshot_step_catches_up (st : TrendTimes * Z) (snap : Snapshot) (ts : Z) :
  as_of snap = Some ts -> (ts <= snd (snapshot_step st snap))%Z.
Proof.
  intros H. unfold snapshot_step. rewrite H. apply catch_up_ends. lia.
Qed.

Lemma for_each_Ok_inv {A S : Type} (P : S -> Prop) (xs : list A)
    (body : A -> S -> result S) (st st' : S) :
  for_each xs body st = Ok st' -> P st ->
  (forall x s s', P s -> body x s = Ok s' -> P s') -> P st'.
Proof.
  revert st. induction xs as [|x xs IH]; intros st; simpl.
  - intros [= <-] H _. exact H.
  - destruct (body x st) as [s1|e] eqn:E; [| discriminate]. rewrite bind_Ok.
    intros Hrest Hst Hbody. apply (IH s1 Hrest); [| exact Hbody].
    exact (Hbody x st s1 Hst E).
Qed.

Lemma insert_record_labels (tweet : Tweet) (k : nat) (cell : TrendCell)
    (d : list TrendCell) :
  d !! k = Some cell ->
  trending <$> <[k := record_tweet tweet cell]> d = trending <$> d.
Proof.
  intros Hk. rewrite (insert_is_alter (record_tweet tweet) d k cell Hk).
  apply alter_record_labels.
Qed.

Lemma first_pass_line_frame (split : string -> list string)
    (memo : gmap string Z) (tweet : Tweet) (l l' : TrendLine) :
  first_pass_line split memo tweet l = Ok l' -> same_frame l l'.
Proof.
  unfold first_pass_line.
  destruct (tweet_hits split memo tweet l) as [[|]|e]; try discriminate;
    rewrite ?bind_Ok.
  - destruct (start_ts l) as [s|] eqn:Es; [| discriminate].
    destruct (window_size l =? 0)%Z; [discriminate |].
    destruct (py_index _ _) as [k|e]; [| discriminate]. rewrite bind_Ok.
    unfold getitem. destruct (data l !! k) as [cell|] eqn:Hk; [| discriminate].
    rewrite bind_Ok. intros [= <-]. unfold same_frame. simpl.
    split; [reflexivity |]. split; [congruence |]. split; [reflexivity |].
    apply insert_record_labels. exact Hk.
  - intros [= <-]. apply same_frame_refl.
Qed.

Lemma Forall2_same_frame_trans (xs ys zs : list TrendLine) :
  Forall2 same_frame xs ys -> Forall2 same_frame ys zs ->
  Forall2 same_frame xs zs.
Proof.
  intros H. revert zs. induction H as [|x y xs ys Hxy _ IH]; intros zs Hz.
  - inversion Hz. constructor.
  - inversion Hz as [|y' z ys' zs' Hyz Hrest]; subst. constructor.
    + eapply same_frame_trans; eassumption.
    + apply IH. exact Hrest.
Qed.

Lemma populate_keeps_frames (split : string -> list string)
    (lines out : list TrendLine) (tweets : list Tweet) :
  TrendLine_populate_from_file split lines tweets = Ok out ->
  Forall2 same_frame lines out.
Proof.
  unfold TrendLine_populate_from_file, first_pass.
  destruct (end_ts_memo lines) as [memo|e]; [| discriminate]. rewrite bind_Ok.
  destruct (for_each tweets _ lines) as [mid|e] eqn:Emid; [| discriminate].
  rewrite bind_Ok. intros Hout.
  apply (Forall2_same_frame_trans lines mid out).
  - apply (for_each_Ok_inv (Forall2 same_frame lines) _ _ _ _ Emid).
    + apply Forall_Forall2_diag. apply Forall_forall. intros l _.
      apply same_frame_refl.
    + intros t ls ls' Hls Hstep. apply comprehension_Ok_Forall2 in Hstep.
      apply (Forall2_same_frame_trans lines ls ls' Hls).
      eapply Forall2_impl; [exact Hstep |]. intros l l'.
      apply first_pass_line_frame.
  - apply comprehension_Ok_Forall2 in Hout.
    eapply Forall2_impl; [exact Hout |]. intros l l' Hl.
    destruct (second_pass_keeps (data l)) as (d & Ed & Ht & _).
    cbv beta in Hl. rewrite Ed, bind_Ok in Hl. injection Hl as <-.
    repeat split. exact Ht.
Qed.

Lemma label_by_labels (l l' : TrendLine) :
  trending <$> data l' = trending <$> data l -> label l' = label l.
Proof.
  intros H. unfold label, TrendLine_trending.
  assert (forall d, existsb trending d = existsb id (trending <$> d)) as Hex.
  { induction d as [|c d IH]; [reflexivity |]. simpl. rewrite IH. reflexivity. }
  rewrite !Hex, H. reflexivity.
Qed.

Lemma same_shape_labels (l l' : TrendLine) :
  same_shape l l' -> trending <$> data l' = trending <$> data l.
Proof.
  intros (_ & _ & _ & H). induction H as [|c c' d d' [Ht _] _ IH];
    [reflexivity |].
  rewrite !fmap_cons, Ht, IH. reflexivity.
Qed.

Lemma preempt_data (l0 l : TrendLine) :
  preempt l0 = Ok l ->
  data l = replicate TREND_PREEMT (TrendCell_new false) ++ data l0.
Proof.
  unfold preempt. destruct (start_ts l0); [| discriminate].
  intros [= <-]. reflexivity.
Qed.

Lemma positive_trends_all_trend (twitter_trends : list TwitterTrend)
    (positive : list TrendLine) :
  positive_trends_from twitter_trends = Ok positive ->
  Forall (fun l => label l = 1%Z) positive.
Proof.
  unfold positive_trends_from.
  destruct (comprehension_Forall derived_line
              (TrendLine_from_twitter_trend 120) twitter_trends)
    as (derived & -> & Hd).
  { intros tt _. apply from_twitter_trend_ok. }
  rewrite bind_Ok. intros Hpad. apply comprehension_Ok_Forall2 in Hpad.
  apply Forall_forall. intros l Hl. apply list_elem_of_lookup in Hl as [i Hi].
  destruct (Forall2_lookup_r _ _ _ _ _ Hpad Hi) as (l0 & Hl0 & Hpre).
  apply list_elem_of_lookup_2 in Hl0.
  unfold remove_short in Hl0. apply list_elem_of_filter in Hl0 as [Hlen Hl0].
  rewrite Forall_forall in Hd. destruct (Hd l0 Hl0) as [Hdata _].
  apply preempt_data in Hpre.
  unfold label, TrendLine_trending. rewrite Hpre, existsb_app, Hdata.
  unfold MINIMUM_TREND_SIZE in Hlen.
  destruct (length (data l0)) as [|k]; [lia |].
  cbn [replicate existsb trending TrendCell_new orb].
  rewrite orb_true_r. reflexivity.
Qed.

Lemma labels_constant (v : Z) (ls : list TrendLine) :
  Forall (fun l => label l = v) ls -> label <$> ls = replicate (length ls) v.
Proof.
  induction 1 as [|l ls Hl _ IH]; [reflexivity |].
  rewrite fmap_cons, Hl, IH. reflexivity.
Qed.

Lemma labels_by_rows (R : TrendLine -> TrendLine -> Prop)
    (xs ys : list TrendLine) :
  (forall l l', R l l' -> trending <$> data l' = trending <$> data l) ->
  Forall2 R xs ys -> label <$> ys = label <$> xs.
Proof.
  intros HR H. induction H as [|x y xs ys Hxy _ IH]; [reflexivity |].
  rewrite !fmap_cons, IH, (label_by_labels x y (HR x y Hxy)). reflexivity.
Qed.

(** X26.  A model [model_from_files] returns holds as many lines that do not
    trend as lines that trend, the trending ones first. *)
Theorem model_from_files_balanced (fuel : nat) (rng : nat -> nat)
    (split : string -> list string) (snaps : list Snapshot)
    (bag_of_words : BagOfWords) (tweets : list Tweet) (model : TrendModel) :
  TrendModel_model_from_files fuel rng split snaps bag_of_words tweets
    = Some (Ok model) ->
  exists k, label <$> trends model = replicate k 1%Z ++ replicate k 0%Z.
Proof.
  unfold TrendModel_model_from_files.
  destruct (positive_trends_from _) as [positive|e] eqn:Epos; [| discriminate].
  destruct (TrendLine_construct_negative_trends fuel rng positive bag_of_words)
    as [[negative|e]|] eqn:Eneg; try discriminate.
  intros [= Hmodel].
  destruct (TrendLine_populate_from_file split (positive ++ negative) tweets)
    as [mid|e] eqn:Emid; [| discriminate].
  rewrite bind_Ok in Hmodel. unfold TrendModel_normalize in Hmodel.
  pose proof (normalize_lines_cases mid) as Hnorm. simpl trends in Hmodel.
  destruct (existsb no_cells mid).
  { rewrite Hnorm in Hmodel. discriminate. }
  destruct Hnorm as (outs & Eouts & Hshape). rewrite Eouts in Hmodel.
  injection Hmodel as <-. simpl trends.
  exists (length positive).
  rewrite (labels_by_rows same_shape mid outs same_shape_labels Hshape).
  rewrite (labels_by_rows same_frame (positive ++ negative) mid).
  - rewrite fmap_app.
    destruct (negative_trends_shape _ _ _ _ _ Eneg) as (Hlen & _ & Hneg).
    rewrite (labels_constant 1 positive (positive_trends_all_trend _ _ Epos)).
    rewrite (labels_constant 0 negative), Hlen; [reflexivity |].
    eapply Forall_impl; [exact Hneg |]. intros l [Hl _].
    unfold label. rewrite Hl. reflexivity.
  - intros l l' (_ & _ & _ & H). exact H.
  - apply (populate_keeps_frames split _ _ tweets Emid).
Qed.

Lemma model_from_files_balanced_witness :
  exists model k,
    TrendModel_model_from_files 1 (fun _ => 0%nat) one_word storm_snaps
      [("rain", 3%Z)] storm_tweets = Some (Ok model) /\
    label <$> trends model = replicate k 1%Z ++ replicate k 0%Z.
Proof.
  eexists.
  assert (TrendModel_model_from_files 1 (fun _ => 0%nat) one_word storm_snaps
            [("rain", 3%Z)] storm_tweets = Some (Ok _)) as Hrun
    by (vm_compute; reflexivity).
  destruct (model_from_files_balanced _ _ _ _ _ _ _ Hrun) as [k Hk].
  exists k. split; [exact Hrun | exact Hk].
Defined.

(** ** The steps of the pipeline in their callers *)

Lemma same_shape_frame (l l' : TrendLine) : same_shape l l' -> same_frame l l'.
Proof.
  intros H. pose proof (same_shape_labels l l' H) as Hl.
  destruct H as (Hn & Hs & Hw & _). repeat split; assumption.
Qed.

(** C7.  In [model_from_files], of the lines derived from the trends read
    only those with 15 cells or more go on, each with 90 empty cells that do
    not trend before its own cells, in their order, and with its start moved
    back by 90 windows.  These padded lines are what the rest of the
    pipeline works on: the negative lines are made from them, and they are
    populated and normalized with the negative lines after them.  In a model
    returned they are the leading lines, with the names, starts, window
    sizes and cell labels the padding gave them. *)
Theorem model_from_files_drops_short_pads_rest (fuel : nat) (rng : nat -> nat)
    (split : string -> list string) (snaps : list Snapshot)
    (bag_of_words : BagOfWords) (tweets : list Tweet) :
  exists derived padded,
    comprehension (TrendLine_from_twitter_trend 120)
      (TwitterTrend_from_json_strings snaps) = Ok derived /\
    Forall2
      (fun trend out =>
         name out = name trend /\
         window_size out = window_size trend /\
         data out
           = replicate 90 (mkTrendCell false 0 0 0 0 0 0) ++ data trend /\
         exists s, start_ts trend = Some s /\
                   start_ts out = Some (s - window_size trend * 90)%Z)
      (filter (fun trend => (15 <= length (data trend))%nat) derived)
      padded /\
    TrendModel_model_from_files fuel rng split snaps bag_of_words tweets
    = match TrendLine_construct_negative_trends fuel rng padded
              bag_of_words with
      | None => None
      | Some (Raise e) => Some (Raise e)
      | Some (Ok negative_trends) =>
          Some (all_trends ←
                  TrendLine_populate_from_file split
                    (padded ++ negative_trends) tweets;
                TrendModel_normalize (mkTrendModel all_trends))
      end /\
    forall model,
      TrendModel_model_from_files fuel rng split snaps bag_of_words tweets
        = Some (Ok model) ->
      Forall2 same_frame padded (take (length padded) (trends model)).
Proof.
  destruct (positive_trends_from_padded (TwitterTrend_from_json_strings snaps))
    as (derived & padded & Ed & Ep & Hp).
  exists derived, padded. split; [exact Ed |]. split; [exact Hp |].
  unfold TrendModel_model_from_files. rewrite Ep.
  split; [reflexivity |].
  intros model Hmodel.
  destruct (TrendLine_construct_negative_trends fuel rng padded bag_of_words)
    as [[negative|e]|]; try discriminate.
  injection Hmodel as Hmodel.
  destruct (TrendLine_populate_from_file split (padded ++ negative) tweets)
    as [mid|e] eqn:Emid; [| discriminate].
  rewrite bind_Ok in Hmodel. unfold TrendModel_normalize in Hmodel.
  pose proof (normalize_lines_cases mid) as Hnorm. simpl trends in Hmodel.
  destruct (existsb no_cells mid).
  { rewrite Hnorm in Hmodel. discriminate. }
  destruct Hnorm as (outs & Eouts & Hshape). rewrite Eouts in Hmodel.
  injection Hmodel as <-. simpl trends.
  assert (Forall2 same_frame (padded ++ negative) outs) as Hall.
  { apply (Forall2_same_frame_trans _ mid).
    - apply (populate_keeps_frames split _ _ tweets Emid).
    - eapply Forall2_impl; [exact Hshape |]. apply same_shape_frame. }
  apply (Forall2_take _ _ _ (length padded)) in Hall.
  rewrite take_app_length in Hall. exact Hall.
Qed.

(** C8.  [populate_from_file] raises what its first pass raises, and
    otherwise returns the lines of the first pass after the second: name,
    start, window size and number of cells as they were, and every cell
    with its label and count kept; its follower, status and retweet totals
    divided by its count when the count is above 0 and left alone
    otherwise; the first cell with delta 0 and second difference 0, the
    second cell with the difference of the first two counts and second
    difference 0, and every later cell with the difference of its count and
    the one before and the difference of its delta and the delta before. *)
Theorem populate_averages_and_differences (split : string -> list string)
    (lines : list TrendLine) (tweets : list Tweet) :
  match first_pass split lines tweets with
  | Raise e => TrendLine_populate_from_file split lines tweets = Raise e
  | Ok accumulated =>
      exists out,
        TrendLine_populate_from_file split lines tweets = Ok out /\
        Forall2
          (fun line line' =>
             name line' = name line /\ start_ts line' = start_ts line /\
             window_size line' = window_size line /\
             length (data line') = length (data line) /\
             forall i orig, data line !! i = Some orig ->
               exists cell, data line' !! i = Some cell /\
                 trending cell = trending orig /\ count cell = count orig /\
                 (0 < count orig ->
                    avg_followers cell = avg_followers orig / count orig /\
                    avg_statuses cell = avg_statuses orig / count orig /\
                    retweets cell = retweets orig / count orig) /\
                 (count orig <= 0 ->
                    avg_followers cell = avg_followers orig /\
                    avg_statuses cell = avg_statuses orig /\
                    retweets cell = retweets orig) /\
                 (i = 0%nat -> delta cell = 0 /\ delta_delta cell = 0) /\
                 (forall prev, i = 1%nat -> data line !! 0%nat = Some prev ->
                    delta cell = count orig - count prev /\
                    delta_delta cell = 0) /\
                 (forall prev prev_out, (2 <= i)%nat ->
                    data line !! (i - 1)%nat = Some prev ->
                    data line' !! (i - 1)%nat = Some prev_out ->
                    delta cell = count orig - count prev /\
                    delta_delta cell = delta cell - delta prev_out))
          accumulated out
  end.
Proof.
  unfold TrendLine_populate_from_file.
  destruct (first_pass split lines tweets) as [accumulated|e];
    [| reflexivity].
  rewrite bind_Ok. apply comprehension_Forall2. intros line _.
  destruct (second_pass_per_cell (data line)) as (out & -> & Hlen & Hcells).
  rewrite bind_Ok. eexists. split; [reflexivity |].
  cbn [name start_ts window_size data].
  split; [reflexivity |]. split; [reflexivity |]. split; [reflexivity |].
  split; [exact Hlen | exact Hcells].
Qed.
